(** * PyDyTuesday: a shallow embedding of [pytytuesday.py]

    The development follows the Python module.  First the values the
    program handles: strings, calendar dates, JSON-like values, data
    frames.  Then the effects it performs: GET requests answered by the
    environment, printed messages, the attribute [rate_limit_remaining]
    of a client instance, exceptions.  Then the methods of class
    [TidyTuesdayPy] and the module-level convenience functions, each
    under its own name.  The method [readme], which works on the local
    machine, comes last, with the actions it performs there.  Theorems
    come after all definitions.

    Strings are sequences of characters with code points below 256; the
    character classes (digits, white space, letter case) are those
    Python applies to these characters.  The pandas readers, the
    temporary files of the local machine and the text of a year below
    1000 under [strftime] belong to the environment. *)

From Stdlib Require Import ZArith String Ascii List Lia Bool Sorted.
From stdpp Require Import base option list gmap strings sorting.

Open Scope string_scope.
Open Scope list_scope.

(** ** Exceptions and results

    Python exceptions that the modelled operations can raise.  Every one of
    them is an instance of [Exception], so a handler [except Exception]
    catches all of them. *)
Inductive exn : Type :=
  | KeyError
  | TypeError
  | ValueError
  | AttributeError
  | IndexError
  | OverflowError
  | OSError               (* raised by the file system *)
  | UnicodeEncodeError    (* raised when text is written to a file *)
  | RequestException      (* any exception raised by [requests.get] *)
  | JSONDecodeError       (* raised by [response.json()] *)
  | ParserError.          (* raised by a pandas reader *)

Inductive res (A : Type) : Type :=
  | Ok (a : A)
  | Raise (e : exn).
Arguments Ok {A} a.
Arguments Raise {A} e.

Definition res_bind {A B} (r : res A) (k : A -> res B) : res B :=
  match r with
  | Ok a => k a
  | Raise e => Raise e
  end.

Definition is_ok {A} (r : res A) : bool :=
  match r with Ok _ => true | Raise _ => false end.

Notation "'let?' x ':=' r 'in' k" := (res_bind r (fun x => k))
  (at level 10, x name, r at level 100, k at level 200,
   format "'[v' 'let?'  x  ':='  r  'in' '/' k ']'").

(** ** Characters and strings

    Python [str] values are modelled by [string]; the character tests are
    the ones Python applies to the code points below 256. *)
Module Str.

Definition code (c : ascii) : nat := nat_of_ascii c.

Definition is_digit (c : ascii) : bool :=
  (48 <=? code c)%nat && (code c <=? 57)%nat.

Definition digit_val (c : ascii) : Z := Z.of_nat (code c) - 48.

Definition digit_chr (k : Z) : ascii := ascii_of_nat (Z.to_nat (48 + k)).

(** [str.isspace] / regex [\s]: tab, line feed, vertical tab, form
    feed, carriage return, the four separators 0x1c..0x1f, the space,
    the next-line character 0x85 and the no-break space 0xa0. *)
Definition is_space (c : ascii) : bool :=
  ((9 <=? code c)%nat && (code c <=? 13)%nat)
  || ((28 <=? code c)%nat && (code c <=? 32)%nat)
  || (code c =? 133)%nat || (code c =? 160)%nat.

Definition is_newline (c : ascii) : bool := (code c =? 10)%nat.

(** The lower-case form of a character: the letters A..Z and the
    accented capitals 0xc0..0xde, without the multiplication sign 0xd7,
    move up by 32. *)
Definition lower_char (c : ascii) : ascii :=
  if ((65 <=? code c)%nat && (code c <=? 90)%nat)
     || ((192 <=? code c)%nat && (code c <=? 222)%nat
         && negb (code c =? 215)%nat)
  then ascii_of_nat (code c + 32) else c.

(** [s.lower()] *)
Fixpoint lower (s : string) : string :=
  match s with
  | EmptyString => EmptyString
  | String c s' => String (lower_char c) (lower s')
  end.

(** [s.startswith(p)] *)
Fixpoint startswith (s p : string) : bool :=
  match p, s with
  | EmptyString, _ => true
  | String _ _, EmptyString => false
  | String a p', String b s' => Ascii.eqb a b && startswith s' p'
  end.

(** [s.endswith(p)] *)
Definition endswith (s p : string) : bool :=
  startswith (String.rev s) (String.rev p).

(** [p in s] for two strings: substring test. *)
Fixpoint contains (s p : string) : bool :=
  startswith s p ||
  match s with
  | EmptyString => false
  | String _ s' => contains s' p
  end.

(** [s[:n]] for a non-negative [n]. *)
Fixpoint take (n : nat) (s : string) : string :=
  match n, s with
  | O, _ => EmptyString
  | S _, EmptyString => EmptyString
  | S n', String c s' => String c (take n' s')
  end.

Fixpoint lstrip (s : string) : string :=
  match s with
  | String c s' => if is_space c then lstrip s' else s
  | EmptyString => EmptyString
  end.

(** [s.strip()] *)
Definition strip (s : string) : string :=
  String.rev (lstrip (String.rev (lstrip s))).

(** The characters of [s], each as a one-character string: what
    iterating over a [str] yields. *)
Fixpoint chars (s : string) : list string :=
  match s with
  | EmptyString => []
  | String c s' => String c EmptyString :: chars s'
  end.

(** [s[n:]] for a non-negative [n]. *)
Fixpoint drop (n : nat) (s : string) : string :=
  match n, s with
  | O, _ => s
  | S _, EmptyString => EmptyString
  | S n', String _ s' => drop n' s'
  end.

(** [s.split(sep)] for a separator of one character; [cur] holds the
    current piece, reversed. *)
Fixpoint split_go (sep : ascii) (s : string) (cur : string) : list string :=
  match s with
  | EmptyString => [String.rev cur]
  | String c s' =>
      if Ascii.eqb c sep then String.rev cur :: split_go sep s' EmptyString
      else split_go sep s' (String c cur)
  end.

Definition split (sep : ascii) (s : string) : list string :=
  split_go sep s EmptyString.

(** [sep.join(l)] *)
Fixpoint join (sep : string) (l : list string) : string :=
  match l with
  | [] => EmptyString
  | [x] => x
  | x :: rest => x +:+ sep +:+ join sep rest
  end.

(** Decimal rendering of a natural number, most significant digit
    first; [fuel] bounds the number of digits. *)
Fixpoint dec_digits (fuel : nat) (n : Z) (acc : string) : string :=
  match fuel with
  | O => acc
  | S fuel' =>
      let acc' := String (digit_chr (n mod 10)) acc in
      if n / 10 =? 0 then acc' else dec_digits fuel' (n / 10) acc'
  end%Z.

(** [str(n)] for an [int]. *)
Definition of_Z (n : Z) : string :=
  match n with
  | Z0 => "0"
  | Zpos _ => dec_digits (S (Z.to_nat (Z.log2 n))) n ""
  | Zneg _ => String "-" (dec_digits (S (Z.to_nat (Z.log2 (- n)))) (- n) "")
  end.

End Str.

(** ** Calendar dates

    The part of Python's [datetime] module the program uses, after the
    reference implementation [Lib/_pydatetime.py]: proleptic Gregorian
    dates between 0001-01-01 and 9999-12-31, their ordinals, weekdays,
    subtraction of a number of days, and the [%Y-%m-%d] format in both
    directions. *)
Module Date.

Open Scope Z_scope.

Record date : Type := mkdate { year : Z; month : Z; day : Z }.

Definition MINYEAR : Z := 1.
Definition MAXYEAR : Z := 9999.
Definition MAXORDINAL : Z := 3652059.

Definition is_leap (y : Z) : bool :=
  (y mod 4 =? 0) && (negb (y mod 100 =? 0) || (y mod 400 =? 0)).

Definition days_before_year (y : Z) : Z :=
  let y' := y - 1 in y' * 365 + y' / 4 - y' / 100 + y' / 400.

Definition days_in_month (y m : Z) : Z :=
  match m with
  | 1 => 31 | 2 => if is_leap y then 29 else 28 | 3 => 31 | 4 => 30
  | 5 => 31 | 6 => 30 | 7 => 31 | 8 => 31 | 9 => 30 | 10 => 31
  | 11 => 30 | 12 => 31 | _ => 0
  end.

(** [_DAYS_BEFORE_MONTH] *)
Definition DAYS_BEFORE_MONTH (m : Z) : Z :=
  match m with
  | 1 => 0 | 2 => 31 | 3 => 59 | 4 => 90 | 5 => 120 | 6 => 151
  | 7 => 181 | 8 => 212 | 9 => 243 | 10 => 273 | 11 => 304 | 12 => 334
  | _ => 0
  end.

(** [_DAYS_IN_MONTH], the non-leap table. *)
Definition DAYS_IN_MONTH (m : Z) : Z :=
  match m with
  | 1 => 31 | 2 => 28 | 3 => 31 | 4 => 30 | 5 => 31 | 6 => 30
  | 7 => 31 | 8 => 31 | 9 => 30 | 10 => 31 | 11 => 30 | 12 => 31
  | _ => 0
  end.

Definition days_before_month (y m : Z) : Z :=
  DAYS_BEFORE_MONTH m + (if (2 <? m) && is_leap y then 1 else 0).

Definition ymd2ord (y m d : Z) : Z :=
  days_before_year y + days_before_month y m + d.

Definition DI400Y : Z := 146097.
Definition DI100Y : Z := 36524.
Definition DI4Y : Z := 1461.

(** The end of [_ord2ymd]: month and day of the [n]-th day (from 0)
    of a year, with the estimate [(n + 50) >> 5] of the month
    corrected when it is one too large. *)
Definition month_day (leapyear : bool) (n : Z) : Z * Z :=
  let m := Z.shiftr (n + 50) 5 in
  let preceding :=
    DAYS_BEFORE_MONTH m + (if (2 <? m) && leapyear then 1 else 0) in
  if n <? preceding then
    let m' := m - 1 in
    let preceding' :=
      preceding
      - (DAYS_IN_MONTH m' + (if (m' =? 2) && leapyear then 1 else 0)) in
    (m', n - preceding' + 1)
  else (m, n - preceding + 1).

(** [_ord2ymd] *)
Definition ord2ymd (n : Z) : date :=
  let n := n - 1 in
  let n400 := n / DI400Y in
  let n := n mod DI400Y in
  let y := n400 * 400 + 1 in
  let n100 := n / DI100Y in
  let n := n mod DI100Y in
  let n4 := n / DI4Y in
  let n := n mod DI4Y in
  let n1 := n / 365 in
  let n := n mod 365 in
  let y := y + n100 * 100 + n4 * 4 + n1 in
  if (n1 =? 4) || (n100 =? 4) then mkdate (y - 1) 12 31
  else
    let leapyear := (n1 =? 3) && (negb (n4 =? 24) || (n100 =? 3)) in
    let '(m, d) := month_day leapyear n in
    mkdate y m d.

(** What the constructor [date(year, month, day)] accepts. *)
Definition valid_b (y m d : Z) : bool :=
  (MINYEAR <=? y) && (y <=? MAXYEAR) && (1 <=? m) && (m <=? 12)
  && (1 <=? d) && (d <=? days_in_month y m).

Definition valid (d : date) : Prop :=
  valid_b (year d) (month d) (day d) = true.

Definition make (y m d : Z) : res date :=
  if valid_b y m d then Ok (mkdate y m d) else Raise ValueError.

Definition toordinal (d : date) : Z := ymd2ord (year d) (month d) (day d).

(** [d.weekday()]: Monday is 0, Sunday is 6. *)
Definition weekday (d : date) : Z := (toordinal d + 6) mod 7.

(** [d - timedelta(days=k)]; the result must be a representable date. *)
Definition sub_days (d : date) (k : Z) : res date :=
  let o := toordinal d - k in
  if (0 <? o) && (o <=? MAXORDINAL) then Ok (ord2ymd o)
  else Raise OverflowError.

Definition pad2 (n : Z) : string :=
  String (Str.digit_chr (n / 10 mod 10))
    (String (Str.digit_chr (n mod 10)) EmptyString).

Definition pad4 (n : Z) : string :=
  String (Str.digit_chr (n / 1000 mod 10))
    (String (Str.digit_chr (n / 100 mod 10)) (pad2 n)).

(** [d.isoformat()]: the form YYYY-MM-DD. *)
Definition isoformat (d : date) : string :=
  pad4 (year d) +:+ "-" +:+ pad2 (month d) +:+ "-" +:+ pad2 (day d).

(** [d.strftime("%Y-%m-%d")].  The directive [%Y] is expanded by the C
    library of the platform; a year of four digits is written as it is,
    and [low_year] tells how the library writes a year below 1000
    (glibc writes it without leading zeros, others with four digits). *)
Definition strftime (low_year : Z -> string) (d : date) : string :=
  (if year d <? 1000 then low_year (year d) else pad4 (year d))
  +:+ "-" +:+ pad2 (month d) +:+ "-" +:+ pad2 (day d).

(** Parsing with the format [%Y-%m-%d].  [datetime.strptime] turns the
    format into the regular expression
    [(\d\d\d\d)-(1[0-2]|0[1-9]|[1-9])-(3[0-1]|[1-2]\d|0[1-9]|[1-9]| [1-9])],
    matches it at the start of the input, and refuses input left over.
    Each field parser lists its alternatives in the order the regular
    expression tries them. *)
Definition parse_Y (s : string) : list (Z * string) :=
  match s with
  | String a (String b (String c (String d rest))) =>
      if Str.is_digit a && Str.is_digit b && Str.is_digit c && Str.is_digit d
      then [(1000 * Str.digit_val a + 100 * Str.digit_val b
             + 10 * Str.digit_val c + Str.digit_val d, rest)]
      else []
  | _ => []
  end.

Definition in_range (lo hi : Z) (c : ascii) : bool :=
  Str.is_digit c && (lo <=? Str.digit_val c) && (Str.digit_val c <=? hi).

Definition two (a b : ascii) : Z := 10 * Str.digit_val a + Str.digit_val b.

Definition parse_m (s : string) : list (Z * string) :=
  match s with
  | String a rest1 =>
      match rest1 with
      | String b rest2 =>
          (if in_range 1 1 a && in_range 0 2 b then [(two a b, rest2)] else [])
          ++ (if in_range 0 0 a && in_range 1 9 b then [(two a b, rest2)] else [])
      | EmptyString => []
      end
      ++ (if in_range 1 9 a then [(Str.digit_val a, rest1)] else [])
  | EmptyString => []
  end.

Definition parse_d (s : string) : list (Z * string) :=
  match s with
  | String a rest1 =>
      match rest1 with
      | String b rest2 =>
          (if in_range 3 3 a && in_range 0 1 b then [(two a b, rest2)] else [])
          ++ (if in_range 1 2 a && in_range 0 9 b then [(two a b, rest2)] else [])
          ++ (if in_range 0 0 a && in_range 1 9 b then [(two a b, rest2)] else [])
      | EmptyString => []
      end
      ++ (if in_range 1 9 a then [(Str.digit_val a, rest1)] else [])
      ++ match rest1 with
         | String b rest2 =>
             if Ascii.eqb a " " && in_range 1 9 b
             then [(Str.digit_val b, rest2)] else []
         | EmptyString => []
         end
  | EmptyString => []
  end.

Definition expect_dash (s : string) : list string :=
  match s with
  | String c rest => if Ascii.eqb c "-" then [rest] else []
  | EmptyString => []
  end.

(** All the ways the regular expression matches a prefix of [s], in
    backtracking order: year, month, day and the unmatched rest. *)
Definition regex_matches (s : string) : list (Z * Z * Z * string) :=
  '(y, s1) ← parse_Y s;
  s2 ← expect_dash s1;
  '(m, s3) ← parse_m s2;
  s4 ← expect_dash s3;
  '(d, s5) ← parse_d s4;
  [(y, m, d, s5)].

(** [datetime.datetime.strptime(s, "%Y-%m-%d")], as a date. *)
Definition strptime (s : string) : res date :=
  match regex_matches s with
  | (y, m, d, rest) :: _ =>
      match rest with
      | EmptyString => make y m d
      | String _ _ => Raise ValueError      (* unconverted data remains *)
      end
  | [] => Raise ValueError                  (* does not match format *)
  end.

(** The check that [month_day] inverts [_DAYS_BEFORE_MONTH], run over
    the days of a year. *)
Definition month_day_ok (leapyear : bool) (n : Z) : bool :=
  let '(m, d) := month_day leapyear n in
  (1 <=? m) && (m <=? 12) && (1 <=? d)
  && (d <=? DAYS_IN_MONTH m + (if (m =? 2) && leapyear then 1 else 0))
  && (DAYS_BEFORE_MONTH m + (if (2 <? m) && leapyear then 1 else 0) + d
      =? n + 1).

Fixpoint all_from (f : Z -> bool) (lo : Z) (n : nat) : bool :=
  match n with
  | O => true
  | S k => f lo && all_from f (lo + 1) k
  end.

End Date.


(** ** Python values

    The values that travel through the program without a static shape:
    decoded JSON bodies of remote responses and the metadata dictionary
    handed from [tt_load_gh] to the download operations.  A [VDict] lists
    its items in insertion order; a key is looked up at its first item. *)
#[warnings="-register-all"]
Inductive value : Type :=
  | VNone
  | VBool (b : bool)
  | VInt (n : Z)
  | VStr (s : string)
  | VList (l : list value)
  | VDict (kvs : list (string * value)).

(** A [pandas.DataFrame]: named columns and rows of cells. *)
Inductive cell : Type :=
  | CInt (n : Z)
  | CStr (s : string).

Record DataFrame : Type := mkframe {
  columns : list string;
  rows : list (list cell)
}.

(** [pd.DataFrame()] *)
Definition empty_frame : DataFrame := mkframe [] [].

Module Py.

Fixpoint assoc {A} (k : string) (kvs : list (string * A)) : option A :=
  match kvs with
  | [] => None
  | (k', v) :: rest => if String.eqb k k' then Some v else assoc k rest
  end.

(** [bool(v)] *)
Definition truthy (v : value) : bool :=
  match v with
  | VNone => false
  | VBool b => b
  | VInt n => negb (n =? 0)%Z
  | VStr s => negb (String.eqb s "")
  | VList l => match l with [] => false | _ => true end
  | VDict kvs => match kvs with [] => false | _ => true end
  end.

(** [v[k]] for a string key [k]. *)
Definition getitem (v : value) (k : string) : res value :=
  match v with
  | VDict kvs =>
      match assoc k kvs with
      | Some x => Ok x
      | None => Raise KeyError
      end
  | _ => Raise TypeError
  end.

(** [len(v)] *)
Definition len (v : value) : res Z :=
  match v with
  | VStr s => Ok (Z.of_nat (String.length s))
  | VList l => Ok (Z.of_nat (length l))
  | VDict kvs => Ok (Z.of_nat (length kvs))
  | _ => Raise TypeError
  end.

(** [v[i]] for an integer [i] with [0 <= i]. *)
Definition getitem_int (v : value) (i : Z) : res value :=
  match v with
  | VList l =>
      match l !! Z.to_nat i with
      | Some x => Ok x
      | None => Raise IndexError
      end
  | VStr s =>
      match String.get (Z.to_nat i) s with
      | Some c => Ok (VStr (String c EmptyString))
      | None => Raise IndexError
      end
  | VDict _ => Raise KeyError
  | _ => Raise TypeError
  end.

(** What [for x in v] iterates over. *)
Definition iter (v : value) : res (list value) :=
  match v with
  | VList l => Ok l
  | VDict kvs => Ok (map (fun kv => VStr (fst kv)) kvs)
  | VStr s => Ok (map VStr (Str.chars s))
  | _ => Raise TypeError
  end.

(** [v == s] for a string [s]. *)
Definition eq_str (v : value) (s : string) : bool :=
  match v with
  | VStr s' => String.eqb s' s
  | _ => false
  end.

(** [k in v] for a string [k]. *)
Definition contains (k : string) (v : value) : res bool :=
  match v with
  | VDict kvs => Ok (match assoc k kvs with Some _ => true | None => false end)
  | VList l => Ok (existsb (fun x => eq_str x k) l)
  | VStr s => Ok (Str.contains s k)
  | _ => Raise TypeError
  end.

(** [v < n] for an integer [n]; [bool] is a subclass of [int]. *)
Definition lt_int (v : value) (n : Z) : res bool :=
  match v with
  | VInt m => Ok (m <? n)%Z
  | VBool b => Ok ((if b then 1 else 0) <? n)%Z
  | _ => Raise TypeError
  end.

(** [v.lower()] *)
Definition lower (v : value) : res string :=
  match v with
  | VStr s => Ok (Str.lower s)
  | _ => Raise AttributeError
  end.

Definition is_none (v : value) : bool :=
  match v with VNone => true | _ => false end.

(** [hash(v)] succeeds: lists and dicts are unhashable. *)
Definition hashable (v : value) : bool :=
  match v with
  | VList _ | VDict _ => false
  | _ => true
  end.

Definition as_int (v : value) : option Z :=
  match v with
  | VInt n => Some n
  | VBool b => Some (if b then 1 else 0)%Z
  | _ => None
  end.

(** Equality of two hashable values as dictionary keys. *)
Definition key_eq (a b : value) : bool :=
  match a, b with
  | VNone, VNone => true
  | VStr s, VStr t => String.eqb s t
  | _, _ =>
      match as_int a, as_int b with
      | Some m, Some n => (m =? n)%Z
      | _, _ => false
      end
  end.

(** [d[k] = x] on a dictionary kept as a list of items: an existing
    key keeps its place and its first spelling. *)
Fixpoint setitem {A} (d : list (value * A)) (k : value) (x : A)
  : list (value * A) :=
  match d with
  | [] => [(k, x)]
  | (k', x') :: rest =>
      if key_eq k' k then (k', x) :: rest else (k', x') :: setitem rest k x
  end.

End Py.

(** ** [os.path.splitext] (POSIX flavour) *)
Module Path.

(** [p.rfind(c)]: the last index of [c], or -1. *)
Fixpoint rfind_from (i : Z) (c : ascii) (p : string) (found : Z) : Z :=
  match p with
  | EmptyString => found
  | String a p' =>
      rfind_from (i + 1) c p' (if Ascii.eqb a c then i else found)
  end.

Definition rfind (c : ascii) (p : string) : Z := rfind_from 0 c p (-1).

(** The loop of [genericpath._splitext] that skips leading dots. *)
Fixpoint splitext_loop (fuel : nat) (p : string) (filenameIndex dotIndex : nat)
  : option (string * string) :=
  match fuel with
  | O => None
  | S fuel' =>
      if (filenameIndex <? dotIndex)%nat then
        if negb (String.eqb (substring filenameIndex 1 p) ".") then
          Some (substring 0 dotIndex p,
                substring dotIndex (String.length p - dotIndex) p)
        else splitext_loop fuel' p (S filenameIndex) dotIndex
      else None
  end.

Definition splitext (p : string) : string * string :=
  let sepIndex := rfind "/" p in
  let dotIndex := rfind "." p in
  if (sepIndex <? dotIndex)%Z then
    match splitext_loop (Z.to_nat dotIndex) p
            (Z.to_nat (sepIndex + 1)) (Z.to_nat dotIndex) with
    | Some r => r
    | None => (p, EmptyString)
    end
  else (p, EmptyString).

(** [os.path.splitext(v)]: anything but a string is refused. *)
Definition splitext_value (v : value) : res (string * string) :=
  match v with
  | VStr p => Ok (splitext p)
  | _ => Raise TypeError
  end.

End Path.


(** ** Regular expressions of the catalogue listing *)
Module Re.

(** [re.match(r"^\d{4}-\d{2}-\d{2}$", s)] succeeds.  Without the
    MULTILINE flag [$] matches at the end of the string and also just
    before a line feed that ends the string. *)
Definition is_date_name (s : string) : bool :=
  match s with
  | String y1 (String y2 (String y3 (String y4 (String d1
      (String m1 (String m2 (String d2 (String a1 (String a2 rest))))))))) =>
      Str.is_digit y1 && Str.is_digit y2 && Str.is_digit y3 && Str.is_digit y4
      && Ascii.eqb d1 "-" && Str.is_digit m1 && Str.is_digit m2
      && Ascii.eqb d2 "-" && Str.is_digit a1 && Str.is_digit a2
      && match rest with
         | EmptyString => true
         | String c EmptyString => Str.is_newline c
         | _ => false
         end
  | _ => false
  end.

(** [re.match] on a value: a non-string argument is a [TypeError]. *)
Definition match_date_name (v : value) : res bool :=
  match v with
  | VStr s => Ok (is_date_name s)
  | _ => Raise TypeError
  end.

Fixpoint skip_spaces (s : string) : string :=
  match s with
  | String c s' => if Str.is_space c then skip_spaces s' else s
  | EmptyString => EmptyString
  end.

(** The lazy group [(.*?)] followed by [(?:\n|$)]: everything up to
    the next line feed or the end. *)
Fixpoint until_newline (s : string) : string :=
  match s with
  | String c s' =>
      if Str.is_newline c then EmptyString else String c (until_newline s')
  | EmptyString => EmptyString
  end.

(** [re.search(r"#\s+(.*?)(?:\n|$)", s)]: group 1 of the leftmost
    match, if there is one. *)
Fixpoint search_title (s : string) : option string :=
  match s with
  | EmptyString => None
  | String c s' =>
      if Ascii.eqb c "#" then
        match s' with
        | String w _ =>
            if Str.is_space w then Some (until_newline (skip_spaces s'))
            else search_title s'
        | EmptyString => None
        end
      else search_title s'
  end.

End Re.

(** ** The rendering of a README: [_markdown_to_html]

    The substitutions of the method, each regular expression read as
    Python's [re] reads it. *)
Module Markdown.

(** [re.sub(r'^M(.*?)$', r'<T>\1</T>', s, flags=re.MULTILINE)] for a
    marker [M] and a tag [T]: with MULTILINE the pattern matches a whole
    line that starts with the marker, so the substitution works line by
    line. *)
Definition heading_line (marker tag line : string) : string :=
  if Str.startswith line marker then
    "<" +:+ tag +:+ ">" +:+ Str.drop (String.length marker) line
    +:+ "</" +:+ tag +:+ ">"
  else line.

Definition headings (marker tag s : string) : string :=
  Str.join (String "010" EmptyString)
    (map (heading_line marker tag) (Str.split "010" s)).

Definition prepend (c : ascii) (r : option (string * string))
    : option (string * string) :=
  match r with
  | Some (group, rest) => Some (String c group, rest)
  | None => None
  end.

(** After a ["["]: the lazy group [(.*?)] up to the first ["]("] of the
    line, and what follows it. *)
Fixpoint link_text (s : string) : option (string * string) :=
  match s with
  | EmptyString => None
  | String c s' =>
      if Str.is_newline c then None
      else if Ascii.eqb c "]" then
        match s' with
        | String c' rest =>
            if Ascii.eqb c' "(" then Some (EmptyString, rest)
            else prepend c (link_text s')
        | EmptyString => None
        end
      else prepend c (link_text s')
  end.

(** After a ["]("]: the lazy group up to the first [")"] of the line. *)
Fixpoint link_target (s : string) : option (string * string) :=
  match s with
  | EmptyString => None
  | String c s' =>
      if Str.is_newline c then None
      else if Ascii.eqb c ")" then Some (EmptyString, s')
      else prepend c (link_target s')
  end.

Definition quote : string := String "034" EmptyString.

(** [re.sub(r'\[(.*?)\]\((.*?)\)', r'<a href="\2">\1</a>', s)]; [fuel]
    bounds the number of characters scanned. *)
Fixpoint links (fuel : nat) (s : string) : string :=
  match fuel, s with
  | O, _ => s
  | _, EmptyString => EmptyString
  | S fuel', String c s' =>
      let skip := String c (links fuel' s') in
      if Ascii.eqb c "[" then
        match link_text s' with
        | Some (text, after_text) =>
            match link_target after_text with
            | Some (target, rest) =>
                "<a href=" +:+ quote +:+ target +:+ quote +:+ ">" +:+ text
                +:+ "</a>" +:+ links fuel' rest
            | None => skip
            end
        | None => skip
        end
      else skip
  end.

(** The lazy group [(.*?)] with DOTALL up to the next fence, and what
    follows the fence. *)
Fixpoint until_fence (s : string) : option (string * string) :=
  match s with
  | EmptyString => None
  | String c s' =>
      if Str.startswith s "```" then Some (EmptyString, Str.drop 3 s)
      else prepend c (until_fence s')
  end.

(** [re.sub(r'```(.*?)```', r'<pre><code>\1</code></pre>', s,
    flags=re.DOTALL)] *)
Fixpoint code_blocks (fuel : nat) (s : string) : string :=
  match fuel, s with
  | O, _ => s
  | _, EmptyString => EmptyString
  | S fuel', String c s' =>
      let skip := String c (code_blocks fuel' s') in
      if Str.startswith s "```" then
        match until_fence (Str.drop 3 s) with
        | Some (code, rest) =>
            "<pre><code>" +:+ code +:+ "</code></pre>" +:+ code_blocks fuel' rest
        | None => skip
        end
      else skip
  end.

(** [s.replace('\n', '<br>')] *)
Fixpoint line_breaks (s : string) : string :=
  match s with
  | EmptyString => EmptyString
  | String c s' =>
      if Str.is_newline c then "<br>" +:+ line_breaks s'
      else String c (line_breaks s')
  end.

(** The document around the fragment, as the f-string writes it. *)
Definition document_head : string := "
        <!DOCTYPE html>
        <html>
        <head>
            <title>TidyTuesday README</title>
            <style>
                body { font-family: Arial, sans-serif; margin: 20px; line-height: 1.6; }
                h1, h2, h3 { color: #333; }
                pre { background-color: #f4f4f4; padding: 10px; border-radius: 5px; }
                a { color: #0366d6; }
            </style>
        </head>
        <body>
            ".

Definition document_foot : string := "
        </body>
        </html>
        ".

End Markdown.

(** ** The outside world and the effects of the program *)

(** What [requests.get] returns: the status, the body as text and as
    bytes, and the body decoded as JSON ([None]: [response.json()]
    raises). *)
Record Response : Type := mkresponse {
  status_code : Z;
  text : string;
  content : string;
  json : option value
}.

(** Everything the program takes from its environment.  [remote n url]
    is the outcome of the [n]-th GET request of the run when it asks for
    [url] ([None]: [requests.get] raises), so that successive requests
    for one address may be answered differently.  [utcnow] is the
    current UTC date and hour.  The pandas readers ([read_csv] with its
    separator, [read_excel], [read_json]) take the bytes of the file
    they are pointed at.  [repr] renders lists and dictionaries as
    [str()] does.  [strftime_year] is the text of a year below 1000
    under [strftime("%Y")].  [temp_file c suffix] is what the local
    machine answers, after [c] requests, when a temporary file whose
    name ends in [suffix] is to be created and filled: the path it
    chooses for the file, to which the suffix is added, or the
    exception (a file system refuses a name that is too long).
    [write_text t] is the outcome of writing the text [t] to a file in
    the encoding of the locale. *)
Record Env : Type := mkenv {
  remote : nat -> string -> option Response;
  utcnow : Date.date * Z;
  read_csv : ascii -> string -> res DataFrame;
  read_excel : string -> res DataFrame;
  read_json : string -> res DataFrame;
  repr : value -> string;
  strftime_year : Z -> string;
  temp_file : nat -> string -> res string;
  write_text : string -> res unit
}.

(** One constructor per [print] call of the program, carrying the
    values its f-string interpolates. *)
Inductive msg : Type :=
  | RequestsRemaining (n : value)
  | RateLimitTooLow
  | ErrorFetchingData (status : Z)
  | AvailableDatasets
  | AvailableRule
  | YearHeading (year : value)
  | IndentedDataset (date title : string)
  | Error (e : exn)
  | ErrorFetchingYear (year : string) (status : Z)
  | AvailableDatasetsFor (year : string)
  | YearRule
  | DatasetLine (date title : string)
  | NoDatasetsFound (year : string)
  | WeekOutOfRange (week : Z) (year : string)
  | ErrorFetchingDate (date : string) (status : Z)
  | InvalidData
  | FileIndexOutOfRange (index : Z)
  | FileNotFound (name : string)
  | Downloading (name : value)
  | ErrorDownloadingFile (status : Z)
  | ErrorDownloadingFileExn (e : exn)
  | UnsupportedFormat (name : value)
  | SuccessfullyLoaded (name : value)
  | WarningFileNotFound (name : string)
  | ErrorDownloading (name : value) (status : Z)
  | ErrorProcessing (name : value) (e : exn)
  | ErrorDownloadingFiles (e : exn).

(** What an observer of a run sees, in order. *)
Inductive event : Type :=
  | Request (url : string)
  | Print (m : msg).

(** The state a client instance carries between calls: the number of
    GET requests issued so far and the attribute
    [self.rate_limit_remaining]. *)
Record state : Type := mkstate {
  clock : nat;
  rate_limit_remaining : value
}.

(** Computations: state passing, a log of events, and exceptions.  A
    computation that raises keeps the state and the events it produced
    before raising. *)
Definition M (A : Type) : Type := state -> res A * state * list event.

Definition ret {A} (a : A) : M A := fun s => (Ok a, s, []).

Definition raise {A} (e : exn) : M A := fun s => (Raise e, s, []).

Definition bind {A B} (m : M A) (k : A -> M B) : M B :=
  fun s =>
    match m s with
    | (Ok a, s1, l1) =>
        match k a s1 with
        | (r, s2, l2) => (r, s2, l1 ++ l2)
        end
    | (Raise e, s1, l1) => (Raise e, s1, l1)
    end.

(** [try: m  except Exception as e: h e] *)
Definition try_except {A} (m : M A) (h : exn -> M A) : M A :=
  fun s =>
    match m s with
    | (Ok a, s1, l1) => (Ok a, s1, l1)
    | (Raise e, s1, l1) =>
        match h e s1 with
        | (r, s2, l2) => (r, s2, l1 ++ l2)
        end
    end.

Definition lift {A} (r : res A) : M A := fun s => (r, s, []).

Definition print (m : msg) : M unit := fun s => (Ok tt, s, [Print m]).

Definition get_rate_limit_remaining : M value :=
  fun s => (Ok (rate_limit_remaining s), s, []).

Definition set_rate_limit_remaining (v : value) : M unit :=
  fun s => (Ok tt, mkstate (clock s) v, []).

Declare Scope py_scope.
Delimit Scope py_scope with py.
Notation "x <- m ;; k" := (bind m (fun x => k))
  (at level 100, m at next level, right associativity) : py_scope.
Notation "m ;; k" := (bind m (fun _ => k))
  (at level 100, right associativity) : py_scope.
Open Scope py_scope.

(** [for x in l: body x], the body run for its effects. *)
Fixpoint for_each {A} (l : list A) (body : A -> M unit) : M unit :=
  match l with
  | [] => ret tt
  | x :: rest => body x ;; for_each rest body
  end.

(** [response.json()] *)
Definition response_json (r : Response) : res value :=
  match json r with
  | Some v => Ok v
  | None => Raise JSONDecodeError
  end.

(** A [list.sort(key=...)] on string keys: the stable sort, by insertion
    from the right. *)
Section StableSort.
Context {A : Type} (key : A -> string).

Fixpoint insert_sorted (x : A) (l : list A) : list A :=
  match l with
  | [] => [x]
  | y :: rest =>
      if String.leb (key x) (key y) then x :: y :: rest
      else y :: insert_sorted x rest
  end.

Definition sort_by : list A -> list A := foldr insert_sorted [].
End StableSort.

(** One entry of a year's listing: the dictionary with the keys
    ["date"], ["title"] and ["path"] that [tt_datasets] builds. *)
Record dataset : Type := mkdataset {
  date : string;
  title : string;
  path : string
}.

(** The [file_identifier] of [tt_download_file]: a name or a position. *)
Inductive file_id : Type :=
  | ByName (name : string)
  | ByIndex (index : Z).

(** The [files] argument of [tt_download] and [tt_load]: a string (the
    default is ["All"]) or a list of names. *)
Inductive files_arg : Type :=
  | FilesStr (s : string)
  | FilesList (names : list string).

(** A value of the dictionary [tt_load] returns: one of the four strings
    of metadata, or a data frame. *)
Inductive entry : Type :=
  | Meta (v : value)
  | Frame (df : DataFrame).

(** ** Class [TidyTuesdayPy] *)
Module TidyTuesdayPy.
Section Methods.

Context (env : Env).

Definition GITHUB_API_URL : string :=
  "https://api.github.com/repos/rfordatascience/tidytuesday/contents/data".
Definition RAW_GITHUB_URL : string :=
  "https://raw.githubusercontent.com/rfordatascience/tidytuesday/master/data".
Definition RATE_LIMIT_URL : string := "https://api.github.com/rate_limit".

(** [requests.get(url)]: the request is logged and answered by the
    environment. *)
Definition requests_get (url : string) : M Response :=
  fun s =>
    (match remote env (clock s) url with
     | Some r => Ok r
     | None => Raise RequestException
     end,
     mkstate (S (clock s)) (rate_limit_remaining s),
     [Request url]).

(** [requests.get(v)] for a value taken from a dictionary; only a
    string is an address, anything else is refused before a request is
    made. *)
Definition requests_get_value (v : value) : M Response :=
  match v with
  | VStr url => requests_get url
  | _ => raise RequestException
  end.

(** [str(v)] *)
Definition str (v : value) : string :=
  match v with
  | VStr s => s
  | VInt n => Str.of_Z n
  | VBool b => if b then "True" else "False"
  | VNone => "None"
  | VList _ | VDict _ => repr env v
  end.

Definition _markdown_to_html (markdown : string) : string :=
  let html := markdown in
  let html := Markdown.headings "# " "h1" html in
  let html := Markdown.headings "## " "h2" html in
  let html := Markdown.headings "### " "h3" html in
  let html := Markdown.links (String.length html) html in
  let html := Markdown.code_blocks (String.length html) html in
  let html := Markdown.line_breaks html in
  Markdown.document_head +:+ html +:+ Markdown.document_foot.

(** [__init__] sets the attribute to [None] and calls this. *)
Definition _update_rate_limit : M unit :=
  try_except
    (response <- requests_get RATE_LIMIT_URL ;;
     if (status_code response =? 200)%Z then
       data <- lift (response_json response) ;;
       resources <- lift (Py.getitem data "resources") ;;
       core <- lift (Py.getitem resources "core") ;;
       remaining <- lift (Py.getitem core "remaining") ;;
       set_rate_limit_remaining remaining
     else ret tt)
    (fun _ => set_rate_limit_remaining VNone).

Definition __init__ : M unit :=
  set_rate_limit_remaining VNone ;;
  _update_rate_limit.

Definition rate_limit_check (quiet : bool) : M value :=
  _update_rate_limit ;;
  remaining <- get_rate_limit_remaining ;;
  (if negb quiet && negb (Py.is_none remaining)
   then print (RequestsRemaining remaining) else ret tt) ;;
  ret (if negb (Py.is_none remaining) then remaining else VInt 0).

(** The argument of [last_tuesday]: a date string or a date object. *)
Inductive date_arg : Type :=
  | DateStr (s : string)
  | DateObj (d : Date.date).

(** [now + datetime.timedelta(hours=-4)], the date of the result. *)
Definition new_york_date : res Date.date :=
  let '(d, hour) := utcnow env in
  if (hour + -4 <? 0)%Z then Date.sub_days d 1 else Ok d.

Definition last_tuesday (date : option date_arg) : res string :=
  let? date :=
    match date with
    | None =>
        let? now := new_york_date in
        Ok (DateStr (Date.strftime (strftime_year env) now))
    | Some date => Ok date
    end in
  let? date_obj :=
    match date with
    | DateStr s => Date.strptime s
    | DateObj d => Ok d
    end in
  let days_since_tuesday := ((Date.weekday date_obj - 1) mod 7)%Z in
  let? last_tues := Date.sub_days date_obj days_since_tuesday in
  Ok (Date.strftime (strftime_year env) last_tues).

(** [[item for item in data if item["type"] == "dir"]] *)
Fixpoint dirs (items : list value) : res (list value) :=
  match items with
  | [] => Ok []
  | item :: rest =>
      let? type := Py.getitem item "type" in
      let? rest' := dirs rest in
      Ok (if Py.eq_str type "dir" then item :: rest' else rest')
  end.

(** The title of a dataset, from the response for its README. *)
Definition title_of (readme_response : Response) : string :=
  if (status_code readme_response =? 200)%Z then
    match Re.search_title (text readme_response) with
    | Some group1 => Str.strip group1
    | None => "Unknown"
    end
  else "Unknown".

(** The loop of [tt_datasets] over the folders of a year. *)
Fixpoint datasets_loop (year : string) (folders : list value)
    (datasets : list dataset) : M (list dataset) :=
  match folders with
  | [] => ret datasets
  | folder :: rest =>
      week_name <- lift (Py.getitem folder "name") ;;
      is_date <- lift (Re.match_date_name week_name) ;;
      if is_date then
        let date := str week_name in
        let readme_url :=
          RAW_GITHUB_URL +:+ "/" +:+ year +:+ "/" +:+ date +:+ "/README.md" in
        readme_response <- requests_get readme_url ;;
        let title := title_of readme_response in
        datasets_loop year rest
          (datasets ++ [mkdataset date title (year +:+ "/" +:+ date)])
      else datasets_loop year rest datasets
  end.

Definition tt_datasets (year : value) (print_output : bool) : M (list dataset) :=
  remaining <- rate_limit_check true ;;
  low <- lift (Py.lt_int remaining 5) ;;
  if low then
    print RateLimitTooLow ;;
    ret []
  else
    try_except
      (let year := str year in
       let url := GITHUB_API_URL +:+ "/" +:+ year in
       response <- requests_get url ;;
       if negb (status_code response =? 200)%Z then
         print (ErrorFetchingYear year (status_code response)) ;;
         ret []
       else
         data <- lift (response_json response) ;;
         items <- lift (Py.iter data) ;;
         folders <- lift (dirs items) ;;
         datasets <- datasets_loop year folders [] ;;
         let datasets := sort_by date datasets in
         (if print_output then
            print (AvailableDatasetsFor year) ;;
            print YearRule ;;
            for_each datasets (fun dataset =>
              print (DatasetLine (date dataset) (title dataset)))
          else ret tt) ;;
         ret datasets)
      (fun e =>
         print (Error e) ;;
         ret []).

(** [[item["name"] for item in years_data if item["type"] == "dir"]] *)
Fixpoint dir_names (items : list value) : res (list value) :=
  match items with
  | [] => Ok []
  | item :: rest =>
      let? type := Py.getitem item "type" in
      if Py.eq_str type "dir" then
        let? name := Py.getitem item "name" in
        let? rest' := dir_names rest in
        Ok (name :: rest')
      else dir_names rest
  end.

(** The loop of [tt_available] over the years; [all_datasets[year] =
    datasets] needs a hashable [year]. *)
Fixpoint years_loop (years : list value)
    (all_datasets : list (value * list dataset))
    : M (list (value * list dataset)) :=
  match years with
  | [] => ret all_datasets
  | year :: rest =>
      datasets <- tt_datasets year false ;;
      if Py.hashable year then
        years_loop rest (Py.setitem all_datasets year datasets)
      else raise TypeError
  end.

Definition tt_available : M (list (value * list dataset)) :=
  remaining <- rate_limit_check true ;;
  low <- lift (Py.lt_int remaining 5) ;;
  if low then
    print RateLimitTooLow ;;
    ret []
  else
    try_except
      (response <- requests_get GITHUB_API_URL ;;
       if negb (status_code response =? 200)%Z then
         print (ErrorFetchingData (status_code response)) ;;
         ret []
       else
         years_data <- lift (response_json response) ;;
         items <- lift (Py.iter years_data) ;;
         years <- lift (dir_names items) ;;
         all_datasets <- years_loop years [] ;;
         print AvailableDatasets ;;
         print AvailableRule ;;
         for_each all_datasets (fun '(year, datasets) =>
           print (YearHeading year) ;;
           for_each datasets (fun dataset =>
             print (IndentedDataset (date dataset) (title dataset)))) ;;
         ret all_datasets)
      (fun e =>
         print (Error e) ;;
         ret []).

(** The loop of [tt_load_gh] over the entries of a dataset folder:
    files whose lower-cased name does not start with ["readme"]. *)
Fixpoint data_files (items : list value) : res (list value) :=
  match items with
  | [] => Ok []
  | item :: rest =>
      let? type := Py.getitem item "type" in
      let? keep :=
        if Py.eq_str type "file" then
          let? name := Py.getitem item "name" in
          let? lowered := Py.lower name in
          Ok (negb (Str.startswith lowered "readme"))
        else Ok false in
      if keep then
        let? name := Py.getitem item "name" in
        let? download_url := Py.getitem item "download_url" in
        let? path := Py.getitem item "path" in
        let? rest' := data_files rest in
        Ok (VDict [("name", name); ("download_url", download_url);
                   ("path", path)] :: rest')
      else data_files rest
  end.

(** The second half of [tt_load_gh], from [# Get files for the week]
    to the returned dictionary, once [year] and [date] are known. *)
Definition week_files (year date : string) : M value :=
  let url := GITHUB_API_URL +:+ "/" +:+ year +:+ "/" +:+ date in
  response <- requests_get url ;;
  if negb (status_code response =? 200)%Z then
    print (ErrorFetchingDate date (status_code response)) ;;
    ret (VDict [])
  else
    files_data <- lift (response_json response) ;;
    items <- lift (Py.iter files_data) ;;
    files <- lift (data_files items) ;;
    let readme_url :=
      RAW_GITHUB_URL +:+ "/" +:+ year +:+ "/" +:+ date +:+ "/README.md" in
    readme_response <- requests_get readme_url ;;
    let readme_content :=
      if (status_code readme_response =? 200)%Z
      then text readme_response else "" in
    let readme_html := _markdown_to_html readme_content in
    ret (VDict [("date", VStr date);
                ("year", VStr year);
                ("files", VList files);
                ("readme_content", VStr readme_content);
                ("readme_html", VStr readme_html)]).

Definition tt_load_gh (date_or_year : value) (week : option Z) : M value :=
  remaining <- rate_limit_check true ;;
  low <- lift (Py.lt_int remaining 5) ;;
  if low then
    print RateLimitTooLow ;;
    ret (VDict [])
  else
    try_except
      (match week with
       | Some week =>
           let year := str date_or_year in
           datasets <- tt_datasets (VStr year) false ;;
           match datasets with
           | [] =>
               print (NoDatasetsFound year) ;;
               ret (VDict [])
           | _ :: _ =>
               if (week <? 1)%Z || (Z.of_nat (length datasets) <? week)%Z then
                 print (WeekOutOfRange week year) ;;
                 ret (VDict [])
               else
                 match datasets !! Z.to_nat (week - 1) with
                 | Some dataset => week_files year (date dataset)
                 | None => raise IndexError
                 end
           end
       | None =>
           let date := str date_or_year in
           let year := Str.take 4 date in
           week_files year date
       end)
      (fun e =>
         print (Error e) ;;
         ret (VDict [])).

(** [not tt_data or "files" not in tt_data] *)
Definition invalid_data (tt_data : value) : res bool :=
  if negb (Py.truthy tt_data) then Ok true
  else let? present := Py.contains "files" tt_data in Ok (negb present).

(** [next((f for f in files if f["name"] == name), None)] *)
Fixpoint find_named (name : string) (files : list value) : res (option value) :=
  match files with
  | [] => Ok None
  | f :: rest =>
      let? n := Py.getitem f "name" in
      if Py.eq_str n name then Ok (Some f) else find_named name rest
  end.

Definition next_named (name : string) (files : value) : res (option value) :=
  let? items := Py.iter files in find_named name items.

(** [tempfile.NamedTemporaryFile(delete=False, suffix=suffix)], after
    [c] requests: the path of the file, or the exception.  Python
    refuses a name with a NUL character; otherwise the local machine
    decides.  Whether it can create the file does not depend on the
    letter case of the suffix, so the environment is asked with the
    suffix in lower case. *)
Definition temp_path (c : nat) (suffix : string) : res string :=
  if Str.contains suffix (String "000" EmptyString) then Raise ValueError
  else let? chosen := temp_file env c (Str.lower suffix) in
       Ok (chosen +:+ suffix).

(** [with tempfile.NamedTemporaryFile(delete=False, suffix=suffix) as
    tmp: tmp.write(response.content)]: the downloaded bytes are saved
    to a temporary file, whose path is returned.  The file is removed
    again by [os.unlink] once it has been read, which is taken to
    succeed. *)
Definition NamedTemporaryFile (suffix : string) : M string :=
  fun s => (temp_path (clock s) suffix, s, []).

(** The chain [if file_name.endswith('.csv'): ... else: ...] that both
    download operations apply to the lower-cased file name: the reader
    it selects, applied to the downloaded bytes, or [None] for an
    unsupported format. *)
Definition read_by_extension (file_name : string) (bytes : string)
    : option (res DataFrame) :=
  if Str.endswith file_name ".csv" then Some (read_csv env "," bytes)
  else if Str.endswith file_name ".tsv" then Some (read_csv env "009" bytes)
  else if Str.endswith file_name ".xls" || Str.endswith file_name ".xlsx"
  then Some (read_excel env bytes)
  else if Str.endswith file_name ".json" then Some (read_json env bytes)
  else None.

Definition tt_download_file (tt_data : value) (file_identifier : file_id)
    : M DataFrame :=
  invalid <- lift (invalid_data tt_data) ;;
  if invalid then
    print InvalidData ;;
    ret empty_frame
  else
    try_except
      (files <- lift (Py.getitem tt_data "files") ;;
       let download (file_info : value) : M DataFrame :=
         name <- lift (Py.getitem file_info "name") ;;
         print (Downloading name) ;;
         download_url <- lift (Py.getitem file_info "download_url") ;;
         response <- requests_get_value download_url ;;
         if negb (status_code response =? 200)%Z then
           print (ErrorDownloadingFile (status_code response)) ;;
           ret empty_frame
         else
           file_name <- lift (Py.lower name) ;;
           NamedTemporaryFile (snd (Path.splitext file_name)) ;;
           match read_by_extension file_name (content response) with
           | Some read =>
               df <- lift read ;;
               print (SuccessfullyLoaded name) ;;
               ret df
           | None =>
               print (UnsupportedFormat (VStr file_name)) ;;
               ret empty_frame
           end
       in
       match file_identifier with
       | ByIndex i =>
           out_of_range <-
             lift (if (i <? 0)%Z then Ok true
                   else let? n := Py.len files in Ok (n <=? i)%Z) ;;
           if out_of_range then
             print (FileIndexOutOfRange i) ;;
             ret empty_frame
           else
             file_info <- lift (Py.getitem_int files i) ;;
             download file_info
       | ByName name =>
           file_info <- lift (next_named name files) ;;
           match file_info with
           | Some file_info =>
               if Py.truthy file_info then download file_info
               else
                 print (FileNotFound name) ;;
                 ret empty_frame
           | None =>
               print (FileNotFound name) ;;
               ret empty_frame
           end
       end)
      (fun e =>
         print (ErrorDownloadingFileExn e) ;;
         ret empty_frame).

(** The loop of [tt_download] that resolves the requested names. *)
Fixpoint select_loop (available_files : value) (files : list string)
    (files_to_download : list value) : M (list value) :=
  match files with
  | [] => ret files_to_download
  | file_name :: rest =>
      file_info <- lift (next_named file_name available_files) ;;
      match file_info with
      | Some file_info =>
          if Py.truthy file_info then
            select_loop available_files rest (files_to_download ++ [file_info])
          else
            print (WarningFileNotFound file_name) ;;
            select_loop available_files rest files_to_download
      | None =>
          print (WarningFileNotFound file_name) ;;
          select_loop available_files rest files_to_download
      end
  end.

(** The body of the loop of [tt_download] over the files to download:
    one file is fetched, saved and read, and the mapping that results
    is returned ([continue] leaves it as it is).  An exception raised
    outside the inner [try], as when the file cannot be saved, leaves
    the loop. *)
Definition download_one (file_info : value) (result : gmap string DataFrame)
    : M (gmap string DataFrame) :=
  file_name <- lift (Py.getitem file_info "name") ;;
  print (Downloading file_name) ;;
  download_url <- lift (Py.getitem file_info "download_url") ;;
  response <- requests_get_value download_url ;;
  if negb (status_code response =? 200)%Z then
    print (ErrorDownloading file_name (status_code response)) ;;
    ret result
  else
    parts <- lift (Path.splitext_value file_name) ;;
    NamedTemporaryFile (snd parts) ;;
    file_name_lower <- lift (Py.lower file_name) ;;
    match read_by_extension file_name_lower (content response) with
    | Some (Ok df) =>
        let key := fst parts in
        print (SuccessfullyLoaded file_name) ;;
        ret (<[key := df]> result)
    | Some (Raise e) =>
        print (ErrorProcessing file_name e) ;;
        ret result
    | None =>
        print (UnsupportedFormat file_name) ;;
        ret result
    end.

Fixpoint download_loop (files_to_download : list value)
    (result : gmap string DataFrame) : M (gmap string DataFrame) :=
  match files_to_download with
  | [] => ret result
  | file_info :: rest =>
      result <- download_one file_info result ;;
      download_loop rest result
  end.

Definition tt_download (tt_data : value) (files : files_arg)
    : M (gmap string DataFrame) :=
  invalid <- lift (invalid_data tt_data) ;;
  if invalid then
    print InvalidData ;;
    ret ∅
  else
    try_except
      (available_files <- lift (Py.getitem tt_data "files") ;;
       files_to_download <-
         match files with
         | FilesStr s =>
             if String.eqb s "All" then lift (Py.iter available_files)
             else select_loop available_files [s] []
         | FilesList names => select_loop available_files names []
         end ;;
       download_loop files_to_download ∅)
      (fun e =>
         print (ErrorDownloadingFiles e) ;;
         ret ∅).

Definition tt_load (date_or_year : value) (week : option Z) (files : files_arg)
    : M (gmap string entry) :=
  tt_data <- tt_load_gh date_or_year week ;;
  if negb (Py.truthy tt_data) then ret ∅
  else
    data <- tt_download tt_data files ;;
    date <- lift (Py.getitem tt_data "date") ;;
    year <- lift (Py.getitem tt_data "year") ;;
    readme_content <- lift (Py.getitem tt_data "readme_content") ;;
    readme_html <- lift (Py.getitem tt_data "readme_html") ;;
    (* the items of [data] come last in the literal and replace an
       equal key before them *)
    ret ((Frame <$> data) ∪
         {[ "date" := Meta date;
            "year" := Meta year;
            "readme_content" := Meta readme_content;
            "readme_html" := Meta readme_html ]}).

End Methods.
End TidyTuesdayPy.

(** ** Module-level convenience functions

    Each creates an instance, which probes the rate limit once, and
    calls the method of the same name. *)
Section Convenience.

Context (env : Env).

Definition last_tuesday (date : option TidyTuesdayPy.date_arg) : M string :=
  TidyTuesdayPy.__init__ env ;;
  lift (TidyTuesdayPy.last_tuesday env date).

Definition tt_available : M (list (value * list dataset)) :=
  TidyTuesdayPy.__init__ env ;;
  TidyTuesdayPy.tt_available env.

Definition tt_datasets (year : value) : M (list dataset) :=
  TidyTuesdayPy.__init__ env ;;
  TidyTuesdayPy.tt_datasets env year true.

Definition tt_load_gh (date_or_year : value) (week : option Z) : M value :=
  TidyTuesdayPy.__init__ env ;;
  TidyTuesdayPy.tt_load_gh env date_or_year week.

Definition tt_download_file (tt_data : value) (file_identifier : file_id)
    : M DataFrame :=
  TidyTuesdayPy.__init__ env ;;
  TidyTuesdayPy.tt_download_file env tt_data file_identifier.

Definition tt_download (tt_data : value) (files : files_arg)
    : M (gmap string DataFrame) :=
  TidyTuesdayPy.__init__ env ;;
  TidyTuesdayPy.tt_download env tt_data files.

Definition tt_load (date_or_year : value) (week : option Z) (files : files_arg)
    : M (gmap string entry) :=
  TidyTuesdayPy.__init__ env ;;
  TidyTuesdayPy.tt_load env date_or_year week files.

Definition rate_limit_check (quiet : bool) : M value :=
  TidyTuesdayPy.__init__ env ;;
  TidyTuesdayPy.rate_limit_check env quiet.

Definition get_date (week : value) : M (gmap string entry) :=
  TidyTuesdayPy.__init__ env ;;
  TidyTuesdayPy.tt_load env week None (FilesStr "All").

Definition get_week (year : value) (week_num : Z) : M (gmap string entry) :=
  TidyTuesdayPy.__init__ env ;;
  TidyTuesdayPy.tt_load env year (Some week_num) (FilesStr "All").

End Convenience.

(** ** A sample environment

    A small remote repository and simple readers, used to run the
    operations on concrete inputs. *)
Module Sample.

(** The cells of delimited text: a field made of digits is a number,
    any other field a string. *)
Fixpoint all_digits (s : string) : bool :=
  match s with
  | EmptyString => true
  | String c s' => Str.is_digit c && all_digits s'
  end.

Fixpoint digits_value (s : string) (acc : Z) : Z :=
  match s with
  | EmptyString => acc
  | String c s' => digits_value s' (10 * acc + Str.digit_val c)
  end.

Definition cell_of (field : string) : cell :=
  if negb (String.eqb field "") && all_digits field
  then CInt (digits_value field 0) else CStr field.

(** Modelled from the spec: the parse rule of section 4.5 for [.csv] and
    [.tsv] files, "delimited, first row = header", with column types
    native to the format.  It stands for [pandas.read_csv], which is
    not part of the sources: lines of fields separated by the
    delimiter, the first line being the header. *)
Definition read_delimited (sep : ascii) (bytes : string) : res DataFrame :=
  match filter (fun l => negb (String.eqb l ""))
               (Str.split "010" bytes) with
  | [] => Raise ParserError
  | header :: lines =>
      Ok (mkframe (Str.split sep header)
            (map (fun l => map cell_of (Str.split sep l)) lines))
  end.

Definition api : string := TidyTuesdayPy.GITHUB_API_URL.
Definition raw : string := TidyTuesdayPy.RAW_GITHUB_URL.

Definition listing_entry (name type url path : string) : value :=
  VDict [("name", VStr name); ("type", VStr type);
         ("download_url", VStr url); ("path", VStr path)].

Definition ok_json (v : value) : Response := mkresponse 200 "" "" (Some v).
Definition ok_text (t : string) : Response := mkresponse 200 t t None.
Definition not_found : Response := mkresponse 404 "Not Found" "Not Found" None.

Definition rate_limit (remaining : Z) : Response :=
  ok_json (VDict [("resources",
             VDict [("core", VDict [("limit", VInt 60);
                                    ("remaining", VInt remaining)])])]).

Definition csv_ab : string := "a,b
1,2
".

Definition table_ab : DataFrame := mkframe ["a"; "b"] [[CInt 1; CInt 2]].

(** The repository: two years; 2021 lists its two weeks out of order
    and, as a third folder, a week of 2020; the week 2021-01-05 holds
    a README and four files, two of which share the stem [data]. *)
Definition repository (remaining : Z) (url : string) : option Response :=
  if String.eqb url TidyTuesdayPy.RATE_LIMIT_URL then Some (rate_limit remaining)
  else if String.eqb url api then
    Some (ok_json (VList [listing_entry "2021" "dir" "" "data/2021";
                          listing_entry "readme.md" "file" "" "data/readme.md"]))
  else if String.eqb url (api +:+ "/2021") then
    Some (ok_json (VList [listing_entry "2021-01-12" "dir" "" "";
                          listing_entry "2021-01-05" "dir" "" "";
                          listing_entry "2020-12-29" "dir" "" "";
                          listing_entry "readme.md" "file" "" ""]))
  else if String.eqb url (raw +:+ "/2021/2021-01-05/README.md") then
    Some (ok_text "# Transit Costs
The data this week comes from a project.
")
  else if String.eqb url (raw +:+ "/2021/2021-01-12/README.md") then
    Some (ok_text "![](pic.png)
##   Art Collections  
")
  else if String.eqb url (api +:+ "/2021/2021-01-05") then
    Some (ok_json (VList [listing_entry "README.md" "file" "u:readme" "";
                          listing_entry "data.csv" "file" "u:data.csv" "";
                          listing_entry "data.tsv" "file" "u:data.tsv" "";
                          listing_entry "notes.xyz" "file" "u:notes.xyz" "";
                          listing_entry "date.CSV" "file" "u:date.csv" "";
                          listing_entry "img" "dir" "" ""]))
  else if String.eqb url "u:data.csv" then Some (ok_text csv_ab)
  else if String.eqb url "u:data.tsv" then Some (ok_text "x	y
7	8
")
  else if String.eqb url "u:notes.xyz" then Some (ok_text csv_ab)
  else if String.eqb url "u:date.csv" then Some (ok_text "d
3
")
  else Some not_found.

(** The number of bytes of a string in UTF-8. *)
Fixpoint encoded_length (s : string) : nat :=
  match s with
  | EmptyString => 0
  | String c s' =>
      ((if (Str.code c <? 128)%nat then 1 else 2) + encoded_length s')%nat
  end.

(** A local machine whose file names have at most 255 bytes: the name
    of a temporary file is [tmp], eight characters chosen by the
    system, and the suffix. *)
Definition temp_file (c : nat) (suffix : string) : res string :=
  if (244 <? encoded_length suffix)%nat then Raise OSError
  else Ok ("/tmp/tmp" +:+ Str.of_Z (Z.of_nat c)).

(** A locale whose encoding is ASCII. *)
Fixpoint write_text (t : string) : res unit :=
  match t with
  | EmptyString => Ok tt
  | String c t' =>
      if (Str.code c <? 128)%nat then write_text t'
      else Raise UnicodeEncodeError
  end.

Definition env (remaining : Z) : Env :=
  mkenv (fun _ => repository remaining) (Date.mkdate 2026 11 3, 2%Z)
    read_delimited (fun _ => Raise ParserError) (fun _ => Raise ParserError)
    (fun _ => "") Str.of_Z temp_file write_text.

Definition start : state := mkstate 0 VNone.

End Sample.



(** ** Observations on a run *)

Definition result_of {A} (run : res A * state * list event) : res A := run.1.1.
Definition state_of {A} (run : res A * state * list event) : state := run.1.2.
Definition log_of {A} (run : res A * state * list event) : list event := run.2.

(** The addresses requested and the messages printed, in order. *)
Definition requested (l : list event) : list string :=
  omap (fun e => match e with Request url => Some url | Print _ => None end) l.

Definition printed (l : list event) : list msg :=
  omap (fun e => match e with Print m => Some m | Request _ => None end) l.

(** The number of requests to the rate-limit endpoint. *)
Definition is_probe (e : event) : bool :=
  match e with
  | Request url => String.eqb url TidyTuesdayPy.RATE_LIMIT_URL
  | Print _ => false
  end.

Definition probes (l : list event) : nat := length (List.filter is_probe l).

(** [post m Q]: whenever [m] returns, its result satisfies [Q]. *)
Definition post {A} (m : M A) (Q : A -> Prop) : Prop :=
  forall s a s' l, m s = (Ok a, s', l) -> Q a.

(** [returns m s]: run from [s], [m] returns a result and does not
    raise. *)
Definition returns {A} (m : M A) (s : state) : Prop :=
  exists a s' l, m s = (Ok a, s', l).

(** The order of two items by their keys, as Python compares strings. *)
Definition le_by {A} (key : A -> string) (a b : A) : Prop :=
  String.le (key a) (key b).

(** Entries in the order of their dates. *)
Definition by_date : dataset -> dataset -> Prop := le_by date.

(** What every entry of a listing for [year] satisfies: its date is a
    folder name of the form digits-digits-digits and its path is the
    year and the date. *)
Definition listed_under (year : string) (d : dataset) : Prop :=
  Re.is_date_name (date d) = true /\ path d = year +:+ "/" +:+ date d.

Definition well_listed (year : string) (datasets : list dataset) : Prop :=
  StronglySorted by_date datasets /\ Forall (listed_under year) datasets.

(** [counts n m]: every run of [m], whether it returns or raises, makes
    [n] requests to the rate-limit endpoint. *)
Definition counts {A} (n : nat) (m : M A) : Prop :=
  forall s r s' l, m s = (r, s', l) -> probes l = n.

(** [never_raises m]: every run of [m] returns. *)
Definition never_raises {A} (m : M A) : Prop := forall s, returns m s.

(** [oblivious m]: [m] neither reads nor updates the attribute
    [rate_limit_remaining]; its result, its requests and its messages
    are the same whatever the attribute holds. *)
Definition oblivious {A} (m : M A) : Prop :=
  forall c, exists r c' l,
    forall v, m (mkstate c v) = (r, mkstate c' v, l).

Module SampleData.

Definition file (name url : string) : value :=
  VDict [("name", VStr name); ("download_url", VStr url); ("path", VStr "")].

Definition files : list value :=
  [file "data.csv" "u:data.csv"; file "data.tsv" "u:data.tsv";
   file "notes.xyz" "u:notes.xyz"; file "date.CSV" "u:date.csv"].

Definition readme : string := "# Transit Costs
The data this week comes from a project.
".

(** The metadata of the week 2021-01-05 of the sample repository, as
    [tt_load_gh] returns it. *)
Definition metadata : value :=
  VDict [("date", VStr "2021-01-05");
         ("year", VStr "2021");
         ("files", VList files);
         ("readme_content", VStr readme);
         ("readme_html", VStr (TidyTuesdayPy._markdown_to_html readme))].

Definition table_xy : DataFrame := mkframe ["x"; "y"] [[CInt 7; CInt 8]].
Definition table_d : DataFrame := mkframe ["d"] [[CInt 3]].

End SampleData.

(** ** The selection of [tt_download], as the specification words it

    Section 4.6: an explicit selector stands for the files of the
    metadata whose name matches, in the order given by the selector,
    with an error reported per unmatched name. *)
Definition named (name : string) (f : value) : bool :=
  match Py.getitem f "name" with
  | Ok n => Py.eq_str n name
  | Raise _ => false
  end.

Definition matching (files : list value) (name : string) : option value :=
  List.find (named name) files.

Definition selected (files : list value) (names : list string) : list value :=
  omap (matching files) names.

Definition unmatched (files : list value) (names : list string) : list string :=
  List.filter
    (fun name => match matching files name with None => true | Some _ => false end)
    names.

Definition warnings (files : list value) (names : list string) : list event :=
  map (fun name => Print (WarningFileNotFound name)) (unmatched files names).

(** A file entry of well-formed metadata has a name. *)
Definition has_name (f : value) : Prop := exists n, Py.getitem f "name" = Ok n.

(** The key under which [tt_download] stores the table of a file entry:
    its name with the extension stripped. *)
Definition stem_of (f : value) : option string :=
  match Py.getitem f "name" with
  | Ok (VStr name) => Some (fst (Path.splitext name))
  | _ => None
  end.

(** The shape of the dictionary [tt_load_gh] returns: empty, or the five
    entries of the metadata. *)
Definition metadata_shape (tt_data : value) : Prop :=
  tt_data = VDict []
  \/ exists date year files readme_content readme_html,
       tt_data = VDict [("date", VStr date);
                        ("year", VStr year);
                        ("files", VList files);
                        ("readme_content", VStr readme_content);
                        ("readme_html", VStr readme_html)].

(** The four keys of metadata in the dictionary [tt_load] returns. *)
Definition metadata_keys : list string :=
  ["date"; "year"; "readme_content"; "readme_html"].

(** The entry under [key] of the dictionary a run of [tt_load] returned. *)
Definition loaded (run : res (gmap string entry) * state * list event)
    (key : string) : option entry :=
  match result_of run with
  | Ok result => result !! key
  | Raise _ => None
  end.

(** Values that support [in]: strings, lists and dictionaries. *)
Definition container (v : value) : bool :=
  match v with
  | VStr _ | VList _ | VDict _ => true
  | _ => false
  end.

(** Values that [<] compares with an integer, and [None], which
    [rate_limit_check] replaces by 0. *)
Definition comparable (v : value) : bool :=
  match v with
  | VNone | VBool _ | VInt _ => true
  | _ => false
  end.

(** The budget named by the body of a response of the rate-limit
    endpoint. *)
Definition remaining_of (r : Response) : res value :=
  let? data := response_json r in
  let? resources := Py.getitem data "resources" in
  let? core := Py.getitem resources "core" in
  Py.getitem core "remaining".

(** The answer to a probe made as request number [c], if it names a
    budget, names a number. *)
Definition probe_is_numeric (env : Env) (c : nat) : bool :=
  match remote env c TidyTuesdayPy.RATE_LIMIT_URL with
  | Some r =>
      if (status_code r =? 200)%Z then
        match remaining_of r with
        | Ok v => comparable v
        | Raise _ => true
        end
      else true
  | None => true
  end.

Module SampleOdd.

(** A rate-limit endpoint that names its budget in words. *)
Definition rate_limit : Response :=
  Sample.ok_json
    (VDict [("resources", VDict [("core", VDict [("remaining", VStr "60")])])]).

Definition env : Env :=
  mkenv (fun _ url =>
           if String.eqb url TidyTuesdayPy.RATE_LIMIT_URL then Some rate_limit
           else Sample.repository 60 url)
    (Date.mkdate 2026 11 3, 2%Z)
    Sample.read_delimited (fun _ => Raise ParserError)
    (fun _ => Raise ParserError) (fun _ => "") Str.of_Z
    Sample.temp_file Sample.write_text.

End SampleOdd.

(** ** Further sample environments

    The sample environment with another remote: one that cannot be
    reached, and one that answers every request with status 404. *)
Module SampleRemote.

Definition env (remote : nat -> string -> option Response) : Env :=
  mkenv remote (Date.mkdate 2026 11 3, 2%Z)
    Sample.read_delimited (fun _ => Raise ParserError)
    (fun _ => Raise ParserError) (fun _ => "") Str.of_Z
    Sample.temp_file Sample.write_text.

Definition offline : Env := env (fun _ _ => None).

Definition unavailable : Env := env (fun _ _ => Some Sample.not_found).

End SampleRemote.

(** File names in capital letters, with an extension that no reader
    takes and with an extension too long for the local machine, on a
    remote whose every address holds the bytes of the table with the
    header [a,b] and the row [1,2]. *)
Module SampleNames.

(** ["x" * n] *)
Fixpoint xs (n : nat) : string :=
  match n with
  | O => EmptyString
  | S n' => String "x" (xs n')
  end.

(** An extension of 251 characters. *)
Definition long_extension : string := String "." (xs 250).

Definition long_name : string := "table" +:+ long_extension.

Definition env : Env :=
  SampleRemote.env (fun _ _ => Some (Sample.ok_text Sample.csv_ab)).

Definition metadata : value :=
  VDict [("files",
          VList [SampleData.file "Table.CSV" "u:table";
                 SampleData.file "Table.XYZ" "u:table";
                 SampleData.file long_name "u:table"])].

End SampleNames.

(** ** The folders of a year

    The directories that the remote lists for [year] when it is asked
    as request number [c]: the entries of type [dir] of its answer. *)
Definition year_folders (env : Env) (c : nat) (year : string)
    (folders : list value) : Prop :=
  exists response data items,
    remote env c (TidyTuesdayPy.GITHUB_API_URL +:+ "/" +:+ year)
    = Some response
    /\ response_json response = Ok data
    /\ Py.iter data = Ok items
    /\ TidyTuesdayPy.dirs items = Ok folders.

(** ** The metadata of a week, as [tt_load_gh] builds it *)

(** A file entry of the metadata: the three keys copied from the
    listing, under a name that does not start with [readme] in any
    letter case. *)
Definition data_file (f : value) : Prop :=
  exists name download_url path,
    f = VDict [("name", VStr name); ("download_url", download_url);
               ("path", path)]
    /\ Str.startswith (Str.lower name) "readme" = false.

(** The dictionary for the week [date] of [year]: its files are data
    files and its [readme_html] is the rendering of its
    [readme_content]. *)
Definition metadata_of (date year : string) (tt_data : value) : Prop :=
  exists files readme_content,
    tt_data
    = VDict [("date", VStr date);
             ("year", VStr year);
             ("files", VList files);
             ("readme_content", VStr readme_content);
             ("readme_html",
              VStr (TidyTuesdayPy._markdown_to_html readme_content))]
    /\ Forall data_file files.

(** The addresses [tt_load_gh] asks for when it is given a date: the
    rate-limit endpoint, the folder of the week and its README. *)
Definition week_requests (year date : string) : list string :=
  [TidyTuesdayPy.RATE_LIMIT_URL;
   TidyTuesdayPy.GITHUB_API_URL +:+ "/" +:+ year +:+ "/" +:+ date;
   TidyTuesdayPy.RAW_GITHUB_URL +:+ "/" +:+ year +:+ "/" +:+ date
     +:+ "/README.md"].

(** ** Reading the output of the download operations *)

(** The message that a file has been read into a table. *)
Definition is_loaded_report (e : event) : bool :=
  match e with
  | Print (SuccessfullyLoaded _) => true
  | _ => false
  end.

Definition reports_loaded (l : list event) : bool := existsb is_loaded_report l.

(** The file names, in lower case, that the chain on the extension
    hands to a reader. *)
Definition supported (file_name : string) : bool :=
  Str.endswith file_name ".csv" || Str.endswith file_name ".tsv"
  || Str.endswith file_name ".xls" || Str.endswith file_name ".xlsx"
  || Str.endswith file_name ".json".

(** A file entry with a name and an address to download it from. *)
Definition downloadable (f : value) (url : string) : Prop :=
  (exists name, Py.getitem f "name" = Ok (VStr name))
  /\ Py.getitem f "download_url" = Ok (VStr url).

(** The characters of a file name that decide where it is cut and
    whether it can name a file: the dot, the slash and NUL.  None of
    them is a letter. *)
Definition caseless (a : ascii) : Prop :=
  a = "."%char \/ a = "/"%char \/ a = "000"%char.

(** A file entry whose bytes the local machine can save whenever it is
    asked to. *)
Definition savable (env : Env) (f : value) : Prop :=
  forall c name,
    Py.getitem f "name" = Ok (VStr name) ->
    is_ok (TidyTuesdayPy.temp_path env c (snd (Path.splitext name))) = true.

(** ** Markdown text without markup *)

Definition line_feed : string := String "010" EmptyString.

(** Text in which no heading, link or code fence can start: none of the
    characters [#], [[] and the backquote. *)
Definition plain (s : string) : bool :=
  negb (Str.contains s "#") && negb (Str.contains s "[")
  && negb (Str.contains s "`").

(** Text of one line. *)
Definition one_line (s : string) : bool := negb (Str.contains s line_feed).

(** ** The method [readme]

    [readme] works on the local machine: it writes the rendered README
    to a temporary file and hands that file to the web browser.  What
    it does is listed in order.  The local machine may refuse to create
    the file, and text that the encoding of the locale does not cover
    cannot be written; neither exception is caught. *)
Module Display.

Inductive action : Type :=
  | CreateTemp (suffix : string)   (* [NamedTemporaryFile(delete=False, ...)] *)
  | WriteTemp (text : string)      (* [tmp.write(text)] *)
  | OpenBrowser (url : string)     (* [webbrowser.open(url)] *)
  | Say (text : string).           (* [print(text)] *)

(** [not tt_data or "readme_html" not in tt_data] *)
Definition no_readme (tt_data : value) : res bool :=
  if negb (Py.truthy tt_data) then Ok true
  else let? present := Py.contains "readme_html" tt_data in Ok (negb present).

(** The method, called on an instance in state [s].  An exception
    raised inside the [with] block leaves the temporary file behind. *)
Definition readme (env : Env) (tt_data : value) (s : state)
    : res unit * list action :=
  match no_readme tt_data with
  | Raise e => (Raise e, [])
  | Ok true => (Ok tt, [Say "No README available for this dataset."])
  | Ok false =>
      match TidyTuesdayPy.temp_path env (clock s) ".html" with
      | Raise e => (Raise e, [])
      | Ok tmp_path =>
          match Py.getitem tt_data "readme_html" with
          | Raise e => (Raise e, [CreateTemp ".html"])
          | Ok (VStr html) =>
              match write_text env html with
              | Raise e => (Raise e, [CreateTemp ".html"])
              | Ok _ =>
                  (Ok tt,
                   [CreateTemp ".html"; WriteTemp html;
                    OpenBrowser ("file://" +:+ tmp_path);
                    Say "README opened in your browser."])
              end
          | Ok _ =>
              (* [write()] takes a [str] *)
              (Raise TypeError, [CreateTemp ".html"])
          end
      end
  end.

End Display.

(** What an observer of the module-level [readme] sees: the events of
    the client and the actions on the local machine. *)
Inductive observation : Type :=
  | Remote (e : event)
  | Local (a : Display.action).

(** The module-level [readme]: it creates an instance, which probes the
    rate limit, and calls the method. *)
Definition readme (env : Env) (tt_data : value)
    : state -> res unit * state * list observation :=
  fun s =>
    match TidyTuesdayPy.__init__ env s with
    | (Ok _, s1, l) =>
        let '(r, actions) := Display.readme env tt_data s1 in
        (r, s1, map Remote l ++ map Local actions)
    | (Raise e, s1, l) => (Raise e, s1, map Remote l)
    end.

(** ** The dictionary of [tt_available] *)

(** [year] is a key of the dictionary, kept as the list of its items. *)
Definition has_key (all_datasets : list (value * list dataset)) (year : value)
    : Prop :=
  exists year' datasets,
    (year', datasets) ∈ all_datasets /\ Py.key_eq year' year = true.

(** ** The entries of a year's listing *)

(** The name of a folder of the listing, if it has the form of a
    date: the folders [tt_datasets] makes an entry for. *)
Definition week_name (folder : value) : option string :=
  match Py.getitem folder "name" with
  | Ok (VStr name) => if Re.is_date_name name then Some name else None
  | _ => None
  end.

Definition starts_with_space (s : string) : bool :=
  match s with
  | String c _ => Str.is_space c
  | EmptyString => false
  end.

(** A title of one line without white space at either end. *)
Definition tidy (t : string) : bool :=
  one_line t && negb (starts_with_space t)
  && negb (starts_with_space (String.rev t)).

(** * Strings *)
Module StrFacts.
Import Str.

Lemma app_nil_l s : "" +:+ s = s.
Proof. reflexivity. Qed.

Lemma app_cons c s t : String c s +:+ t = String c (s +:+ t).
Proof. reflexivity. Qed.

Lemma app_nil_r s : s +:+ "" = s.
Proof. induction s as [|c s IH]; [reflexivity|]. rewrite app_cons, IH. reflexivity. Qed.

Lemma app_assoc s t u : (s +:+ t) +:+ u = s +:+ t +:+ u.
Proof.
  induction s as [|c s IH]; [reflexivity|]. rewrite !app_cons, IH. reflexivity.
Qed.

Lemma rev_app_app a b : String.rev_app a b = String.rev a +:+ b.
Proof.
  unfold String.rev. revert b.
  induction a as [|c a IH]; intros b; [reflexivity|]. cbn [String.rev_app].
  rewrite (IH (String c b)), (IH (String c "")), app_assoc. reflexivity.
Qed.

Lemma rev_cons c s : String.rev (String c s) = String.rev s +:+ String c "".
Proof. unfold String.rev at 1. cbn [String.rev_app]. apply rev_app_app. Qed.

Lemma rev_app_distr a b : String.rev (a +:+ b) = String.rev b +:+ String.rev a.
Proof.
  induction a as [|c a IH].
  - rewrite app_nil_l. symmetry. apply app_nil_r.
  - rewrite app_cons, !rev_cons, IH, app_assoc. reflexivity.
Qed.

(** A string ends with what was appended to it last. *)
Lemma startswith_app p s : startswith (p +:+ s) p = true.
Proof.
  induction p as [|c p IH]; [destruct s; reflexivity|].
  rewrite app_cons. cbn [startswith]. rewrite Ascii.eqb_refl. exact IH.
Qed.

Lemma endswith_app s p : endswith (s +:+ p) p = true.
Proof. unfold endswith. rewrite rev_app_distr. apply startswith_app. Qed.

(** Whether a character occurs in a string. *)
Lemma contains_cons a s c :
  contains (String a s) (String c "") = Ascii.eqb c a || contains s (String c "").
Proof.
  cbn [contains startswith]. destruct s; rewrite andb_true_r; reflexivity.
Qed.

Lemma contains_nil c : contains "" (String c "") = false.
Proof. reflexivity. Qed.

Lemma contains_app s t c :
  contains (s +:+ t) (String c "")
  = contains s (String c "") || contains t (String c "").
Proof.
  induction s as [|a s IH]; [reflexivity|].
  rewrite app_cons, !contains_cons, IH, orb_assoc. reflexivity.
Qed.

Lemma contains_rev s c :
  contains (String.rev s) (String c "") = contains s (String c "").
Proof.
  induction s as [|a s IH]; [reflexivity|].
  rewrite rev_cons, contains_app, IH, !contains_cons, contains_nil.
  rewrite orb_false_r. apply orb_comm.
Qed.

Lemma startswith_absent s c rest :
  contains s (String c "") = false -> startswith s (String c rest) = false.
Proof.
  destruct s as [|a s]; [reflexivity|]. rewrite contains_cons.
  intros [H _]%orb_false_iff. cbn [startswith]. rewrite H. reflexivity.
Qed.

End StrFacts.

(** * The keys of the tables: [os.path.splitext] *)
Module StemFacts.
Import Str StrFacts Path.

Lemma length_app s t :
  String.length (s +:+ t) = (String.length s + String.length t)%nat.
Proof.
  induction s as [|c s IH]; [reflexivity|]. rewrite app_cons. cbn.
  rewrite IH. reflexivity.
Qed.

Lemma substring_all s : substring 0 (String.length s) s = s.
Proof. induction s as [|c s IH]; [reflexivity|]. cbn. rewrite IH. reflexivity. Qed.

Lemma substring_prefix s t : substring 0 (String.length s) (s +:+ t) = s.
Proof.
  induction s as [|c s IH]; [destruct t; reflexivity|].
  rewrite app_cons. cbn. rewrite IH. reflexivity.
Qed.

Lemma substring_suffix s t :
  substring (String.length s) (String.length t) (s +:+ t) = t.
Proof.
  induction s as [|c s IH]; [apply substring_all|].
  rewrite app_cons. cbn. exact IH.
Qed.

(** A string cut at a position within it. *)
Lemma substring_cut s :
  forall n, (n <= String.length s)%nat ->
  substring 0 n s +:+ substring n (String.length s - n) s = s.
Proof.
  induction s as [|c s IH]; intros n Hn.
  - destruct n; [reflexivity | cbn in Hn; lia].
  - destruct n as [|n].
    + cbn [substring]. rewrite app_nil_l. cbn [String.length Nat.sub].
      rewrite substring_all. reflexivity.
    + cbn [substring String.length Nat.sub]. rewrite app_cons, IH;
        [reflexivity | cbn in Hn; lia].
Qed.

Lemma rfind_from_bound c p :
  forall i found,
    (found < i + Z.of_nat (String.length p))%Z ->
    (rfind_from i c p found < i + Z.of_nat (String.length p))%Z.
Proof.
  induction p as [|a p IH]; intros i found Hfound; cbn [rfind_from].
  - exact Hfound.
  - cbn [String.length] in *.
    replace (i + Z.of_nat (S (String.length p)))%Z
      with (i + 1 + Z.of_nat (String.length p))%Z by lia.
    apply IH. destruct (Ascii.eqb a c); lia.
Qed.

Lemma rfind_from_absent c p :
  contains p (String c "") = false ->
  forall i found, rfind_from i c p found = found.
Proof.
  induction p as [|a p IH]; intros Hp i found; [reflexivity|].
  rewrite contains_cons in Hp. apply orb_false_iff in Hp as [Ha Hp].
  cbn [rfind_from]. rewrite Ascii.eqb_sym, Ha. apply IH, Hp.
Qed.

Lemma rfind_from_app c s t :
  forall i found,
    rfind_from i c (s +:+ t) found
    = rfind_from (i + Z.of_nat (String.length s)) c t (rfind_from i c s found).
Proof.
  induction s as [|a s IH]; intros i found.
  - rewrite app_nil_l. cbn. rewrite Z.add_0_r. reflexivity.
  - rewrite app_cons. cbn [rfind_from String.length]. rewrite IH.
    f_equal. lia.
Qed.

Lemma splitext_loop_Some fuel p d :
  forall f r,
    splitext_loop fuel p f d = Some r ->
    r = (substring 0 d p, substring d (String.length p - d) p).
Proof.
  induction fuel as [|fuel IH]; intros f r; cbn [splitext_loop];
    [discriminate|].
  destruct (f <? d)%nat; [|discriminate].
  destruct (negb _); [intros [= <-]; reflexivity | apply IH].
Qed.

(** What [splitext] splits off can be put back. *)
Lemma splitext_parts p : fst (splitext p) +:+ snd (splitext p) = p.
Proof.
  unfold splitext.
  destruct (rfind "/" p <? rfind "." p)%Z eqn:Hlt; [|apply app_nil_r].
  destruct (splitext_loop _ _ _ _) as [r|] eqn:Hloop; [|apply app_nil_r].
  apply splitext_loop_Some in Hloop as ->. cbn [fst snd].
  apply substring_cut.
  pose proof (rfind_from_bound "." p 0 (-1)) as Hbound.
  unfold rfind. lia.
Qed.

(** The name [stem.ext] is split at its dot. *)
Lemma splitext_simple stem ext :
  stem <> "" ->
  contains stem "." = false -> contains stem "/" = false ->
  contains ext "." = false -> contains ext "/" = false ->
  splitext (stem +:+ "." +:+ ext) = (stem, "." +:+ ext).
Proof.
  intros Hne Hdot1 Hsep1 Hdot2 Hsep2.
  assert (Hsep : rfind "/" (stem +:+ "." +:+ ext) = (-1)%Z).
  { unfold rfind. apply rfind_from_absent.
    rewrite !contains_app, Hsep1, Hsep2. reflexivity. }
  assert (Hdot : rfind "." (stem +:+ "." +:+ ext)
                 = Z.of_nat (String.length stem)).
  { unfold rfind. rewrite rfind_from_app, (rfind_from_absent _ _ Hdot1).
    rewrite app_cons, app_nil_l. cbn [rfind_from].
    change (Ascii.eqb "." ".") with true. cbv iota.
    rewrite (rfind_from_absent _ _ Hdot2). lia. }
  unfold splitext. rewrite Hsep, Hdot.
  destruct (Z.ltb_spec (-1) (Z.of_nat (String.length stem))); [|lia].
  rewrite Nat2Z.id. change (Z.to_nat (-1 + 1)) with 0%nat.
  destruct stem as [|c stem]; [contradiction|].
  rewrite contains_cons in Hdot1. apply orb_false_iff in Hdot1 as [Hc _].
  cbn [String.length splitext_loop]. cbn [Nat.ltb Nat.leb].
  replace (substring 0 1 (String c stem +:+ "." +:+ ext)) with (String c "")
    by (rewrite app_cons; cbn; destruct (stem +:+ "." +:+ ext); reflexivity).
  replace (String.eqb (String c "") ".") with false
    by (cbn [String.eqb]; rewrite Ascii.eqb_sym, Hc; reflexivity).
  cbn [negb]. f_equal.
  - apply (substring_prefix (String c stem)).
  - rewrite length_app.
    replace (String.length (String c stem) + String.length ("." +:+ ext)
             - S (String.length stem))%nat
      with (String.length ("." +:+ ext)) by (cbn [String.length]; lia).
    apply (substring_suffix (String c stem)).
Qed.

End StemFacts.

(** * Letter case

    Lower-casing moves letters only: the length of a name, its dots,
    slashes and NUL characters stay where they are, and with them the
    place where [os.path.splitext] cuts it. *)
Module LowerFacts.
Import Str StrFacts Path.

Lemma lower_char_eqb c a :
  caseless a -> Ascii.eqb (lower_char c) a = Ascii.eqb c a.
Proof.
  intros [->|[->| ->]];
    destruct c as [[] [] [] [] [] [] [] []]; reflexivity.
Qed.

Lemma lower_char_idempotent c : lower_char (lower_char c) = lower_char c.
Proof. destruct c as [[] [] [] [] [] [] [] []]; reflexivity. Qed.

Lemma lower_idempotent s : lower (lower s) = lower s.
Proof.
  induction s as [|c s IH]; [reflexivity|]. cbn [lower].
  rewrite lower_char_idempotent, IH. reflexivity.
Qed.

Lemma lower_app s t : lower (s +:+ t) = lower s +:+ lower t.
Proof.
  induction s as [|c s IH]; [reflexivity|].
  rewrite app_cons. cbn [lower]. rewrite IH, app_cons. reflexivity.
Qed.

Lemma length_lower s : String.length (lower s) = String.length s.
Proof. induction s as [|c s IH]; cbn; [reflexivity | rewrite IH; reflexivity]. Qed.

Lemma contains_lower s a :
  caseless a ->
  contains (lower s) (String a "") = contains s (String a "").
Proof.
  intros Ha. induction s as [|c s IH]; [reflexivity|].
  change (lower (String c s)) with (String (lower_char c) (lower s)).
  rewrite !contains_cons. rewrite IH.
  rewrite (Ascii.eqb_sym a), (Ascii.eqb_sym a c), (lower_char_eqb c a Ha).
  reflexivity.
Qed.

Lemma substring_lower s : forall n m,
  substring n m (lower s) = lower (substring n m s).
Proof.
  induction s as [|c s IH]; intros n m.
  - destruct n, m; reflexivity.
  - destruct n as [|n]; cbn [lower substring].
    + destruct m as [|m]; [reflexivity|]. cbn [lower]. rewrite IH. reflexivity.
    + apply IH.
Qed.

Lemma rfind_from_lower a p :
  caseless a ->
  forall i found, rfind_from i a (lower p) found = rfind_from i a p found.
Proof.
  intros Ha. induction p as [|c p IH]; intros i found; [reflexivity|].
  cbn [lower rfind_from]. rewrite (lower_char_eqb c a Ha). apply IH.
Qed.

Lemma eqb_lower_dot s : String.eqb (lower s) "." = String.eqb s ".".
Proof.
  destruct s as [|c s]; [reflexivity|]. cbn [lower String.eqb].
  rewrite (lower_char_eqb c "."%char); [|left; reflexivity].
  destruct s; reflexivity.
Qed.

Lemma splitext_loop_lower fuel p : forall f d,
  splitext_loop fuel (lower p) f d
  = match splitext_loop fuel p f d with
    | Some (root, ext) => Some (lower root, lower ext)
    | None => None
    end.
Proof.
  induction fuel as [|fuel IH]; intros f d; [reflexivity|].
  cbn [splitext_loop]. destruct (f <? d)%nat; [|reflexivity].
  rewrite !substring_lower, eqb_lower_dot, length_lower.
  destruct (negb _); [reflexivity | apply IH].
Qed.

(** [os.path.splitext] cuts a name and its lower-case form at the same
    place. *)
Lemma splitext_lower p :
  splitext (lower p) = (lower (fst (splitext p)), lower (snd (splitext p))).
Proof.
  unfold splitext, rfind.
  rewrite !rfind_from_lower by (unfold caseless; auto).
  destruct (_ <? _)%Z; [|reflexivity].
  rewrite splitext_loop_lower.
  destruct (splitext_loop _ p _ _) as [[root ext]|]; reflexivity.
Qed.

End LowerFacts.
(** * Facts about the calendar *)
Module DateFacts.
Import Date.
Open Scope Z_scope.

Ltac zdm := Z.div_mod_to_equations; lia.

Lemma all_from_spec f n :
  forall lo, all_from f lo n = true ->
  forall r, lo <= r < lo + Z.of_nat n -> f r = true.
Proof.
  induction n as [|k IH]; intros lo H r Hr; [lia|].
  cbn [all_from] in H. apply andb_true_iff in H as [Hk Hrest].
  destruct (Z.eq_dec r lo) as [->|Hne]; [exact Hk|].
  apply (IH (lo + 1)); [exact Hrest | lia].
Qed.

Lemma month_day_checked leapyear :
  all_from (month_day_ok leapyear) 0 365 = true.
Proof. destruct leapyear; vm_compute; reflexivity. Qed.

Lemma month_day_spec leapyear n :
  0 <= n < 365 ->
  let '(m, d) := month_day leapyear n in
  1 <= m <= 12
  /\ 1 <= d <= DAYS_IN_MONTH m + (if (m =? 2) && leapyear then 1 else 0)
  /\ DAYS_BEFORE_MONTH m + (if (2 <? m) && leapyear then 1 else 0) + d = n + 1.
Proof.
  intros Hn.
  pose proof (all_from_spec _ _ _ (month_day_checked leapyear) n) as H.
  unfold month_day_ok in H. destruct (month_day leapyear n) as [m d].
  assert (Hr : 0 <= n < 0 + Z.of_nat 365) by lia. specialize (H Hr).
  repeat (apply andb_true_iff in H as [H ?]). lia.
Qed.

Lemma days_before_year_decomp a b c e :
  0 <= b <= 3 -> 0 <= c <= 24 -> 0 <= e <= 3 ->
  days_before_year (a * 400 + 1 + b * 100 + c * 4 + e)
  = DI400Y * a + DI100Y * b + DI4Y * c + 365 * e.
Proof. intros. unfold days_before_year, DI400Y, DI100Y, DI4Y. zdm. Qed.

Lemma is_leap_decomp a b c e :
  0 <= b <= 3 -> 0 <= c <= 24 -> 0 <= e <= 3 ->
  is_leap (a * 400 + 1 + b * 100 + c * 4 + e)
  = (e =? 3) && (negb (c =? 24) || (b =? 3)).
Proof.
  intros. unfold is_leap.
  repeat match goal with
         | |- context [?x =? ?y] => destruct (Z.eqb_spec x y)
         end; cbn; try reflexivity; exfalso; zdm.
Qed.

Lemma is_leap_end_of_cycle a b c e :
  0 <= b <= 4 -> 0 <= c <= 24 -> 0 <= e <= 4 ->
  (e = 4 \/ b = 4) -> (b = 4 -> c = 0 /\ e = 0) -> (e = 4 -> c <= 23) ->
  is_leap (a * 400 + 1 + b * 100 + c * 4 + e - 1) = true
  /\ days_before_year (a * 400 + 1 + b * 100 + c * 4 + e - 1) + 366
     = DI400Y * a + DI100Y * b + DI4Y * c + 365 * e + 1.
Proof.
  intros Hb Hc He Hor Hb4 He4. split.
  - unfold is_leap.
    repeat match goal with
           | |- context [?x =? ?y] => destruct (Z.eqb_spec x y)
           end; cbn; try reflexivity; exfalso; zdm.
  - unfold days_before_year, DI400Y, DI100Y, DI4Y. zdm.
Qed.

Lemma days_in_month_table y m :
  days_in_month y m
  = DAYS_IN_MONTH m + (if (m =? 2) && is_leap y then 1 else 0).
Proof.
  unfold days_in_month, DAYS_IN_MONTH.
  destruct (Z.eqb_spec m 2) as [->|Hm]; cbn.
  - destruct (is_leap y); reflexivity.
  - destruct m as [|p|p]; try lia.
    do 4 (try destruct p as [p|p|]; try lia).
Qed.

(** Name a quotient and a remainder, keeping the division equation. *)
Ltac name_divmod x d q m :=
  let H := fresh "Hdiv" in
  assert (H : 0 <= x mod d < d /\ x mod d = x - d * (x / d)) by zdm;
  generalize dependent (x mod d); intros m;
  generalize dependent (x / d); intros q; intros.

Lemma valid_b_true y m d :
  1 <= y <= 9999 -> 1 <= m <= 12 -> 1 <= d <= days_in_month y m ->
  valid_b y m d = true.
Proof.
  intros. unfold valid_b, MINYEAR, MAXYEAR.
  repeat (apply andb_true_iff; split); apply Z.leb_le; lia.
Qed.

Lemma valid_b_inv y m d :
  valid_b y m d = true ->
  1 <= y <= 9999 /\ 1 <= m <= 12 /\ 1 <= d <= days_in_month y m.
Proof.
  unfold valid_b, MINYEAR, MAXYEAR. intros H.
  repeat (apply andb_true_iff in H as [H ?]).
  repeat match goal with
         | H : (_ <=? _) = true |- _ => apply Z.leb_le in H
         end. lia.
Qed.

(** [_ord2ymd] inverts [_ymd2ord] and returns dates of the supported
    range. *)
Lemma ord2ymd_spec n :
  1 <= n <= MAXORDINAL ->
  valid (ord2ymd n) /\ toordinal (ord2ymd n) = n.
Proof.
  intros Hn. unfold ord2ymd, MAXORDINAL in *.
  assert (Hr : 0 <= n - 1 <= 3652058) by lia.
  remember (n - 1) as r eqn:Er.
  assert (Hnr : n = r + 1) by lia. clear Er Hn. subst n.
  unfold DI400Y, DI100Y, DI4Y.
  name_divmod r 146097 a r1.
  name_divmod r1 36524 b r2.
  name_divmod r2 1461 c r3.
  name_divmod r3 365 e r4.
  cbv zeta.
  destruct ((e =? 4) || (b =? 4)) eqn:Hend.
  - (* the last day of a leap year *)
    destruct (is_leap_end_of_cycle a b c e) as [Hleap Hdays];
      try lia.
    unfold valid, toordinal, ymd2ord, days_before_month; cbn [year month day].
    split.
    + apply valid_b_true; cbn; lia.
    + rewrite Hleap. unfold DI400Y, DI100Y, DI4Y in Hdays. cbn. lia.
  - apply orb_false_iff in Hend as [He%Z.eqb_neq Hb%Z.eqb_neq].
    pose proof (is_leap_decomp a b c e) as Hleap.
    pose proof (days_before_year_decomp a b c e) as Hdays.
    unfold DI400Y, DI100Y, DI4Y in Hdays.
    pose proof (month_day_spec ((e =? 3) && (negb (c =? 24) || (b =? 3))) r4)
      as Hmd.
    destruct (month_day _ r4) as [m d].
    rewrite <- Hleap in Hmd by lia.
    destruct Hmd as (Hm & Hd & Hsum); [lia|].
    unfold valid, toordinal, ymd2ord, days_before_month; cbn [year month day].
    split.
    + apply valid_b_true; [lia | lia |].
      rewrite days_in_month_table. lia.
    + rewrite Hdays by lia. lia.
Qed.

Ltac month_cases m :=
  let H := fresh in
  assert (H : m = 1 \/ m = 2 \/ m = 3 \/ m = 4 \/ m = 5 \/ m = 6 \/ m = 7
              \/ m = 8 \/ m = 9 \/ m = 10 \/ m = 11 \/ m = 12) by lia;
  repeat (destruct H as [H|H]; [subst m|]); [..|subst m].

Lemma day_of_year_bound y m d :
  1 <= m <= 12 -> 1 <= d <= days_in_month y m ->
  1 <= days_before_month y m + d <= 365 + (if is_leap y then 1 else 0).
Proof.
  intros Hm Hd. unfold days_before_month.
  month_cases m; cbn in *; destruct (is_leap y); lia.
Qed.

Lemma toordinal_range d :
  valid d -> 1 <= toordinal d <= MAXORDINAL.
Proof.
  intros (Hy & Hm & Hd)%valid_b_inv.
  pose proof (day_of_year_bound _ _ _ Hm Hd) as Hdoy.
  unfold toordinal, ymd2ord, MAXORDINAL.
  destruct (Z.eq_dec (year d) 9999) as [E|E].
  - rewrite E in *.
    change (is_leap 9999) with false in Hdoy.
    change (days_before_year 9999) with 3651694. lia.
  - assert (0 <= days_before_year (year d) <= 3651329)
      by (unfold days_before_year; zdm).
    destruct (is_leap (year d)); lia.
Qed.

(** The weekday of an ordinal moved back to the nearest Tuesday. *)
Lemma back_to_tuesday n :
  2 <= n ->
  let k := ((n + 6) mod 7 - 1) mod 7 in
  0 <= k <= 6 /\ 1 < n - k /\ (n - k + 6) mod 7 = 1.
Proof. intros Hn. cbv zeta. zdm. Qed.

Lemma digit_chr_val k :
  0 <= k <= 9 ->
  Str.is_digit (Str.digit_chr k) = true /\ Str.digit_val (Str.digit_chr k) = k.
Proof.
  intros Hk.
  assert (H : k = 0 \/ k = 1 \/ k = 2 \/ k = 3 \/ k = 4 \/ k = 5 \/ k = 6
              \/ k = 7 \/ k = 8 \/ k = 9) by lia.
  repeat (destruct H as [H|H]; [subst k; split; reflexivity|]).
  subst k; split; reflexivity.
Qed.

Lemma parse_Y_pad4 y rest :
  0 <= y <= 9999 -> parse_Y (pad4 y +:+ rest) = [(y, rest)].
Proof.
  intros Hy. cbv [pad4 pad2 parse_Y String.append].
  destruct (digit_chr_val (y / 1000 mod 10)) as [-> ->]; [zdm|].
  destruct (digit_chr_val (y / 100 mod 10)) as [-> ->]; [zdm|].
  destruct (digit_chr_val (y / 10 mod 10)) as [-> ->]; [zdm|].
  destruct (digit_chr_val (y mod 10)) as [-> ->]; [zdm|].
  cbn [andb]. do 2 f_equal. zdm.
Qed.

Lemma parse_m_pad2 m rest :
  1 <= m <= 12 -> exists alts, parse_m (pad2 m +:+ rest) = (m, rest) :: alts.
Proof.
  intros Hm. month_cases m; eexists; reflexivity.
Qed.

Lemma parse_d_pad2 d :
  1 <= d <= 31 -> exists alts, parse_d (pad2 d) = (d, EmptyString) :: alts.
Proof.
  intros Hd.
  assert (H : exists n : nat, (n < 31)%nat /\ d = Z.of_nat n + 1)
    by (exists (Z.to_nat (d - 1)); lia).
  destruct H as (n & Hn & ->).
  do 31 (destruct n as [|n]; [eexists; reflexivity|]). lia.
Qed.

Lemma days_in_month_le y m : days_in_month y m <= 31.
Proof.
  unfold days_in_month.
  destruct m as [|p|p]; try lia.
  do 4 (try destruct p as [p|p|]; try lia); destruct (is_leap y); lia.
Qed.

Lemma list_bind_cons {A B} (f : A -> list B) x l :
  (x :: l) ≫= f = f x ++ (l ≫= f).
Proof. reflexivity. Qed.

Lemma expect_dash_app s : expect_dash ("-" +:+ s) = [s].
Proof. reflexivity. Qed.

Lemma regex_matches_iso y m dd :
  0 <= y <= 9999 -> 1 <= m <= 12 -> 1 <= dd <= 31 ->
  exists alts,
    regex_matches (pad4 y +:+ "-" +:+ pad2 m +:+ "-" +:+ pad2 dd)
    = (y, m, dd, EmptyString) :: alts.
Proof.
  intros Hy Hm Hd. unfold regex_matches.
  rewrite parse_Y_pad4 by lia.
  destruct (parse_m_pad2 m ("-" +:+ pad2 dd)) as [am Em]; [lia|].
  destruct (parse_d_pad2 dd) as [ad Ed]; [lia|].
  rewrite list_bind_cons, expect_dash_app, list_bind_cons, Em,
    list_bind_cons, expect_dash_app, list_bind_cons, Ed, list_bind_cons.
  cbn [app]. eexists. reflexivity.
Qed.

(** A date written as YYYY-MM-DD is read back as the same date. *)
Lemma strptime_isoformat d :
  valid d -> strptime (isoformat d) = Ok d.
Proof.
  intros Hv. pose proof Hv as (Hy & Hm & Hd)%valid_b_inv.
  pose proof (days_in_month_le (year d) (month d)).
  destruct (regex_matches_iso (year d) (month d) (day d)) as [alts E];
    [lia..|].
  unfold strptime, isoformat. rewrite E.
  unfold make. rewrite Hv. destruct d; reflexivity.
Qed.

(** The shape YYYY-MM-DD: ten characters, digits around two dashes. *)
Lemma isoformat_shape d :
  valid d ->
  Re.is_date_name (isoformat d) = true
  /\ String.length (isoformat d) = 10%nat.
Proof.
  intros (Hy & Hm & Hd)%valid_b_inv.
  pose proof (days_in_month_le (year d) (month d)).
  cbv [isoformat pad4 pad2 String.append Re.is_date_name String.length].
  repeat match goal with
         | |- context [Str.is_digit (Str.digit_chr ?k)] =>
             let H := fresh in
             destruct (digit_chr_val k) as [H _]; [zdm|]; rewrite H; clear H
         end.
  split; reflexivity.
Qed.

Lemma strftime_isoformat low_year d :
  1000 <= year d -> strftime low_year d = isoformat d.
Proof.
  intros Hy. unfold strftime, isoformat.
  replace (year d <? 1000) with false by (symmetry; apply Z.ltb_ge; lia).
  reflexivity.
Qed.

End DateFacts.

(** * The date resolver: [last_tuesday] *)
Section LastTuesday.
Import Date DateFacts TidyTuesdayPy.
Open Scope Z_scope.

Lemma toordinal_first d :
  valid d -> toordinal d = 1 -> d = mkdate 1 1 1.
Proof.
  intros (Hy & Hm & Hd)%valid_b_inv H1.
  pose proof (day_of_year_bound _ _ _ Hm Hd) as Hdoy.
  unfold toordinal, ymd2ord in H1.
  assert (Hyear : year d = 1)
    by (unfold days_before_year in H1; zdm).
  rewrite Hyear in *. change (days_before_year 1) with 0 in H1.
  destruct d as [y m dd]; cbn [year month day] in *. subst y.
  unfold days_before_month in H1.
  change (is_leap 1) with false in *.
  month_cases m; cbn in H1; try lia; f_equal; lia.
Qed.

(** The computation of [last_tuesday] on a date object. *)
Lemma last_tuesday_obj env d :
  valid d -> d <> mkdate 1 1 1 ->
  let k := (weekday d - 1) mod 7 in
  let r := ord2ymd (toordinal d - k) in
  last_tuesday env (Some (DateObj d)) = Ok (strftime (strftime_year env) r)
  /\ valid r /\ toordinal r = toordinal d - k /\ 0 <= k <= 6
  /\ weekday r = 1.
Proof.
  intros Hv Hne. cbv zeta.
  pose proof (toordinal_range d Hv) as Hrange.
  assert (Hn : 2 <= toordinal d).
  { destruct (Z.eq_dec (toordinal d) 1) as [E|E]; [|lia].
    contradiction Hne. apply toordinal_first; assumption. }
  destruct (back_to_tuesday _ Hn) as (Hk & Hlow & Hwd).
  fold (weekday d) in Hk, Hlow, Hwd.
  destruct (ord2ymd_spec (toordinal d - (weekday d - 1) mod 7))
    as [Hvr Hor]; [lia|].
  repeat split; try assumption; try lia.
  - unfold last_tuesday, res_bind, sub_days.
    replace ((0 <? toordinal d - (weekday d - 1) mod 7)
             && (toordinal d - (weekday d - 1) mod 7 <=? MAXORDINAL))
      with true; [reflexivity|].
    symmetry. apply andb_true_iff. split; [apply Z.ltb_lt | apply Z.leb_le]; lia.
  - unfold weekday at 1. rewrite Hor. exact Hwd.
Qed.

(** C1, as the code has it: for every valid calendar date other than
    0001-01-01, given as a date object or as any string that
    [strptime] reads as that date (its form YYYY-MM-DD is one),
    [last_tuesday] returns the [%Y-%m-%d] rendering of a date [r] that
    is a Tuesday (weekday 1 with Monday = 0) and lies
    [(weekday(d) - 1) mod 7] days, hence between 0 and 6 days, before
    [d].  When the year of [r] has four digits the rendering is the
    form YYYY-MM-DD of [r], which has ten characters, digits around two
    dashes, and reads back as [r]. *)
Theorem last_tuesday_correct env (d : date) :
  valid d -> d <> mkdate 1 1 1 ->
  exists r,
    last_tuesday env (Some (DateObj d)) = Ok (strftime (strftime_year env) r)
    /\ (forall s, strptime s = Ok d ->
        last_tuesday env (Some (DateStr s))
        = Ok (strftime (strftime_year env) r))
    /\ strptime (isoformat d) = Ok d
    /\ valid r
    /\ weekday r = 1
    /\ toordinal d - toordinal r = (weekday d - 1) mod 7
    /\ 0 <= toordinal d - toordinal r <= 6
    /\ (1000 <= year r -> strftime (strftime_year env) r = isoformat r)
    /\ Re.is_date_name (isoformat r) = true
    /\ strptime (isoformat r) = Ok r.
Proof.
  intros Hv Hne.
  destruct (last_tuesday_obj env d Hv Hne) as (Hrun & Hvr & Hor & Hk & Hwd).
  eexists. split; [exact Hrun|].
  split.
  { intros s Hs. unfold last_tuesday, res_bind in *. rewrite Hs. exact Hrun. }
  split; [apply strptime_isoformat; exact Hv|].
  split; [exact Hvr|]. split; [exact Hwd|].
  split; [lia|]. split; [lia|].
  split; [apply strftime_isoformat|].
  split; [apply isoformat_shape; exact Hvr | apply strptime_isoformat; exact Hvr].
Qed.

Lemma last_tuesday_correct_witness :
  exists r,
    last_tuesday (Sample.env 60) (Some (DateObj (mkdate 2026 11 5)))
    = Ok (strftime Str.of_Z r)
    /\ (forall s, strptime s = Ok (mkdate 2026 11 5) ->
        last_tuesday (Sample.env 60) (Some (DateStr s))
        = Ok (strftime Str.of_Z r))
    /\ strptime (isoformat (mkdate 2026 11 5)) = Ok (mkdate 2026 11 5)
    /\ valid r
    /\ weekday r = 1
    /\ toordinal (mkdate 2026 11 5) - toordinal r
       = (weekday (mkdate 2026 11 5) - 1) mod 7
    /\ 0 <= toordinal (mkdate 2026 11 5) - toordinal r <= 6
    /\ (1000 <= year r -> strftime Str.of_Z r = isoformat r)
    /\ Re.is_date_name (isoformat r) = true
    /\ strptime (isoformat r) = Ok r.
Proof.
  apply (last_tuesday_correct (Sample.env 60) (mkdate 2026 11 5));
    [reflexivity | discriminate].
Defined.

(** C1 as stated fails in two places.  0001-01-01 is a valid date, a
    Monday, and the Tuesday before it is not representable, so the
    subtraction raises [OverflowError].  And where [strftime] writes a
    year below 1000 without leading zeros, as in the sample
    environment, the result for 0999-06-15 is not of the form
    YYYY-MM-DD. *)
Lemma last_tuesday_overflows_on_first_day :
  valid (mkdate 1 1 1)
  /\ weekday (mkdate 1 1 1) = 0
  /\ last_tuesday (Sample.env 60) (Some (DateObj (mkdate 1 1 1)))
     = Raise OverflowError
  /\ last_tuesday (Sample.env 60) (Some (DateStr "0001-01-01"))
     = Raise OverflowError
  /\ valid (mkdate 999 6 15)
  /\ last_tuesday (Sample.env 60) (Some (DateStr "0999-06-15"))
     = Ok "999-06-11"
  /\ Re.is_date_name "999-06-11" = false.
Proof. repeat split; reflexivity. Qed.

End LastTuesday.

(** * Computations *)
Section Computations.

Lemma bind_Ok {A B} (m : M A) (k : A -> M B) s a s1 l1 :
  m s = (Ok a, s1, l1) ->
  bind m k s = (result_of (k a s1), state_of (k a s1), l1 ++ log_of (k a s1)).
Proof.
  intros H. unfold bind, result_of, state_of, log_of. rewrite H.
  destruct (k a s1) as [[r s2] l2]. reflexivity.
Qed.

Lemma bind_Raise {A B} (m : M A) (k : A -> M B) s e s1 l1 :
  m s = (Raise e, s1, l1) -> bind m k s = (Raise e, s1, l1).
Proof. intros H. unfold bind. rewrite H. reflexivity. Qed.

Lemma bind_inv {A B} (m : M A) (k : A -> M B) s b s2 l :
  bind m k s = (Ok b, s2, l) ->
  exists a s1 l1 l2,
    m s = (Ok a, s1, l1) /\ k a s1 = (Ok b, s2, l2) /\ l = l1 ++ l2.
Proof.
  unfold bind. destruct (m s) as [[[a|e] s1] l1]; [|discriminate].
  destruct (k a s1) as [[r s2'] l2] eqn:Hk. intros [= -> -> <-].
  eauto 10.
Qed.

Lemma try_except_inv {A} (m : M A) (h : exn -> M A) s a s2 l :
  try_except m h s = (Ok a, s2, l) ->
  m s = (Ok a, s2, l)
  \/ exists e s1 l1 l2,
       m s = (Raise e, s1, l1) /\ h e s1 = (Ok a, s2, l2) /\ l = l1 ++ l2.
Proof.
  unfold try_except. destruct (m s) as [[[a'|e] s1] l1].
  - intros [= -> -> ->]. left. reflexivity.
  - destruct (h e s1) as [[r s2'] l2] eqn:Hh. intros [= -> -> <-].
    right. eauto 10.
Qed.

Lemma post_ret {A} (a : A) (Q : A -> Prop) : Q a -> post (ret a) Q.
Proof. intros HQ s a' s' l [= <- _ _]. exact HQ. Qed.

Lemma post_raise {A} e (Q : A -> Prop) : post (raise e) Q.
Proof. intros s a s' l [=]. Qed.

Lemma post_lift {A} (r : res A) (Q : A -> Prop) :
  (forall a, r = Ok a -> Q a) -> post (lift r) Q.
Proof. intros H s a s' l [= -> _ _]. apply H. reflexivity. Qed.

Lemma post_bind {A B} (m : M A) (k : A -> M B) (P : A -> Prop) (Q : B -> Prop) :
  post m P -> (forall a, P a -> post (k a) Q) -> post (bind m k) Q.
Proof.
  intros Hm Hk s b s2 l (a & s1 & l1 & l2 & Ha & Hb & _)%bind_inv.
  exact (Hk a (Hm _ _ _ _ Ha) _ _ _ _ Hb).
Qed.

Lemma post_try_except {A} (m : M A) (h : exn -> M A) (Q : A -> Prop) :
  post m Q -> (forall e, post (h e) Q) -> post (try_except m h) Q.
Proof.
  intros Hm Hh s a s2 l [H|(e & s1 & l1 & l2 & _ & H & _)]%try_except_inv.
  - exact (Hm _ _ _ _ H).
  - exact (Hh e _ _ _ _ H).
Qed.

Lemma post_weaken {A} (m : M A) (P Q : A -> Prop) :
  post m P -> (forall a, P a -> Q a) -> post m Q.
Proof. intros Hm HPQ s a s' l H. apply HPQ. exact (Hm _ _ _ _ H). Qed.

Lemma post_trivial {A} (m : M A) : post m (fun _ => True).
Proof. intros s a s' l _. exact I. Qed.

End Computations.

(** * The stable sort *)
Section StableSortFacts.
Context {A : Type} (key : A -> string).

Lemma leb_false_le x y : String.leb (key x) (key y) = false -> le_by key y x.
Proof.
  intros H. unfold le_by, String.le.
  destruct (String.leb_total (key x) (key y)) as [E|E]; [congruence|].
  rewrite E. exact I.
Qed.

Lemma insert_sorted_Forall (P : A -> Prop) x l :
  P x -> Forall P l -> Forall P (insert_sorted key x l).
Proof.
  intros Hx Hl. induction Hl as [|y l Hy Hl IH]; cbn.
  - constructor; [exact Hx | constructor].
  - destruct (String.leb (key x) (key y)); repeat constructor; assumption.
Qed.

Lemma insert_sorted_StronglySorted x l :
  StronglySorted (le_by key) l -> StronglySorted (le_by key) (insert_sorted key x l).
Proof.
  induction 1 as [|y l Hsorted IH Hy]; cbn.
  - repeat constructor.
  - destruct (String.leb (key x) (key y)) eqn:E.
    + constructor; [constructor; assumption|].
      assert (Hxy : le_by key x y) by (unfold le_by, String.le; rewrite E; exact I).
      constructor; [exact Hxy|].
      eapply Forall_impl; [exact Hy|].
      intros z Hz. unfold le_by in *. etrans; eassumption.
    + constructor; [exact IH|].
      apply insert_sorted_Forall; [apply leb_false_le; exact E | exact Hy].
Qed.

Lemma sort_by_StronglySorted l : StronglySorted (le_by key) (sort_by key l).
Proof.
  induction l as [|x l IH]; cbn; [constructor|].
  apply insert_sorted_StronglySorted. exact IH.
Qed.

Lemma sort_by_Forall (P : A -> Prop) l : Forall P l -> Forall P (sort_by key l).
Proof.
  induction 1; cbn; [constructor|]. apply insert_sorted_Forall; assumption.
Qed.

Lemma insert_sorted_Permutation x l : insert_sorted key x l ≡ₚ x :: l.
Proof.
  induction l as [|y l IH]; cbn; [reflexivity|].
  destruct (String.leb (key x) (key y)); [reflexivity|].
  rewrite IH. apply Permutation_swap.
Qed.

Lemma sort_by_Permutation l : sort_by key l ≡ₚ l.
Proof.
  induction l as [|x l IH]; cbn; [reflexivity|].
  rewrite insert_sorted_Permutation, IH. reflexivity.
Qed.

End StableSortFacts.

(** * The catalogue lister: [tt_datasets] *)
Section Listing.
Import TidyTuesdayPy.
Context (env : Env).

Lemma match_date_name_true v :
  Re.match_date_name v = Ok true ->
  exists s, v = VStr s /\ Re.is_date_name s = true.
Proof. destruct v; cbn; intros [=]. eauto. Qed.

Lemma datasets_loop_listed year folders :
  forall acc,
    Forall (listed_under year) acc ->
    post (datasets_loop env year folders acc) (Forall (listed_under year)).
Proof.
  induction folders as [|folder rest IH]; intros acc Hacc; cbn [datasets_loop].
  - apply post_ret. exact Hacc.
  - eapply post_bind; [apply post_trivial|]. intros week_name _.
    eapply post_bind.
    { apply (post_lift _ (fun b => Re.match_date_name week_name = Ok b)).
      auto. }
    intros [|] Hmatch.
    + apply match_date_name_true in Hmatch as (date & -> & Hdate).
      eapply post_bind; [apply post_trivial|]. intros readme_response _.
      apply IH. apply Forall_app. split; [exact Hacc|].
      constructor; [|constructor]. split; [exact Hdate | reflexivity].
    + apply IH. exact Hacc.
Qed.

Lemma well_listed_nil year : well_listed year [].
Proof. split; constructor. Qed.

Lemma tt_datasets_post year print_output :
  post (tt_datasets env year print_output) (well_listed (str env year)).
Proof.
  unfold tt_datasets.
  eapply post_bind; [apply post_trivial|]. intros remaining _.
  eapply post_bind; [apply post_trivial|]. intros low _.
  destruct low.
  { eapply post_bind; [apply post_trivial|]. intros _ _.
    apply post_ret, well_listed_nil. }
  apply post_try_except.
  2:{ intros e. eapply post_bind; [apply post_trivial|]. intros _ _.
      apply post_ret, well_listed_nil. }
  eapply post_bind; [apply post_trivial|]. intros response _.
  destruct (negb _).
  { eapply post_bind; [apply post_trivial|]. intros _ _.
    apply post_ret, well_listed_nil. }
  eapply post_bind; [apply post_trivial|]. intros data _.
  eapply post_bind; [apply post_trivial|]. intros items _.
  eapply post_bind; [apply post_trivial|]. intros folders _.
  eapply post_bind; [apply datasets_loop_listed; constructor|].
  intros datasets Hlisted.
  eapply post_bind; [apply post_trivial|]. intros _ _.
  apply post_ret. split.
  - apply sort_by_StronglySorted.
  - apply sort_by_Forall. exact Hlisted.
Qed.

End Listing.

(** * The rate budget *)
Section RateLimit.
Import TidyTuesdayPy.
Context (env : Env).

Lemma bind_run {A B} (m : M A) (k : A -> M B) s a s1 l1 r s2 l2 :
  m s = (Ok a, s1, l1) -> k a s1 = (r, s2, l2) ->
  bind m k s = (r, s2, l1 ++ l2).
Proof. intros Hm Hk. unfold bind. rewrite Hm, Hk. reflexivity. Qed.

(** The probe always returns; it issues one request, to the
    rate-limit endpoint. *)
Lemma _update_rate_limit_run s :
  exists v,
    _update_rate_limit env s
    = (Ok tt, mkstate (S (clock s)) v, [Request RATE_LIMIT_URL]).
Proof.
  unfold _update_rate_limit, try_except, bind, requests_get, lift,
    set_rate_limit_remaining, ret, response_json.
  destruct (remote env (clock s) RATE_LIMIT_URL) as [response|];
    [|eexists; reflexivity].
  destruct (status_code response =? 200)%Z; [|eexists; reflexivity].
  destruct (json response) as [data|]; [|eexists; reflexivity].
  destruct (Py.getitem data "resources") as [resources|]; [|eexists; reflexivity].
  destruct (Py.getitem resources "core") as [core|]; [|eexists; reflexivity].
  destruct (Py.getitem core "remaining") as [remaining|]; eexists; reflexivity.
Qed.

Lemma rate_limit_check_quiet s :
  exists v s1,
    rate_limit_check env true s = (Ok v, s1, [Request RATE_LIMIT_URL])
    /\ clock s1 = S (clock s).
Proof.
  destruct (_update_rate_limit_run s) as [v Hrun].
  unfold rate_limit_check, bind. rewrite Hrun.
  unfold get_rate_limit_remaining, ret. cbn.
  eexists _, _. split; reflexivity.
Qed.

End RateLimit.

(** * The dataset locator: [tt_load_gh] *)
Section Locator.
Import TidyTuesdayPy.
Context (env : Env).

(** [tt_load_gh] once the rate check has passed. *)
Lemma tt_load_gh_checked date_or_year week s remaining s1 l1 :
  rate_limit_check env true s = (Ok remaining, s1, l1) ->
  Py.lt_int remaining 5 = Ok false ->
  forall body,
    body = match week with
           | Some week =>
               let year := str env date_or_year in
               datasets <- tt_datasets env (VStr year) false ;;
               match datasets with
               | [] => print (NoDatasetsFound year) ;; ret (VDict [])
               | _ :: _ =>
                   if (week <? 1)%Z || (Z.of_nat (length datasets) <? week)%Z
                   then print (WeekOutOfRange week year) ;; ret (VDict [])
                   else match datasets !! Z.to_nat (week - 1) with
                        | Some dataset => week_files env year (date dataset)
                        | None => raise IndexError
                        end
               end
           | None =>
               let date := str env date_or_year in
               week_files env (Str.take 4 date) date
           end ->
    tt_load_gh env date_or_year week s
    = (result_of (try_except body (fun e => print (Error e) ;; ret (VDict [])) s1),
       state_of (try_except body (fun e => print (Error e) ;; ret (VDict [])) s1),
       l1 ++ log_of (try_except body (fun e => print (Error e) ;; ret (VDict [])) s1)).
Proof.
  intros Hcheck Hlow body ->. unfold tt_load_gh.
  erewrite bind_Ok by exact Hcheck.
  unfold result_of, state_of, log_of.
  erewrite (bind_Ok (lift _)) by (unfold lift; rewrite Hlow; reflexivity).
  cbn [fst snd app]. destruct week; reflexivity.
Qed.

(** The first request of [week_files] asks for the folder of the
    date, and a dictionary it returns is empty or carries that date
    and year. *)
Lemma week_files_run year date s :
  exists r s' rest,
    week_files env year date s
    = (r, s', Request (GITHUB_API_URL +:+ "/" +:+ year +:+ "/" +:+ date) :: rest)
    /\ forall tt_data,
         r = Ok tt_data ->
         tt_data = VDict []
         \/ (Py.getitem tt_data "date" = Ok (VStr date)
             /\ Py.getitem tt_data "year" = Ok (VStr year)
             /\ exists files, Py.getitem tt_data "files" = Ok (VList files)).
Proof.
  unfold week_files. unfold bind at 1. unfold requests_get at 1.
  destruct (remote env (clock s) _) as [response|].
  2:{ eexists _, _, _. split; [reflexivity|]. intros ? [=]. }
  destruct (negb _).
  { eexists _, _, _. split; [reflexivity|]. intros ? [= <-]. left. reflexivity. }
  match goal with
  | |- context [?k ?st] =>
      match type of st with state => destruct (k st) as [[r s'] l] eqn:Hk end
  end.
  eexists _, _, _. split; [reflexivity|].
  intros tt_data ->.
  apply bind_inv in Hk as (? & ? & ? & ? & _ & Hk & _).
  apply bind_inv in Hk as (? & ? & ? & ? & _ & Hk & _).
  apply bind_inv in Hk as (files & ? & ? & ? & _ & Hk & _).
  apply bind_inv in Hk as (? & ? & ? & ? & _ & Hk & _).
  injection Hk as <- _ _. right. cbn. eauto.
Qed.

Lemma try_except_Ok {A} (m : M A) (h : exn -> M A) s a s1 l1 :
  m s = (Ok a, s1, l1) -> try_except m h s = (Ok a, s1, l1).
Proof. intros H. unfold try_except. rewrite H. reflexivity. Qed.

Lemma try_except_run {A} (m : M A) (h : exn -> M A) s :
  (forall e s1, exists a s2 l2, h e s1 = (Ok a, s2, l2)) ->
  exists a s2 l, try_except m h s = (Ok a, s2, l).
Proof.
  intros Hh. unfold try_except. destruct (m s) as [[[a|e] s1] l1]; [eauto|].
  destruct (Hh e s1) as (a & s2 & l2 & ->). eauto.
Qed.

Lemma try_except_bind_Ok {A B} (m : M A) (k : A -> M B) h s a s1 l1 :
  m s = (Ok a, s1, l1) ->
  try_except (bind m k) h s
  = (result_of (try_except (k a) h s1), state_of (try_except (k a) h s1),
     l1 ++ log_of (try_except (k a) h s1)).
Proof.
  intros Hm. unfold try_except, bind, result_of, state_of, log_of. rewrite Hm.
  destruct (k a s1) as [[[b|e] s2] l2]; cbn; [reflexivity|].
  destruct (h e s2) as [[r s3] l3]; cbn. rewrite app_assoc. reflexivity.
Qed.

(** C2: [tt_load_gh] in year+week mode, once the rate check has passed
    and [tt_datasets] has returned the list [datasets] of the year
    (sorted by date).  An empty list is reported as "no datasets
    found" and a week outside [1, N] as "out of range", in both cases
    with an empty result and no further request; a week [k] in
    [1, N] selects the date of the [k]-th entry (index [k - 1]): the
    call continues exactly as the fetch of that folder, whose first
    request asks for [year/date] and whose result, unless empty,
    carries that date and year. *)
Theorem tt_load_gh_by_week year week s remaining s1 l1 datasets s2 l2 :
  rate_limit_check env true s = (Ok remaining, s1, l1) ->
  Py.lt_int remaining 5 = Ok false ->
  tt_datasets env (VStr (str env year)) false s1 = (Ok datasets, s2, l2) ->
  StronglySorted by_date datasets
  /\ (datasets = [] ->
      tt_load_gh env year (Some week) s
      = (Ok (VDict []), s2,
         l1 ++ l2 ++ [Print (NoDatasetsFound (str env year))]))
  /\ (datasets <> [] ->
      (week < 1 \/ Z.of_nat (length datasets) < week)%Z ->
      tt_load_gh env year (Some week) s
      = (Ok (VDict []), s2,
         l1 ++ l2 ++ [Print (WeekOutOfRange week (str env year))]))
  /\ ((1 <= week <= Z.of_nat (length datasets))%Z ->
      exists dataset,
        datasets !! Z.to_nat (week - 1) = Some dataset
        /\ let fetch :=
             try_except (week_files env (str env year) (date dataset))
               (fun e => print (Error e) ;; ret (VDict [])) s2 in
           tt_load_gh env year (Some week) s
           = (result_of fetch, state_of fetch, l1 ++ l2 ++ log_of fetch)
           /\ (exists rest,
                 log_of fetch
                 = Request (GITHUB_API_URL +:+ "/" +:+ str env year +:+ "/"
                            +:+ date dataset) :: rest)
           /\ (exists tt_data,
                 result_of fetch = Ok tt_data
                 /\ (tt_data = VDict []
                     \/ (Py.getitem tt_data "date" = Ok (VStr (date dataset))
                         /\ Py.getitem tt_data "year"
                            = Ok (VStr (str env year)))))).
Proof.
  intros Hcheck Hlow Hdatasets.
  pose proof (tt_load_gh_checked year (Some week) s _ _ _ Hcheck Hlow _ eq_refl)
    as Hrun.
  cbv zeta in Hrun. rewrite (try_except_bind_Ok _ _ _ _ _ _ _ Hdatasets) in Hrun.
  unfold result_of, state_of, log_of in Hrun. cbn [fst snd] in Hrun.
  split; [exact (proj1 (tt_datasets_post env _ _ _ _ _ _ Hdatasets))|].
  split; [|split].
  - intros ->. rewrite Hrun. reflexivity.
  - intros Hne Hweek. rewrite Hrun.
    destruct datasets as [|d0 ds]; [contradiction|].
    replace ((week <? 1)%Z || (Z.of_nat (length (d0 :: ds)) <? week)%Z)
      with true by (symmetry; apply orb_true_iff; lia).
    reflexivity.
  - intros Hweek.
    destruct (datasets !! Z.to_nat (week - 1)) as [dataset|] eqn:Hlookup.
    2:{ apply lookup_ge_None in Hlookup. lia. }
    exists dataset. split; [reflexivity|]. cbv zeta.
    split; [|split].
    + rewrite Hrun. destruct datasets as [|d0 ds]; [cbn in Hweek; lia|].
      replace ((week <? 1)%Z || (Z.of_nat (length (d0 :: ds)) <? week)%Z)
        with false by (symmetry; apply orb_false_iff; lia).
      reflexivity.
    + destruct (week_files_run (str env year) (date dataset) s2)
        as (r & s' & rest & Hfiles & _).
      unfold log_of, try_except. rewrite Hfiles.
      destruct r as [a|e]; cbn; eauto.
    + destruct (week_files_run (str env year) (date dataset) s2)
        as (r & s' & rest & Hfiles & Hshape).
      unfold result_of, try_except. rewrite Hfiles.
      destruct r as [tt_data|e].
      * exists tt_data. split; [reflexivity|].
        destruct (Hshape tt_data eq_refl) as [->|(Hd & Hy & _)]; auto.
      * exists (VDict []). split; [reflexivity | left; reflexivity].
Qed.

End Locator.

Lemma tt_load_gh_by_week_witness :
  exists datasets dataset tt_data,
    result_of (TidyTuesdayPy.tt_datasets (Sample.env 60) (VStr "2021") false
                 (mkstate 1 (VInt 60)))
    = Ok datasets
    /\ length datasets = 3%nat
    /\ datasets !! 1%nat = Some dataset
    /\ date dataset = "2021-01-05"
    /\ result_of (TidyTuesdayPy.tt_load_gh (Sample.env 60) (VInt 2021) (Some 2%Z)
                    Sample.start)
       = Ok tt_data
    /\ Py.getitem tt_data "date" = Ok (VStr "2021-01-05")
    /\ Py.getitem tt_data "year" = Ok (VStr "2021").
Proof.
  edestruct (tt_load_gh_by_week (Sample.env 60) (VInt 2021) 2 Sample.start)
    as (_ & _ & _ & Hin); [vm_compute; reflexivity..|].
  destruct Hin as (dataset & Hlookup & Hrun & _ & tt_data & Hres & Hshape);
    [vm_compute; split; discriminate|].
  eexists _, dataset, tt_data.
  split; [vm_compute; reflexivity|].
  split; [reflexivity|].
  split; [exact Hlookup|].
  injection Hlookup as <-.
  split; [reflexivity|].
  split; [rewrite Hrun; exact Hres|].
  destruct Hshape as [->|[Hd Hy]]; [vm_compute in Hres; discriminate Hres|].
  split; [exact Hd | exact Hy].
Defined.

(** * Counting the probes of the rate budget *)
Section Probes.
Import TidyTuesdayPy.
Context (env : Env).

Lemma probes_app l1 l2 : probes (l1 ++ l2) = (probes l1 + probes l2)%nat.
Proof. unfold probes. rewrite List.filter_app, length_app. reflexivity. Qed.

Lemma api_is_not_probe rest :
  is_probe (Request (GITHUB_API_URL +:+ rest)) = false.
Proof. reflexivity. Qed.

Lemma raw_is_not_probe rest :
  is_probe (Request (RAW_GITHUB_URL +:+ rest)) = false.
Proof. reflexivity. Qed.

Lemma counts_ret {A} (a : A) : counts 0 (ret a).
Proof. intros s r s' l [= _ _ <-]. reflexivity. Qed.

Lemma counts_raise {A} e : counts 0 (@raise A e).
Proof. intros s r s' l [= _ _ <-]. reflexivity. Qed.

Lemma counts_lift {A} (x : res A) : counts 0 (lift x).
Proof. intros s r s' l [= _ _ <-]. reflexivity. Qed.

Lemma counts_print m : counts 0 (print m).
Proof. intros s r s' l [= _ _ <-]. reflexivity. Qed.

Lemma counts_requests_get url :
  is_probe (Request url) = false -> counts 0 (requests_get env url).
Proof.
  intros Hurl s r s' l [= _ _ <-]. unfold probes. cbn [List.filter].
  rewrite Hurl. reflexivity.
Qed.

Lemma counts_bind {A B} n (m : M A) (k : A -> M B) :
  counts n m -> (forall a, counts 0 (k a)) -> counts n (bind m k).
Proof.
  intros Hm Hk s r s2 l. unfold bind.
  destruct (m s) as [[[a|e] s1] l1] eqn:Hrun.
  - destruct (k a s1) as [[r2 s2'] l2] eqn:Hrun2. intros [= _ _ <-].
    rewrite probes_app, (Hm _ _ _ _ Hrun), (Hk _ _ _ _ _ Hrun2). lia.
  - intros [= _ _ <-]. exact (Hm _ _ _ _ Hrun).
Qed.

Lemma counts_try_except {A} n (m : M A) (h : exn -> M A) :
  counts n m -> (forall e, counts 0 (h e)) -> counts n (try_except m h).
Proof.
  intros Hm Hh s r s2 l. unfold try_except.
  destruct (m s) as [[[a|e] s1] l1] eqn:Hrun.
  - intros [= _ _ <-]. exact (Hm _ _ _ _ Hrun).
  - destruct (h e s1) as [[r2 s2'] l2] eqn:Hrun2. intros [= _ _ <-].
    rewrite probes_app, (Hm _ _ _ _ Hrun), (Hh _ _ _ _ _ Hrun2). lia.
Qed.

Lemma counts_for_each {A} (l : list A) (body : A -> M unit) :
  (forall x, counts 0 (body x)) -> counts 0 (for_each l body).
Proof.
  intros Hbody. induction l as [|x l IH]; cbn [for_each].
  - apply counts_ret.
  - apply counts_bind; [apply Hbody | intros _; exact IH].
Qed.

Ltac count :=
  repeat first
    [ apply counts_ret | apply counts_raise | apply counts_lift
    | apply counts_print
    | apply counts_requests_get; reflexivity
    | apply counts_for_each; intros
    | apply counts_try_except; [|intros]
    | apply counts_bind; [|intros]
    | match goal with
      | |- counts _ (if ?b then _ else _) => destruct b
      | |- counts _ (match ?x with _ => _ end) => destruct x
      end ].

Lemma counts_rate_limit_check quiet : counts 1 (rate_limit_check env quiet).
Proof.
  intros s r s' l Hrun. unfold rate_limit_check in Hrun.
  destruct (_update_rate_limit_run env s) as [v Hupdate].
  unfold bind in Hrun. rewrite Hupdate in Hrun.
  unfold get_rate_limit_remaining, print, ret in Hrun. cbn in Hrun.
  destruct (negb quiet && negb (Py.is_none v)); injection Hrun as _ _ <-;
    reflexivity.
Qed.

Lemma counts_datasets_loop year folders :
  forall acc, counts 0 (datasets_loop env year folders acc).
Proof.
  induction folders as [|folder rest IH]; intros acc; cbn [datasets_loop].
  - apply counts_ret.
  - count; apply IH.
Qed.

Lemma counts_tt_datasets year print_output :
  counts 1 (tt_datasets env year print_output).
Proof.
  unfold tt_datasets.
  apply counts_bind; [apply counts_rate_limit_check|]. intros remaining.
  count. apply counts_datasets_loop.
Qed.

Lemma counts_week_files year date : counts 0 (week_files env year date).
Proof. unfold week_files. count. Qed.

End Probes.

(** * Operations that do not consult the rate budget *)
Section Oblivious.
Import TidyTuesdayPy.
Context (env : Env).

Lemma oblivious_ret {A} (a : A) : oblivious (ret a).
Proof. intros c. eexists _, _, _. intros v. reflexivity. Qed.

Lemma oblivious_raise {A} e : oblivious (@raise A e).
Proof. intros c. eexists _, _, _. intros v. reflexivity. Qed.

Lemma oblivious_lift {A} (x : res A) : oblivious (lift x).
Proof. intros c. eexists _, _, _. intros v. reflexivity. Qed.

Lemma oblivious_print m : oblivious (print m).
Proof. intros c. eexists _, _, _. intros v. reflexivity. Qed.

Lemma oblivious_requests_get url : oblivious (requests_get env url).
Proof.
  intros c.
  exists (match remote env c url with
          | Some r => Ok r
          | None => Raise RequestException
          end), (S c), [Request url].
  intros v. reflexivity.
Qed.

Lemma oblivious_requests_get_value v : oblivious (requests_get_value env v).
Proof.
  destruct v; try apply oblivious_raise. apply oblivious_requests_get.
Qed.

Lemma oblivious_NamedTemporaryFile suffix :
  oblivious (NamedTemporaryFile env suffix).
Proof.
  intros c. eexists _, _, _. intros v. unfold NamedTemporaryFile.
  cbn [clock]. reflexivity.
Qed.

Lemma oblivious_bind {A B} (m : M A) (k : A -> M B) :
  oblivious m -> (forall a, oblivious (k a)) -> oblivious (bind m k).
Proof.
  intros Hm Hk c. destruct (Hm c) as (r & c1 & l1 & Hrun). unfold bind.
  destruct r as [a|e].
  - destruct (Hk a c1) as (r2 & c2 & l2 & Hrun2).
    exists r2, c2, (l1 ++ l2). intros v. rewrite Hrun, Hrun2. reflexivity.
  - exists (Raise e), c1, l1. intros v. rewrite Hrun. reflexivity.
Qed.

Lemma oblivious_try_except {A} (m : M A) (h : exn -> M A) :
  oblivious m -> (forall e, oblivious (h e)) -> oblivious (try_except m h).
Proof.
  intros Hm Hh c. destruct (Hm c) as (r & c1 & l1 & Hrun). unfold try_except.
  destruct r as [a|e].
  - exists (Ok a), c1, l1. intros v. rewrite Hrun. reflexivity.
  - destruct (Hh e c1) as (r2 & c2 & l2 & Hrun2).
    exists r2, c2, (l1 ++ l2). intros v. rewrite Hrun, Hrun2. reflexivity.
Qed.

Ltac obliv :=
  repeat first
    [ apply oblivious_ret | apply oblivious_raise | apply oblivious_lift
    | apply oblivious_print | apply oblivious_requests_get_value
    | apply oblivious_NamedTemporaryFile
    | apply oblivious_try_except; [|intros]
    | apply oblivious_bind; [|intros]
    | match goal with
      | |- oblivious (if ?b then _ else _) => destruct b
      | |- oblivious (match ?x with _ => _ end) => destruct x
      end ].

Lemma oblivious_select_loop available_files files :
  forall acc, oblivious (select_loop available_files files acc).
Proof.
  induction files as [|file_name rest IH]; intros acc; cbn [select_loop].
  - apply oblivious_ret.
  - obliv; apply IH.
Qed.

Lemma oblivious_download_one file_info result :
  oblivious (download_one env file_info result).
Proof. unfold download_one. obliv. Qed.

Lemma oblivious_download_loop files :
  forall result, oblivious (download_loop env files result).
Proof.
  induction files as [|file_info rest IH]; intros result; cbn [download_loop].
  - apply oblivious_ret.
  - apply oblivious_bind; [apply oblivious_download_one | intros; apply IH].
Qed.

Lemma oblivious_tt_download tt_data files :
  oblivious (tt_download env tt_data files).
Proof.
  unfold tt_download. obliv;
    solve [apply oblivious_select_loop | apply oblivious_download_loop].
Qed.

Lemma oblivious_tt_download_file tt_data file_identifier :
  oblivious (tt_download_file env tt_data file_identifier).
Proof. unfold tt_download_file. obliv. Qed.

End Oblivious.

(** * The rate check of the listing operations *)
Section RateGate.
Import TidyTuesdayPy.
Context (env : Env).

Lemma gate_closed {A} (empty : A) (rest : M A) s remaining s1 l1 :
  rate_limit_check env true s = (Ok remaining, s1, l1) ->
  Py.lt_int remaining 5 = Ok true ->
  (remaining <- rate_limit_check env true ;;
   low <- lift (Py.lt_int remaining 5) ;;
   if low then print RateLimitTooLow ;; ret empty else rest) s
  = (Ok empty, s1, l1 ++ [Print RateLimitTooLow]).
Proof.
  intros Hcheck Hlow. eapply bind_run; [exact Hcheck|].
  unfold bind, lift. rewrite Hlow. reflexivity.
Qed.

Lemma gate_open {A} (empty : A) (rest : M A) s remaining s1 l1 :
  rate_limit_check env true s = (Ok remaining, s1, l1) ->
  Py.lt_int remaining 5 = Ok false ->
  (remaining <- rate_limit_check env true ;;
   low <- lift (Py.lt_int remaining 5) ;;
   if low then print RateLimitTooLow ;; ret empty else rest) s
  = (result_of (rest s1), state_of (rest s1), l1 ++ log_of (rest s1)).
Proof.
  intros Hcheck Hlow. erewrite bind_Ok by exact Hcheck.
  unfold bind, lift, result_of, state_of, log_of. rewrite Hlow.
  destruct (rest s1) as [[r s2] l2]. reflexivity.
Qed.

(** C9, as the code has it.  With [remaining] the budget that the
    check at the start of a call obtains from its probe:
    - below 5, [tt_available], [tt_datasets] and [tt_load_gh] print
      the capacity message and return an empty result, the probe being
      their only request;
    - a call of [tt_datasets] probes exactly once, however many
      requests it makes;
    - at 5 or above, [tt_load_gh] probes once for a date and twice for
      a year and week number, the second probe being that of the
      [tt_datasets] it calls;
    - [tt_download] and [tt_download_file] neither read nor update the
      budget. *)
Theorem rate_budget_checks s remaining s1 l1 :
  rate_limit_check env true s = (Ok remaining, s1, l1) ->
  l1 = [Request RATE_LIMIT_URL]
  /\ (Py.lt_int remaining 5 = Ok true ->
      tt_available env s = (Ok [], s1, l1 ++ [Print RateLimitTooLow])
      /\ (forall year print_output,
            tt_datasets env year print_output s
            = (Ok [], s1, l1 ++ [Print RateLimitTooLow]))
      /\ (forall date_or_year week,
            tt_load_gh env date_or_year week s
            = (Ok (VDict []), s1, l1 ++ [Print RateLimitTooLow])))
  /\ (forall year print_output,
        probes (log_of (tt_datasets env year print_output s)) = 1%nat)
  /\ (Py.lt_int remaining 5 = Ok false ->
      forall date_or_year,
        probes (log_of (tt_load_gh env date_or_year None s)) = 1%nat
        /\ forall week,
             probes (log_of (tt_load_gh env date_or_year (Some week) s))
             = 2%nat)
  /\ (forall tt_data files, oblivious (tt_download env tt_data files))
  /\ (forall tt_data file_identifier,
        oblivious (tt_download_file env tt_data file_identifier)).
Proof.
  intros Hcheck.
  destruct (rate_limit_check_quiet env s) as (v & s1' & Hquiet & _).
  rewrite Hcheck in Hquiet. injection Hquiet as -> -> ->.
  split; [reflexivity|].
  split; [|split; [|split; [|split]]].
  - intros Hlow. repeat split; intros; eapply gate_closed; eassumption.
  - intros year print_output.
    destruct (tt_datasets env year print_output s) as [[r s2] l2] eqn:Hrun.
    exact (counts_tt_datasets env year print_output _ _ _ _ Hrun).
  - intros Hlow date_or_year.
    assert (Hhandler : forall e, counts 0 (print (Error e) ;; ret (VDict []))).
    { intros e. apply counts_bind; [apply counts_print|].
      intros _. apply counts_ret. }
    split; [|intros week].
    + unfold tt_load_gh. erewrite gate_open by eassumption.
      unfold log_of at 1. cbn [snd]. rewrite probes_app.
      match goal with
      | |- context [log_of (?m ?st)] =>
          assert (Hcount : counts 0 m);
          [|destruct (m st) as [[r s2] l2] eqn:Hrun;
            unfold log_of; cbn [snd]; rewrite (Hcount _ _ _ _ Hrun);
            reflexivity]
      end.
      apply counts_try_except; [|exact Hhandler].
      apply counts_week_files.
    + unfold tt_load_gh. erewrite gate_open by eassumption.
      unfold log_of at 1. cbn [snd]. rewrite probes_app.
      match goal with
      | |- context [log_of (?m ?st)] =>
          assert (Hcount : counts 1 m);
          [|destruct (m st) as [[r s2] l2] eqn:Hrun;
            unfold log_of; cbn [snd]; rewrite (Hcount _ _ _ _ Hrun);
            reflexivity]
      end.
      apply counts_try_except; [|exact Hhandler].
      apply counts_bind; [apply counts_tt_datasets|]. intros datasets.
      destruct datasets as [|d ds].
      { apply counts_bind; [apply counts_print|]. intros _. apply counts_ret. }
      destruct (_ || _).
      { apply counts_bind; [apply counts_print|]. intros _. apply counts_ret. }
      destruct (_ !! _); [apply counts_week_files | apply counts_raise].
  - apply oblivious_tt_download.
  - apply oblivious_tt_download_file.
Qed.

End RateGate.

Lemma rate_budget_checks_witness :
  (TidyTuesdayPy.tt_datasets (Sample.env 4) (VInt 2021) true Sample.start
   = (Ok [], mkstate 1 (VInt 4),
      [Request TidyTuesdayPy.RATE_LIMIT_URL; Print RateLimitTooLow]))
  /\ probes (log_of (TidyTuesdayPy.tt_load_gh (Sample.env 60) (VInt 2021)
                       (Some 2%Z) Sample.start)) = 2%nat.
Proof.
  split.
  - edestruct (rate_budget_checks (Sample.env 4) Sample.start)
      as (_ & Hlow & _); [vm_compute; reflexivity|].
    destruct (Hlow eq_refl) as (_ & Hdatasets & _).
    exact (Hdatasets (VInt 2021) true).
  - edestruct (rate_budget_checks (Sample.env 60) Sample.start)
      as (_ & _ & _ & Hopen & _); [vm_compute; reflexivity|].
    exact (proj2 (Hopen eq_refl (VInt 2021)) 2%Z).
Defined.

(** C9 as stated fails.  With a budget of 60, one call of [tt_load_gh]
    for a year and week number checks the budget twice (the
    module-level [get_week] probes a third time when it creates its
    client), and one call of [tt_available] over a catalogue of one
    year checks it twice.  With
    a budget of 0, [tt_download] makes no check: it downloads the files
    and returns their tables, and no capacity error is reported. *)
Lemma rate_budget_not_once_per_operation :
  probes (log_of (TidyTuesdayPy.tt_load_gh (Sample.env 60) (VInt 2021)
                    (Some 2%Z) Sample.start)) = 2%nat
  /\ probes (log_of (get_week (Sample.env 60) (VInt 2021) 2%Z Sample.start))
     = 3%nat
  /\ probes (log_of (TidyTuesdayPy.tt_available (Sample.env 60) Sample.start))
     = 2%nat
  /\ result_of (TidyTuesdayPy.rate_limit_check (Sample.env 0) true Sample.start)
     = Ok (VInt 0)
  /\ (let run := TidyTuesdayPy.tt_download (Sample.env 0) SampleData.metadata
                   (FilesList ["data.tsv"]) Sample.start in
      result_of run = Ok {[ "data" := SampleData.table_xy ]}
      /\ probes (log_of run) = 0%nat
      /\ printed (log_of run)
         = [Downloading (VStr "data.tsv"); SuccessfullyLoaded (VStr "data.tsv")]).
Proof. repeat split; vm_compute; reflexivity. Qed.

(** * Metadata without files *)
Section InvalidMetadata.
Import TidyTuesdayPy.
Context (env : Env).

Lemma invalid_data_true tt_data :
  Py.truthy tt_data = false \/ Py.contains "files" tt_data = Ok false ->
  invalid_data tt_data = Ok true.
Proof.
  unfold invalid_data. intros [Hfalsy|Hfiles].
  - rewrite Hfalsy. reflexivity.
  - destruct (negb _); [reflexivity|]. rewrite Hfiles. reflexivity.
Qed.

Lemma invalid_data_false tt_data files :
  Py.getitem tt_data "files" = Ok files -> invalid_data tt_data = Ok false.
Proof.
  unfold invalid_data, Py.getitem. destruct tt_data as [| | | | |kvs]; try discriminate.
  destruct (Py.assoc "files" kvs) eqn:Hfiles; [|discriminate]. intros _.
  destruct kvs as [|kv kvs]; [discriminate|].
  cbn [Py.truthy negb Py.contains res_bind]. rewrite Hfiles. reflexivity.
Qed.

(** C10, as the code has it: handed a value that is empty (falsy:
    [None], an empty dictionary, ...) or a dictionary, list or string
    that does not contain ["files"], [tt_download] returns an empty
    mapping and [tt_download_file] an empty data frame; each prints the
    diagnostic "Invalid TidyTuesday data", makes no request and does
    not raise. *)
Theorem invalid_metadata_is_reported tt_data :
  Py.truthy tt_data = false \/ Py.contains "files" tt_data = Ok false ->
  forall s,
    (forall files,
       tt_download env tt_data files s = (Ok ∅, s, [Print InvalidData]))
    /\ (forall file_identifier,
          tt_download_file env tt_data file_identifier s
          = (Ok empty_frame, s, [Print InvalidData])).
Proof.
  intros Hinvalid%invalid_data_true s. split; intros.
  - unfold tt_download, bind, lift. rewrite Hinvalid. reflexivity.
  - unfold tt_download_file, bind, lift. rewrite Hinvalid. reflexivity.
Qed.

End InvalidMetadata.

Lemma invalid_metadata_is_reported_witness :
  (forall files,
     TidyTuesdayPy.tt_download (Sample.env 60) (VDict []) files Sample.start
     = (Ok ∅, Sample.start, [Print InvalidData]))
  /\ (forall file_identifier,
        TidyTuesdayPy.tt_download_file (Sample.env 60)
          (VDict [("date", VStr "2021-01-05")]) file_identifier Sample.start
        = (Ok empty_frame, Sample.start, [Print InvalidData])).
Proof.
  split.
  - apply (invalid_metadata_is_reported (Sample.env 60) (VDict [])).
    left. reflexivity.
  - apply (invalid_metadata_is_reported (Sample.env 60)
             (VDict [("date", VStr "2021-01-05")])).
    right. reflexivity.
Defined.

(** C10 as stated fails: the number 5 is not empty and has no key
    ["files"], and the test ["files" not in tt_data], which stands
    before the [try], raises [TypeError] for it: both operations raise,
    and nothing is printed. *)
Lemma invalid_metadata_raises_on_number :
  Py.truthy (VInt 5) = true
  /\ Py.getitem (VInt 5) "files" = Raise TypeError
  /\ TidyTuesdayPy.tt_download (Sample.env 60) (VInt 5) (FilesStr "All")
       Sample.start
     = (Raise TypeError, Sample.start, [])
  /\ TidyTuesdayPy.tt_download_file (Sample.env 60) (VInt 5) (ByIndex 0)
       Sample.start
     = (Raise TypeError, Sample.start, []).
Proof. repeat split. Qed.

(** * The format dispatcher *)
Section Dispatch.
Import TidyTuesdayPy.
Context (env : Env).

Lemma eq_str_true v s : Py.eq_str v s = true -> v = VStr s.
Proof.
  destruct v; cbn; try discriminate. intros ->%String.eqb_eq. reflexivity.
Qed.

Lemma find_named_Some name files f :
  find_named name files = Ok (Some f) ->
  Py.getitem f "name" = Ok (VStr name) /\ f ∈ files.
Proof.
  induction files as [|g rest IH]; cbn [find_named]; [discriminate|].
  destruct (Py.getitem g "name") as [n|] eqn:Hn; cbn [res_bind]; [|discriminate].
  destruct (Py.eq_str n name) eqn:Heq.
  - intros [= ->]. apply eq_str_true in Heq as ->.
    split; [exact Hn | apply list_elem_of_here].
  - intros [Hname Hin]%IH. split; [exact Hname | apply list_elem_of_further, Hin].
Qed.

Lemma getitem_truthy f k v : Py.getitem f k = Ok v -> Py.truthy f = true.
Proof.
  destruct f as [| | | | |kvs]; cbn; try discriminate.
  destruct kvs; [discriminate | reflexivity].
Qed.

Lemma read_by_extension_csv file_name bytes :
  Str.endswith file_name ".csv" = true ->
  read_by_extension env file_name bytes = Some (read_csv env "," bytes).
Proof. unfold read_by_extension. intros ->. reflexivity. Qed.

Lemma read_by_extension_unsupported file_name bytes :
  supported file_name = false -> read_by_extension env file_name bytes = None.
Proof.
  unfold supported, read_by_extension.
  destruct (Str.endswith file_name ".csv"); [discriminate|].
  destruct (Str.endswith file_name ".tsv"); [discriminate|].
  destruct (Str.endswith file_name ".xls"); [discriminate|].
  destruct (Str.endswith file_name ".xlsx"); [discriminate|].
  destruct (Str.endswith file_name ".json"); [discriminate|]. reflexivity.
Qed.

(** A name with the extension [.csv] in any letter case. *)
Lemma endswith_lower stem ext lowered :
  Str.lower ext = lowered ->
  Str.endswith (Str.lower (stem +:+ ext)) lowered = true.
Proof.
  intros <-. rewrite LowerFacts.lower_app. apply StrFacts.endswith_app.
Qed.

(** [tt_download_file] for a file found by name whose download
    succeeds: the bytes are saved, and then the chain on the extension
    decides. *)
Lemma tt_download_file_found tt_data files file_info name url response s :
  Py.getitem tt_data "files" = Ok files ->
  next_named name files = Ok (Some file_info) ->
  Py.getitem file_info "download_url" = Ok (VStr url) ->
  remote env (clock s) url = Some response ->
  status_code response = 200%Z ->
  tt_download_file env tt_data (ByName name) s
  = (match temp_path env (S (clock s)) (snd (Path.splitext (Str.lower name)))
     with
     | Raise e => Ok empty_frame
     | Ok _ =>
         match read_by_extension env (Str.lower name) (content response) with
         | Some (Ok df) => Ok df
         | _ => Ok empty_frame
         end
     end,
     mkstate (S (clock s)) (rate_limit_remaining s),
     [Print (Downloading (VStr name)); Request url;
      Print
        match temp_path env (S (clock s))
                (snd (Path.splitext (Str.lower name)))
        with
        | Raise e => ErrorDownloadingFileExn e
        | Ok _ =>
            match read_by_extension env (Str.lower name) (content response)
            with
            | Some (Ok df) => SuccessfullyLoaded (VStr name)
            | Some (Raise e) => ErrorDownloadingFileExn e
            | None => UnsupportedFormat (VStr (Str.lower name))
            end
        end]).
Proof.
  intros Hfiles Hnext Hurl Hremote Hstatus.
  pose proof (invalid_data_false _ _ Hfiles) as Hvalid.
  assert (Hname : Py.getitem file_info "name" = Ok (VStr name)).
  { unfold next_named in Hnext. destruct (Py.iter files); [|discriminate].
    apply find_named_Some in Hnext as [H _]. exact H. }
  pose proof (getitem_truthy _ _ _ Hname) as Htruthy.
  unfold tt_download_file, bind, lift, try_except. rewrite Hvalid, Hfiles, Hnext.
  rewrite Htruthy, Hname. cbn [print]. rewrite Hurl.
  unfold requests_get_value, requests_get. rewrite Hremote, Hstatus.
  cbn [Z.eqb Pos.eqb negb Py.lower]. unfold NamedTemporaryFile. cbn [clock].
  destruct (temp_path env _ _) as [tmp_path|e]; [|reflexivity].
  destruct (read_by_extension env (Str.lower name) (content response))
    as [[df|e]|]; reflexivity.
Qed.

(** C3, as the code has it: [tt_download_file] on a file whose
    download succeeds saves the bytes to a temporary file and then
    decides by the lower-cased name alone.
    - When the bytes are saved, under a name whose extension is [.csv]
      in any letter case they go to the comma-delimited reader and its
      table is returned; for a reader that follows the parse rule of
      section 4.5 on the bytes with the header [a,b] and the row [1,2],
      that is the table with the columns [a], [b] and the row [1, 2].
    - When the bytes are saved, under a name that ends in none of
      [.csv], [.tsv], [.xls], [.xlsx], [.json] no reader is used: the
      "unsupported file format" message is printed and the empty data
      frame returned.
    - When the bytes cannot be saved, the error of saving is printed,
      whatever the extension, and the empty data frame returned. *)
Theorem load_table_dispatch tt_data files file_info name url response s :
  Py.getitem tt_data "files" = Ok files ->
  next_named name files = Ok (Some file_info) ->
  Py.getitem file_info "download_url" = Ok (VStr url) ->
  remote env (clock s) url = Some response ->
  status_code response = 200%Z ->
  let saved :=
    temp_path env (S (clock s)) (snd (Path.splitext (Str.lower name))) in
  let outcome (result : DataFrame) (report : msg) :=
    tt_download_file env tt_data (ByName name) s
    = (Ok result, mkstate (S (clock s)) (rate_limit_remaining s),
       [Print (Downloading (VStr name)); Request url; Print report]) in
  (forall stem ext,
     name = stem +:+ ext -> Str.lower ext = ".csv" -> is_ok saved = true ->
     (forall table,
        read_csv env "," (content response) = Ok table ->
        outcome table (SuccessfullyLoaded (VStr name)))
     /\ (content response = Sample.csv_ab ->
         read_csv env "," Sample.csv_ab
         = Sample.read_delimited "," Sample.csv_ab ->
         outcome (mkframe ["a"; "b"] [[CInt 1; CInt 2]])
           (SuccessfullyLoaded (VStr name))))
  /\ (supported (Str.lower name) = false -> is_ok saved = true ->
      outcome empty_frame (UnsupportedFormat (VStr (Str.lower name))))
  /\ (forall e,
        saved = Raise e -> outcome empty_frame (ErrorDownloadingFileExn e)).
Proof.
  intros Hfiles Hnext Hurl Hremote Hstatus saved outcome.
  pose proof (tt_download_file_found _ _ _ _ _ _ _ Hfiles Hnext Hurl Hremote
                Hstatus) as Hrun.
  fold saved in Hrun. unfold outcome. split; [|split].
  - intros stem ext -> Hext Hsaved.
    pose proof (endswith_lower stem ext _ Hext) as Hcsv.
    rewrite (read_by_extension_csv _ _ Hcsv) in Hrun.
    destruct saved as [tmp_path|e]; [|discriminate]. split.
    + intros table Hread. rewrite Hread in Hrun. exact Hrun.
    + intros Hbytes Hrule. rewrite Hbytes, Hrule in Hrun. exact Hrun.
  - intros Hunsupported Hsaved.
    rewrite (read_by_extension_unsupported _ _ Hunsupported) in Hrun.
    destruct saved as [tmp_path|e]; [exact Hrun | discriminate].
  - intros e He. rewrite He in Hrun. exact Hrun.
Qed.

End Dispatch.

Lemma load_table_dispatch_witness :
  TidyTuesdayPy.tt_download_file SampleNames.env SampleNames.metadata
    (ByName "Table.CSV") Sample.start
  = (Ok (mkframe ["a"; "b"] [[CInt 1; CInt 2]]), mkstate 1 VNone,
     [Print (Downloading (VStr "Table.CSV")); Request "u:table";
      Print (SuccessfullyLoaded (VStr "Table.CSV"))])
  /\ TidyTuesdayPy.tt_download_file SampleNames.env SampleNames.metadata
       (ByName "Table.XYZ") Sample.start
     = (Ok empty_frame, mkstate 1 VNone,
        [Print (Downloading (VStr "Table.XYZ")); Request "u:table";
         Print (UnsupportedFormat (VStr "table.xyz"))])
  /\ TidyTuesdayPy.tt_download_file SampleNames.env SampleNames.metadata
       (ByName SampleNames.long_name) Sample.start
     = (Ok empty_frame, mkstate 1 VNone,
        [Print (Downloading (VStr SampleNames.long_name)); Request "u:table";
         Print (ErrorDownloadingFileExn OSError)]).
Proof.
  split; [|split].
  - destruct (load_table_dispatch SampleNames.env SampleNames.metadata
                (VList _) (SampleData.file "Table.CSV" "u:table")
                "Table.CSV" "u:table" (Sample.ok_text Sample.csv_ab)
                Sample.start eq_refl eq_refl eq_refl eq_refl eq_refl)
      as [Hcsv _].
    destruct (Hcsv "Table" ".CSV" eq_refl eq_refl eq_refl) as [_ Hrule].
    exact (Hrule eq_refl eq_refl).
  - destruct (load_table_dispatch SampleNames.env SampleNames.metadata
                (VList _) (SampleData.file "Table.XYZ" "u:table")
                "Table.XYZ" "u:table" (Sample.ok_text Sample.csv_ab)
                Sample.start eq_refl eq_refl eq_refl eq_refl eq_refl)
      as (_ & Hother & _).
    exact (Hother eq_refl eq_refl).
  - destruct (load_table_dispatch SampleNames.env SampleNames.metadata
                (VList _)
                (SampleData.file SampleNames.long_name "u:table")
                SampleNames.long_name "u:table"
                (Sample.ok_text Sample.csv_ab)
                Sample.start eq_refl eq_refl eq_refl eq_refl eq_refl)
      as (_ & _ & Hfailed).
    apply (Hfailed OSError). vm_compute. reflexivity.
Defined.

(** C3 as stated fails: on a machine whose file names have at most 255
    characters, the bytes of the table under a name with an extension
    of 251 characters, which no reader takes, are not reported as an
    unsupported format: the temporary file cannot be created, and the
    message is that of the error. *)
Lemma load_table_reports_error_for_long_extension :
  supported (Str.lower SampleNames.long_name) = false
  /\ remote SampleNames.env 0 "u:table" = Some (Sample.ok_text Sample.csv_ab)
  /\ TidyTuesdayPy.tt_download_file SampleNames.env SampleNames.metadata
       (ByName SampleNames.long_name) Sample.start
     = (Ok empty_frame, mkstate 1 VNone,
        [Print (Downloading (VStr SampleNames.long_name)); Request "u:table";
         Print (ErrorDownloadingFileExn OSError)]).
Proof. repeat split; vm_compute; reflexivity. Qed.

(** * The batch downloader: selecting files *)
Section Selection.
Import TidyTuesdayPy.
Context (env : Env).

Lemma find_named_matching files name :
  Forall has_name files -> find_named name files = Ok (matching files name).
Proof.
  induction 1 as [|f rest [n Hn] _ IH]; [reflexivity|].
  cbn [find_named]. unfold matching. cbn [List.find]. unfold named at 1.
  rewrite Hn. cbn [res_bind]. destruct (Py.eq_str n name); [reflexivity|].
  exact IH.
Qed.

Lemma matching_truthy files name f :
  matching files name = Some f -> Py.truthy f = true.
Proof.
  unfold matching. intros [_ Hnamed]%List.find_some. unfold named in Hnamed.
  destruct (Py.getitem f "name") eqn:Hn; [|discriminate].
  exact (getitem_truthy _ _ _ Hn).
Qed.

Lemma selected_cons files name rest :
  selected files (name :: rest)
  = match matching files name with
    | Some f => f :: selected files rest
    | None => selected files rest
    end.
Proof. unfold selected. simpl. destruct (matching files name); reflexivity. Qed.

Lemma warnings_cons files name rest :
  warnings files (name :: rest)
  = match matching files name with
    | Some _ => warnings files rest
    | None => Print (WarningFileNotFound name) :: warnings files rest
    end.
Proof.
  unfold warnings, unmatched. cbn [List.filter].
  destruct (matching files name); reflexivity.
Qed.

Lemma select_loop_run files :
  Forall has_name files ->
  forall names acc s,
    select_loop (VList files) names acc s
    = (Ok (acc ++ selected files names), s, warnings files names).
Proof.
  intros Hfiles. induction names as [|name rest IH]; intros acc s.
  - cbn. rewrite app_nil_r. reflexivity.
  - cbn [select_loop]. unfold bind at 1, lift, next_named.
    cbn [Py.iter res_bind]. rewrite (find_named_matching _ _ Hfiles).
    rewrite selected_cons, warnings_cons.
    destruct (matching files name) as [f|] eqn:Hmatch.
    + rewrite (matching_truthy _ _ _ Hmatch), IH. cbn [app].
      rewrite <- app_assoc. reflexivity.
    + unfold bind, print. rewrite IH. reflexivity.
Qed.

Lemma selected_skip files before missing after :
  matching files missing = None ->
  selected files (before ++ missing :: after) = selected files (before ++ after).
Proof.
  intros Hmissing.
  assert (Happ : forall a b,
            selected files (a ++ b) = selected files a ++ selected files b)
    by (intros; apply omap_app).
  rewrite !Happ, selected_cons, Hmissing. reflexivity.
Qed.

Lemma warnings_app files before after :
  warnings files (before ++ after) = warnings files before ++ warnings files after.
Proof. unfold warnings, unmatched. rewrite List.filter_app, map_app. reflexivity. Qed.

Lemma warnings_missing files missing after :
  matching files missing = None ->
  warnings files (missing :: after)
  = Print (WarningFileNotFound missing) :: warnings files after.
Proof.
  intros Hmissing. rewrite warnings_cons, Hmissing. reflexivity.
Qed.

(** [tt_download] with a list of names, on well-formed metadata: the
    warnings for the names without a match, then the download of the
    matching files in the order of the names. *)
Lemma tt_download_names tt_data files names s :
  Py.getitem tt_data "files" = Ok (VList files) ->
  Forall has_name files ->
  let run :=
    try_except (download_loop env (selected files names) ∅)
      (fun e => print (ErrorDownloadingFiles e) ;; ret ∅) s in
  tt_download env tt_data (FilesList names) s
  = (result_of run, state_of run, warnings files names ++ log_of run).
Proof.
  intros Hfiles Hnamed. cbv zeta.
  unfold tt_download. unfold bind at 1, lift at 1.
  rewrite (invalid_data_false _ _ Hfiles).
  erewrite try_except_bind_Ok by (unfold lift; rewrite Hfiles; reflexivity).
  erewrite try_except_bind_Ok by apply (select_loop_run _ Hnamed).
  unfold result_of, state_of, log_of. cbn [fst snd app].
  destruct (try_except _ _ s) as [[r s'] l]. reflexivity.
Qed.

(** C5: on metadata whose files all have a name, a requested name
    that matches none of them is answered with one warning and
    nothing else.  Alone, it gives an empty mapping, no request and
    the single "not found" warning.  Among other names, the call
    returns the same mapping and ends in the same state as without
    it, after downloading the same files in the order of the
    selector; its output differs by that one warning. *)
Theorem unmatched_name_is_skipped tt_data files missing s :
  Py.getitem tt_data "files" = Ok (VList files) ->
  Forall has_name files ->
  matching files missing = None ->
  tt_download env tt_data (FilesList [missing]) s
  = (Ok ∅, s, [Print (WarningFileNotFound missing)])
  /\ forall before after,
       let run :=
         try_except (download_loop env (selected files (before ++ after)) ∅)
           (fun e => print (ErrorDownloadingFiles e) ;; ret ∅) s in
       tt_download env tt_data (FilesList (before ++ after)) s
       = (result_of run, state_of run,
          warnings files before ++ warnings files after ++ log_of run)
       /\ tt_download env tt_data (FilesList (before ++ missing :: after)) s
          = (result_of run, state_of run,
             warnings files before
             ++ Print (WarningFileNotFound missing)
                :: warnings files after ++ log_of run).
Proof.
  intros Hfiles Hnamed Hmissing. split.
  - rewrite (tt_download_names _ _ _ _ Hfiles Hnamed).
    rewrite selected_cons, warnings_cons, Hmissing. reflexivity.
  - intros before after. cbv zeta. split.
    + rewrite (tt_download_names _ _ _ _ Hfiles Hnamed).
      rewrite warnings_app, <- app_assoc. reflexivity.
    + rewrite (tt_download_names _ _ _ _ Hfiles Hnamed).
      rewrite (selected_skip _ _ _ _ Hmissing), warnings_app,
        (warnings_missing _ _ _ Hmissing), <- app_assoc.
      reflexivity.
Qed.

End Selection.

Lemma unmatched_name_is_skipped_witness :
  TidyTuesdayPy.tt_download (Sample.env 60) SampleData.metadata
    (FilesList ["missing.csv"]) Sample.start
  = (Ok ∅, Sample.start, [Print (WarningFileNotFound "missing.csv")])
  /\ TidyTuesdayPy.tt_download (Sample.env 60) SampleData.metadata
       (FilesList ["data.tsv"; "missing.csv"; "date.CSV"]) Sample.start
     = (Ok {[ "data" := SampleData.table_xy; "date" := SampleData.table_d ]},
        mkstate 2 VNone,
        [Print (WarningFileNotFound "missing.csv");
         Print (Downloading (VStr "data.tsv")); Request "u:data.tsv";
         Print (SuccessfullyLoaded (VStr "data.tsv"));
         Print (Downloading (VStr "date.CSV")); Request "u:date.csv";
         Print (SuccessfullyLoaded (VStr "date.CSV"))]).
Proof.
  edestruct (unmatched_name_is_skipped (Sample.env 60) SampleData.metadata
               SampleData.files "missing.csv" Sample.start)
    as [Halone Hamong].
  - reflexivity.
  - repeat constructor; eexists; reflexivity.
  - reflexivity.
  - split; [exact Halone|].
    etrans; [exact (proj2 (Hamong ["data.tsv"] ["date.CSV"]))|].
    vm_compute. reflexivity.
Defined.

(** * The batch downloader: collecting tables *)
Section Batch.
Import TidyTuesdayPy.
Context (env : Env).

(** A file that is fetched, saved and read is stored under its stem,
    whatever the mapping holds already; only progress messages are
    printed. *)
Lemma download_one_stores file_info result s name url response df :
  Py.getitem file_info "name" = Ok (VStr name) ->
  Py.getitem file_info "download_url" = Ok (VStr url) ->
  remote env (clock s) url = Some response ->
  status_code response = 200%Z ->
  is_ok (temp_path env (S (clock s)) (snd (Path.splitext name))) = true ->
  read_by_extension env (Str.lower name) (content response) = Some (Ok df) ->
  download_one env file_info result s
  = (Ok (<[fst (Path.splitext name) := df]> result),
     mkstate (S (clock s)) (rate_limit_remaining s),
     [Print (Downloading (VStr name)); Request url;
      Print (SuccessfullyLoaded (VStr name))]).
Proof.
  intros Hname Hurl Hremote Hstatus Hsaved Hread.
  unfold download_one, bind, lift, print. rewrite Hname, Hurl.
  unfold requests_get_value, requests_get. rewrite Hremote, Hstatus.
  cbn [Z.eqb Pos.eqb negb Path.splitext_value Py.lower].
  unfold NamedTemporaryFile. cbn [clock].
  destruct (temp_path env _ _) as [tmp_path|e]; [|discriminate].
  rewrite Hread. reflexivity.
Qed.

(** The body of the loop leaves the mapping as it is or stores one
    table under the stem of the file. *)
Lemma download_one_result file_info result :
  post (download_one env file_info result)
    (fun result' =>
       result' = result
       \/ exists key df, stem_of file_info = Some key
                         /\ result' = <[key := df]> result).
Proof.
  unfold download_one.
  eapply post_bind.
  { apply (post_lift _ (fun n => Py.getitem file_info "name" = Ok n)). auto. }
  intros file_name Hname.
  eapply post_bind; [apply post_trivial|]. intros _ _.
  eapply post_bind; [apply post_trivial|]. intros download_url _.
  eapply post_bind; [apply post_trivial|]. intros response _.
  destruct (negb _).
  { eapply post_bind; [apply post_trivial|]. intros _ _.
    apply post_ret. left. reflexivity. }
  eapply post_bind.
  { apply (post_lift _ (fun p => Path.splitext_value file_name = Ok p)). auto. }
  intros parts Hparts.
  eapply post_bind; [apply post_trivial|]. intros tmp_path _.
  eapply post_bind; [apply post_trivial|]. intros file_name_lower _.
  destruct (read_by_extension _ _ _) as [[df|e]|];
    (eapply post_bind; [apply post_trivial|]); intros _ _; apply post_ret;
    [right | left; reflexivity | left; reflexivity].
  exists (fst parts), df. split; [|reflexivity].
  unfold stem_of. rewrite Hname.
  destruct file_name; try discriminate. injection Hparts as <-. reflexivity.
Qed.

Lemma download_loop_app pre post result0 s0 result1 s1 l1 :
  download_loop env pre result0 s0 = (Ok result1, s1, l1) ->
  download_loop env (pre ++ post) result0 s0
  = (result_of (download_loop env post result1 s1),
     state_of (download_loop env post result1 s1),
     l1 ++ log_of (download_loop env post result1 s1)).
Proof.
  revert result0 s0 l1.
  induction pre as [|f pre IH]; intros result0 s0 l1 Hpre.
  - injection Hpre as -> -> <-. cbn [app].
    destruct (download_loop env post _ _) as [[r s] l]. reflexivity.
  - cbn [download_loop app] in *.
    apply bind_inv in Hpre as (r & s & la & lb & Hone & Hrest & ->).
    erewrite bind_Ok by exact Hone.
    rewrite (IH _ _ _ Hrest). unfold result_of, state_of, log_of. cbn [fst snd].
    rewrite app_assoc. reflexivity.
Qed.

Lemma download_loop_keeps key files :
  Forall (fun f => stem_of f <> Some key) files ->
  forall result s result' s' l,
    download_loop env files result s = (Ok result', s', l) ->
    result' !! key = result !! key.
Proof.
  induction 1 as [|f rest Hf _ IH]; intros result s result' s' l Hrun;
    cbn [download_loop] in Hrun.
  - injection Hrun as <- _ _. reflexivity.
  - apply bind_inv in Hrun as (r & s1 & la & lb & Hone & Hrest & _).
    rewrite (IH _ _ _ _ _ Hrest).
    destruct (download_one_result f result _ _ _ _ Hone)
      as [->|(key' & df & Hstem & ->)]; [reflexivity|].
    apply lookup_insert_ne. congruence.
Qed.

(** Asked for all files, [tt_download] runs the loop over the files of
    the metadata and gives up when the loop raises. *)
Lemma tt_download_everything tt_data files s :
  Py.getitem tt_data "files" = Ok (VList files) ->
  let run :=
    try_except (download_loop env files ∅)
      (fun e => print (ErrorDownloadingFiles e) ;; ret ∅) s in
  tt_download env tt_data (FilesStr "All") s
  = (result_of run, state_of run, log_of run).
Proof.
  intros Hfiles. cbv zeta.
  unfold tt_download. unfold bind at 1, lift at 1.
  rewrite (invalid_data_false _ _ Hfiles).
  erewrite try_except_bind_Ok by (unfold lift; rewrite Hfiles; reflexivity).
  cbn [String.eqb Ascii.eqb Bool.eqb Py.iter app].
  erewrite try_except_bind_Ok by reflexivity.
  unfold result_of, state_of, log_of. cbn [fst snd app].
  destruct (try_except _ _ s) as [[r s'] l]. reflexivity.
Qed.


End Batch.


(** * The combined operation: [tt_load] *)
Section Load.
Import TidyTuesdayPy.
Context (env : Env).

Lemma week_files_shape year date : post (week_files env year date) metadata_shape.
Proof.
  unfold week_files.
  eapply post_bind; [apply post_trivial|]. intros response _.
  destruct (negb _).
  { eapply post_bind; [apply post_trivial|]. intros _ _.
    apply post_ret. left. reflexivity. }
  eapply post_bind; [apply post_trivial|]. intros files_data _.
  eapply post_bind; [apply post_trivial|]. intros items _.
  eapply post_bind; [apply post_trivial|]. intros files _.
  eapply post_bind; [apply post_trivial|]. intros readme_response _.
  apply post_ret. right. eauto 10.
Qed.

Lemma tt_load_gh_shape date_or_year week :
  post (tt_load_gh env date_or_year week) metadata_shape.
Proof.
  assert (Hempty : forall m, post (print m ;; ret (VDict [])) metadata_shape).
  { intros m. eapply post_bind; [apply post_trivial|]. intros _ _.
    apply post_ret. left. reflexivity. }
  unfold tt_load_gh.
  eapply post_bind; [apply post_trivial|]. intros remaining _.
  eapply post_bind; [apply post_trivial|]. intros low _.
  destruct low; [apply Hempty|].
  apply post_try_except; [|intros e; apply Hempty].
  destruct week as [week|]; [|apply week_files_shape].
  eapply post_bind; [apply post_trivial|]. intros datasets _.
  destruct datasets as [|d ds]; [apply Hempty|].
  destruct (_ || _); [apply Hempty|].
  destruct (_ !! _); [apply week_files_shape | apply post_raise].
Qed.

(** C6, as the code has it: when [tt_load_gh] has returned metadata and
    [tt_download] the mapping [data] of tables, [tt_load] returns one
    flat dictionary: every key other than the four metadata keys holds
    what [data] holds under it, a table keyed by its file stem at the
    top level, and each metadata key holds its metadata whenever no
    table has that stem.  There is no entry that collects the tables.
    When [tt_load_gh] returns the empty dictionary, so does
    [tt_load]. *)
Theorem tt_load_is_flat date_or_year week files s tt_data s1 l1 :
  tt_load_gh env date_or_year week s = (Ok tt_data, s1, l1) ->
  (Py.truthy tt_data = false ->
   tt_load env date_or_year week files s = (Ok ∅, s1, l1))
  /\ (Py.truthy tt_data = true ->
      forall data s2 l2,
        tt_download env tt_data files s1 = (Ok data, s2, l2) ->
        exists result,
          tt_load env date_or_year week files s = (Ok result, s2, l1 ++ l2)
          /\ (forall key,
                key ∉ metadata_keys ->
                result !! key = Frame <$> data !! key)
          /\ (forall key,
                key ∈ metadata_keys ->
                data !! key = None ->
                exists v, Py.getitem tt_data key = Ok v
                          /\ result !! key = Some (Meta v))).
Proof.
  intros Hgh. split.
  - intros Hfalsy. unfold tt_load. erewrite bind_Ok by exact Hgh.
    rewrite Hfalsy. cbn. rewrite app_nil_r. reflexivity.
  - intros Htruthy data s2 l2 Hdownload.
    destruct (tt_load_gh_shape _ _ _ _ _ _ Hgh)
      as [->|(date & year & fs & rc & rh & ->)]; [discriminate|].
    eexists. split; [|split].
    + unfold tt_load. erewrite bind_Ok by exact Hgh. rewrite Htruthy.
      cbn [negb]. erewrite bind_Ok by exact Hdownload.
      cbn. rewrite app_nil_r. reflexivity.
    + intros key Hkey. unfold metadata_keys in Hkey.
      assert (Hne : "date" <> key /\ "year" <> key
                    /\ "readme_content" <> key /\ "readme_html" <> key)
        by (repeat split; intros <-; apply Hkey; set_solver).
      destruct Hne as (H1 & H2 & H3 & H4).
      rewrite lookup_union, lookup_fmap.
      rewrite !lookup_insert_ne, lookup_singleton_ne by assumption.
      destruct (data !! key); reflexivity.
    + intros key Hkey Hnone. unfold metadata_keys in Hkey.
      rewrite lookup_union, lookup_fmap, Hnone.
      cbn [fmap option_fmap option_map union option_union union_with
             option_union_with].
      repeat (apply elem_of_cons in Hkey as [->|Hkey];
              [eexists; split; [reflexivity|]; vm_compute; reflexivity|]).
      inversion Hkey.
Qed.

End Load.

Lemma tt_load_is_flat_witness :
  exists result,
    result_of (TidyTuesdayPy.tt_load (Sample.env 60) (VStr "2021-01-05") None
                 (FilesList ["data.tsv"]) Sample.start)
    = Ok result
    /\ result !! "data" = Some (Frame SampleData.table_xy)
    /\ result !! "tables" = None
    /\ result !! "date" = Some (Meta (VStr "2021-01-05")).
Proof.
  assert (Hother : forall key,
            bool_decide (key ∈ metadata_keys) = false -> key ∉ metadata_keys)
    by (intros key H; apply (proj1 (bool_decide_eq_false _)); exact H).
  assert (Hmember : forall key,
            bool_decide (key ∈ metadata_keys) = true -> key ∈ metadata_keys)
    by (intros key H; apply (proj1 (bool_decide_eq_true _)); exact H).
  edestruct (tt_load_is_flat (Sample.env 60) (VStr "2021-01-05") None
               (FilesList ["data.tsv"]) Sample.start) as [_ Hflat];
    [vm_compute; reflexivity|].
  edestruct (Hflat eq_refl) as (result & Hrun & Htables & Hmeta);
    [vm_compute; reflexivity|].
  exists result. split; [rewrite Hrun; reflexivity|].
  split; [|split].
  - rewrite (Htables "data") by (apply Hother; vm_compute; reflexivity).
    vm_compute. reflexivity.
  - rewrite (Htables "tables") by (apply Hother; vm_compute; reflexivity).
    vm_compute. reflexivity.
  - destruct (Hmeta "date") as (v & Hv & Hdate);
      [apply Hmember; vm_compute; reflexivity | vm_compute; reflexivity|].
    rewrite Hdate. injection Hv as <-. reflexivity.
Defined.

(** C6 as stated fails: the dictionary [tt_load] returns for the week
    2021-01-05 of the sample repository has no entry ["tables"]; the
    table of [data.tsv] sits at the top level under ["data"], next to
    the metadata, and the table of [date.CSV] has taken the place of
    the metadata entry ["date"]. *)
Lemma tt_load_has_no_tables_entry :
  let run := TidyTuesdayPy.tt_load (Sample.env 60) (VStr "2021-01-05") None
               (FilesStr "All") Sample.start in
  is_ok (result_of run) = true
  /\ loaded run "tables" = None
  /\ loaded run "data" = Some (Frame SampleData.table_xy)
  /\ loaded run "year" = Some (Meta (VStr "2021"))
  /\ loaded run "date" = Some (Frame SampleData.table_d).
Proof. repeat split; vm_compute; reflexivity. Qed.

(** * Which operations return *)
Section Returns.
Import TidyTuesdayPy.
Context (env : Env).

Lemma rate_limit_check_comparable quiet s :
  comparable (rate_limit_remaining s) = true ->
  probe_is_numeric env (clock s) = true ->
  exists v s1 l1 b,
    rate_limit_check env quiet s = (Ok v, s1, l1) /\ Py.lt_int v 5 = Ok b.
Proof.
  intros Hstate Hprobe. unfold probe_is_numeric, remaining_of in Hprobe.
  assert (Hlt : forall v, comparable v = true ->
            exists b, Py.lt_int (if negb (Py.is_none v) then v else VInt 0) 5
                      = Ok b)
    by (intros [] ?; try discriminate; cbn; eauto).
  destruct quiet;
  unfold rate_limit_check, _update_rate_limit, try_except, bind, requests_get,
    lift, set_rate_limit_remaining, get_rate_limit_remaining, ret, print.
  all: destruct (remote env (clock s) RATE_LIMIT_URL) as [response|];
    [|cbn; eexists _, _, _, _; split; reflexivity].
  all: destruct (status_code response =? 200)%Z;
    [|cbn; destruct (Hlt _ Hstate) as [b Hb];
      destruct (Py.is_none (rate_limit_remaining s));
      eexists _, _, _, _; split; first [reflexivity | exact Hb]].
  all: destruct (response_json response) as [data|]; cbn [res_bind] in *;
    [|cbn; eexists _, _, _, _; split; reflexivity].
  all: destruct (Py.getitem data "resources") as [resources|];
    cbn [res_bind] in *; [|cbn; eexists _, _, _, _; split; reflexivity].
  all: destruct (Py.getitem resources "core") as [core|]; cbn [res_bind] in *;
    [|cbn; eexists _, _, _, _; split; reflexivity].
  all: destruct (Py.getitem core "remaining") as [remaining|];
    [|cbn; eexists _, _, _, _; split; reflexivity].
  all: cbn; destruct (Hlt _ Hprobe) as [b Hb];
    destruct (Py.is_none remaining);
    eexists _, _, _, _; split; first [reflexivity | exact Hb].
Qed.

Lemma returns_print_ret {A} m (a : A) s : returns (print m ;; ret a) s.
Proof. eexists _, _, _. reflexivity. Qed.

Lemma returns_try_except {A} (body : M A) (h : exn -> M A) s :
  (forall e s1, returns (h e) s1) -> returns (try_except body h) s.
Proof. intros Hh. apply try_except_run. exact Hh. Qed.

(** An operation that starts with the rate check and does the rest
    inside [try ... except Exception] returns. *)
Lemma returns_gated {A} (empty : A) (body : M A) (h : exn -> M A) s :
  comparable (rate_limit_remaining s) = true ->
  probe_is_numeric env (clock s) = true ->
  (forall e s1, returns (h e) s1) ->
  returns (remaining <- rate_limit_check env true ;;
           low <- lift (Py.lt_int remaining 5) ;;
           if low then print RateLimitTooLow ;; ret empty
           else try_except body h) s.
Proof.
  intros Hstate Hprobe Hh.
  destruct (rate_limit_check_comparable true s Hstate Hprobe)
    as (v & s1 & l1 & b & Hcheck & Hlt).
  destruct b.
  - eexists _, _, _. eapply gate_closed; eassumption.
  - destruct (returns_try_except body h s1 Hh) as (a & s2 & l2 & Hrun).
    eexists _, _, _. erewrite gate_open by eassumption.
    rewrite Hrun. reflexivity.
Qed.

Lemma tt_load_gh_returns date_or_year week s :
  comparable (rate_limit_remaining s) = true ->
  probe_is_numeric env (clock s) = true ->
  returns (tt_load_gh env date_or_year week) s.
Proof.
  intros Hstate Hprobe. apply returns_gated; try assumption.
  intros; apply returns_print_ret.
Qed.

Lemma invalid_data_returns tt_data :
  Py.truthy tt_data = false \/ container tt_data = true ->
  exists b, invalid_data tt_data = Ok b.
Proof.
  unfold invalid_data. intros [->|Hcontainer]; [cbn; eauto|].
  destruct (negb _); [eauto|].
  destruct tt_data; try discriminate; cbn; eauto.
Qed.

Lemma tt_download_returns tt_data files s :
  Py.truthy tt_data = false \/ container tt_data = true ->
  returns (tt_download env tt_data files) s.
Proof.
  intros [b Hb]%invalid_data_returns. unfold returns, tt_download.
  unfold bind at 1, lift at 1. rewrite Hb. destruct b.
  - eexists _, _, _. reflexivity.
  - match goal with
    | |- context [try_except ?body ?h s] =>
        destruct (returns_try_except body h s) as (a & s2 & l2 & ->)
    end.
    + intros; apply returns_print_ret.
    + eexists _, _, _. reflexivity.
Qed.

Lemma tt_download_file_returns tt_data file_identifier s :
  Py.truthy tt_data = false \/ container tt_data = true ->
  returns (tt_download_file env tt_data file_identifier) s.
Proof.
  intros [b Hb]%invalid_data_returns. unfold returns, tt_download_file.
  unfold bind at 1, lift at 1. rewrite Hb. destruct b.
  - eexists _, _, _. reflexivity.
  - match goal with
    | |- context [try_except ?body ?h s] =>
        destruct (returns_try_except body h s) as (a & s2 & l2 & ->)
    end.
    + intros; apply returns_print_ret.
    + eexists _, _, _. reflexivity.
Qed.

Lemma tt_load_returns date_or_year week files s :
  comparable (rate_limit_remaining s) = true ->
  probe_is_numeric env (clock s) = true ->
  returns (tt_load env date_or_year week files) s.
Proof.
  intros Hstate Hprobe.
  destruct (tt_load_gh_returns date_or_year week s Hstate Hprobe)
    as (tt_data & s1 & l1 & Hgh).
  unfold tt_load. unfold returns. erewrite bind_Ok by exact Hgh.
  destruct (tt_load_gh_shape _ _ _ _ _ _ _ Hgh)
    as [->|(date & year & fs & rc & rh & ->)].
  - eexists _, _, _. reflexivity.
  - cbn [Py.truthy negb].
    match goal with
    | |- context [tt_download env ?d files] =>
        destruct (tt_download_returns d files s1) as (data & s2 & l2 & Hdl);
          [right; reflexivity|]
    end.
    unfold result_of, state_of, log_of.
    erewrite bind_Ok by exact Hdl. cbn. eexists _, _, _. reflexivity.
Qed.

End Returns.

Section NoAbort.
Import TidyTuesdayPy.
Context (env : Env).

(** C8, as the code has it.  From a client whose stored budget is a
    number or [None], and when the answer to the first probe, if it
    names a budget, names a number: [rate_limit_check], [tt_available],
    [tt_datasets], [tt_load_gh] and [tt_load] return for every
    argument and whatever the remote answers to every request, and
    [tt_download] and [tt_download_file] return for every metadata
    argument that is empty or is a dictionary, a list or a string.
    [last_tuesday] has no handler: the error of parsing its string
    argument is raised to the caller. *)
Theorem operations_return s :
  comparable (rate_limit_remaining s) = true ->
  probe_is_numeric env (clock s) = true ->
  (forall quiet, returns (rate_limit_check env quiet) s)
  /\ returns (tt_available env) s
  /\ (forall year print_output, returns (tt_datasets env year print_output) s)
  /\ (forall date_or_year week, returns (tt_load_gh env date_or_year week) s)
  /\ (forall date_or_year week files,
        returns (tt_load env date_or_year week files) s)
  /\ (forall tt_data,
        Py.truthy tt_data = false \/ container tt_data = true ->
        (forall files, returns (tt_download env tt_data files) s)
        /\ (forall file_identifier,
              returns (tt_download_file env tt_data file_identifier) s))
  /\ (forall date e,
        Date.strptime date = Raise e ->
        last_tuesday env (Some (DateStr date)) = Raise e).
Proof.
  intros Hstate Hprobe.
  split; [|split; [|split; [|split; [|split; [|split]]]]].
  - intros quiet.
    destruct (rate_limit_check_comparable env quiet s Hstate Hprobe)
      as (v & s1 & l1 & _ & Hcheck & _).
    eexists _, _, _. exact Hcheck.
  - apply returns_gated; try assumption. intros; apply returns_print_ret.
  - intros year print_output.
    apply returns_gated; try assumption. intros; apply returns_print_ret.
  - intros. apply tt_load_gh_returns; assumption.
  - intros. apply tt_load_returns; assumption.
  - intros tt_data Hdata. split; intros.
    + apply tt_download_returns. exact Hdata.
    + apply tt_download_file_returns. exact Hdata.
  - intros date e Hparse. unfold last_tuesday, res_bind. rewrite Hparse.
    reflexivity.
Qed.

End NoAbort.

Lemma operations_return_witness :
  returns (TidyTuesdayPy.tt_available (Sample.env 60)) Sample.start
  /\ returns (TidyTuesdayPy.tt_load (Sample.env 60) (VStr "2021-01-06") None
                (FilesStr "All")) Sample.start
  /\ returns (TidyTuesdayPy.tt_download (Sample.env 60) SampleData.metadata
                (FilesStr "All")) Sample.start
  /\ TidyTuesdayPy.last_tuesday (Sample.env 60)
       (Some (TidyTuesdayPy.DateStr "2021-02-29"))
     = Raise ValueError.
Proof.
  destruct (operations_return (Sample.env 60) Sample.start eq_refl eq_refl)
    as (_ & Havailable & _ & _ & Hload & Hdownload & Hparse).
  split; [exact Havailable|].
  split; [apply Hload|].
  split.
  - apply (Hdownload SampleData.metadata). right. reflexivity.
  - apply Hparse. reflexivity.
Defined.

(** C8 as stated fails.  [last_tuesday] raises on a string that is not
    a date, as a method and as the module-level function; and where the
    rate-limit endpoint names its budget by a string, the comparison
    with 5 that precedes the [try] block of [tt_datasets] raises. *)
Lemma last_tuesday_raises_on_unparseable_date :
  TidyTuesdayPy.last_tuesday (Sample.env 60)
    (Some (TidyTuesdayPy.DateStr "next week"))
  = Raise ValueError
  /\ result_of (last_tuesday (Sample.env 60)
                  (Some (TidyTuesdayPy.DateStr "next week")) Sample.start)
     = Raise ValueError
  /\ result_of (TidyTuesdayPy.tt_datasets SampleOdd.env (VInt 2021) true
                  Sample.start)
     = Raise TypeError.
Proof. repeat split; vm_compute; reflexivity. Qed.

(** * The order of dates and of their names *)
Module CalendarOrder.
Import Date DateFacts.
Open Scope Z_scope.

Lemma days_before_year_succ y :
  days_before_year (y + 1)
  = days_before_year y + 365 + (if is_leap y then 1 else 0).
Proof.
  unfold days_before_year, is_leap. replace (y + 1 - 1) with y by lia.
  repeat match goal with
         | |- context [?x =? ?y] => destruct (Z.eqb_spec x y)
         end; cbn; zdm.
Qed.

Lemma days_before_year_mono y1 y2 :
  y1 <= y2 -> days_before_year y1 <= days_before_year y2.
Proof. intros H. unfold days_before_year. zdm. Qed.

(** The ordinals of a year lie after the days before it and within
    the days before the next one. *)
Lemma toordinal_in_year d :
  valid d ->
  days_before_year (year d) < toordinal d <= days_before_year (year d + 1).
Proof.
  intros (Hy & Hm & Hd)%valid_b_inv.
  pose proof (day_of_year_bound _ _ _ Hm Hd) as Hdoy.
  rewrite days_before_year_succ. unfold toordinal, ymd2ord. lia.
Qed.

Lemma days_before_month_next y m1 m2 :
  1 <= m1 -> m1 < m2 -> m2 <= 12 ->
  days_before_month y m1 + days_in_month y m1 <= days_before_month y m2.
Proof.
  intros H1 H12 H2. unfold days_before_month.
  month_cases m1; month_cases m2; try lia; cbn; destruct (is_leap y); lia.
Qed.

(** An earlier date, by year, then month, then day, has a smaller
    ordinal. *)
Lemma toordinal_lt a b :
  valid a -> valid b ->
  year a < year b
  \/ (year a = year b
      /\ (month a < month b \/ (month a = month b /\ day a < day b))) ->
  toordinal a < toordinal b.
Proof.
  intros Ha Hb Hlt.
  pose proof (toordinal_in_year a Ha) as Hra.
  pose proof (toordinal_in_year b Hb) as Hrb.
  apply valid_b_inv in Ha as (Hya & Hma & Hda).
  apply valid_b_inv in Hb as (Hyb & Hmb & Hdb).
  destruct Hlt as [Hy|(Hy & [Hm|(Hm & Hd)])].
  - pose proof (days_before_year_mono (year a + 1) (year b)). lia.
  - pose proof (days_before_month_next (year a) (month a) (month b)).
    unfold toordinal, ymd2ord. rewrite <- Hy. lia.
  - unfold toordinal, ymd2ord. rewrite Hy, Hm. lia.
Qed.

Lemma toordinal_inj a b :
  valid a -> valid b -> toordinal a = toordinal b -> a = b.
Proof.
  intros Ha Hb Heq.
  pose proof (toordinal_lt a b Ha Hb) as Hab.
  pose proof (toordinal_lt b a Hb Ha) as Hba.
  destruct a as [ya ma da], b as [yb mb db]; cbn [year month day] in *.
  assert (ya = yb) by lia. assert (ma = mb) by lia. assert (da = db) by lia.
  congruence.
Qed.

(** [_ord2ymd] and [toordinal] are inverse to each other on the dates
    of the supported range. *)
Lemma ord2ymd_toordinal d : valid d -> ord2ymd (toordinal d) = d.
Proof.
  intros Hd. pose proof (toordinal_range d Hd) as Hr.
  destruct (ord2ymd_spec (toordinal d) Hr) as [Hv Ho].
  apply toordinal_inj; assumption.
Qed.

(** A date at most a year's length before another one is not in an
    earlier year than the year before. *)
Lemma year_of_recent a b :
  valid a -> valid b -> toordinal b - 365 <= toordinal a ->
  year b - 1 <= year a.
Proof.
  intros Ha Hb Hnear.
  pose proof (toordinal_in_year a Ha) as Hra.
  pose proof (toordinal_in_year b Hb) as Hrb.
  destruct (Z_lt_le_dec (year a) (year b - 1)) as [Hlt|]; [|assumption].
  pose proof (days_before_year_mono (year a + 1) (year b - 1)).
  pose proof (days_before_year_succ (year b - 1)) as Hs.
  replace (year b - 1 + 1) with (year b) in Hs by lia.
  destruct (is_leap (year b - 1)); lia.
Qed.

Lemma digit_chr_compare j k :
  0 <= j <= 9 -> 0 <= k <= 9 ->
  Ascii.compare (Str.digit_chr j) (Str.digit_chr k) = (j ?= k).
Proof.
  intros Hj Hk.
  assert (Ej : exists n : nat, (n < 10)%nat /\ j = Z.of_nat n)
    by (exists (Z.to_nat j); lia).
  assert (Ek : exists n : nat, (n < 10)%nat /\ k = Z.of_nat n)
    by (exists (Z.to_nat k); lia).
  destruct Ej as (n & Hn & ->), Ek as (m & Hm & ->).
  do 10 (destruct n as [|n]; [do 10 (destruct m as [|m]; [reflexivity|]); lia|]).
  lia.
Qed.

(** The decimal digits of a number below 10000. *)
Lemma four_digits y :
  0 <= y <= 9999 ->
  0 <= y / 1000 mod 10 <= 9 /\ 0 <= y / 100 mod 10 <= 9
  /\ 0 <= y / 10 mod 10 <= 9 /\ 0 <= y mod 10 <= 9
  /\ y = 1000 * (y / 1000 mod 10) + 100 * (y / 100 mod 10)
         + 10 * (y / 10 mod 10) + y mod 10.
Proof. intros Hy. zdm. Qed.

Lemma two_digits m :
  0 <= m <= 99 ->
  0 <= m / 10 mod 10 <= 9 /\ 0 <= m mod 10 <= 9
  /\ m = 10 * (m / 10 mod 10) + m mod 10.
Proof. intros Hm. zdm. Qed.

(** Names of the form YYYY-MM-DD compare as the numbers
    year, month, day do. *)
Lemma isoformat_compare a b :
  valid a -> valid b ->
  String.compare (isoformat a) (isoformat b)
  = (year a * 10000 + month a * 100 + day a
     ?= year b * 10000 + month b * 100 + day b).
Proof.
  intros (Hya & Hma & Hda)%valid_b_inv (Hyb & Hmb & Hdb)%valid_b_inv.
  pose proof (days_in_month_le (year a) (month a)).
  pose proof (days_in_month_le (year b) (month b)).
  destruct (four_digits (year a)) as (A1 & A2 & A3 & A4 & EA); [lia|].
  destruct (four_digits (year b)) as (B1 & B2 & B3 & B4 & EB); [lia|].
  destruct (two_digits (month a)) as (A5 & A6 & EMA); [lia|].
  destruct (two_digits (month b)) as (B5 & B6 & EMB); [lia|].
  destruct (two_digits (day a)) as (A7 & A8 & EDA); [lia|].
  destruct (two_digits (day b)) as (B7 & B8 & EDB); [lia|].
  cbv [isoformat pad4 pad2 String.append].
  cbn [String.compare].
  rewrite !digit_chr_compare by assumption.
  change (Ascii.compare "-" "-") with Eq. cbv iota.
  symmetry.
  repeat match goal with
         | |- context [match (?x ?= ?y) with _ => _ end] =>
             destruct (Z.compare_spec x y)
         end;
    first [apply Z.compare_eq_iff | apply Z.compare_lt_iff | apply Z.compare_gt_iff];
    lia.
Qed.

(** The order of the names is the order of the days. *)
Lemma isoformat_le a b :
  valid a -> valid b ->
  String.le (isoformat a) (isoformat b) -> toordinal a <= toordinal b.
Proof.
  intros Ha Hb Hle. unfold String.le, String.leb in Hle.
  rewrite (isoformat_compare a b Ha Hb) in Hle.
  destruct (Z_lt_le_dec (toordinal b) (toordinal a)) as [Hlt|]; [|assumption].
  exfalso.
  destruct (Z.compare_spec (year a * 10000 + month a * 100 + day a)
              (year b * 10000 + month b * 100 + day b)) as [E|E|E];
    try contradiction Hle.
  - pose proof (toordinal_lt b a Hb Ha) as Hba.
    pose proof Ha as (Hya & Hma & Hda)%valid_b_inv.
    pose proof Hb as (Hyb & Hmb & Hdb)%valid_b_inv.
    pose proof (days_in_month_le (year a) (month a)).
    pose proof (days_in_month_le (year b) (month b)).
    assert (a = b) by (destruct a, b; cbn [year month day] in *; f_equal; lia).
    subst. lia.
  - pose proof (toordinal_lt a b Ha Hb) as Hab.
    pose proof Ha as (Hya & Hma & Hda)%valid_b_inv.
    pose proof Hb as (Hyb & Hmb & Hdb)%valid_b_inv.
    pose proof (days_in_month_le (year a) (month a)).
    pose proof (days_in_month_le (year b) (month b)).
    assert (toordinal a < toordinal b) by (apply Hab; lia).
    lia.
Qed.

End CalendarOrder.

(** * The week of [last_tuesday] *)
Section LastTuesdayWeek.
Import Date DateFacts CalendarOrder TidyTuesdayPy.
Open Scope Z_scope.
Context (env : Env).

(** Every date from a Tuesday to the Monday after it is resolved to
    that Tuesday. *)
Lemma last_tuesday_in_week t d :
  valid t -> weekday t = 1 -> valid d ->
  0 <= toordinal d - toordinal t <= 6 ->
  last_tuesday env (Some (DateObj d)) = Ok (strftime (strftime_year env) t).
Proof.
  intros Ht Hwt Hd Hnear.
  pose proof (toordinal_range t Ht) as Hrt.
  assert (Hne : d <> mkdate 1 1 1).
  { intros ->. change (toordinal (mkdate 1 1 1)) with 1 in Hnear.
    unfold weekday in Hwt. assert (toordinal t = 1) by lia.
    rewrite H in Hwt. discriminate Hwt. }
  destruct (last_tuesday_obj env d Hd Hne) as (Hrun & _ & _ & _ & _).
  rewrite Hrun. do 2 f_equal.
  replace (toordinal d - (weekday d - 1) mod 7) with (toordinal t)
    by (unfold weekday in *; zdm).
  apply ord2ymd_toordinal. exact Ht.
Qed.

(** The Tuesday [last_tuesday] finds for a date that is not in the
    first years is rendered with four digits of year. *)
Lemma last_tuesday_recent d :
  valid d -> 1001 <= year d ->
  exists r,
    valid r /\ weekday r = 1 /\ 1000 <= year r
    /\ 0 <= toordinal d - toordinal r <= 6
    /\ last_tuesday env (Some (DateObj d)) = Ok (isoformat r).
Proof.
  intros Hd Hyear.
  assert (Hne : d <> mkdate 1 1 1) by (intros ->; cbn in Hyear; lia).
  destruct (last_tuesday_obj env d Hd Hne) as (Hrun & Hr & Hor & Hk & Hwd).
  eexists. split; [exact Hr|]. split; [exact Hwd|].
  assert (Hy : 1000 <= year (ord2ymd (toordinal d - (weekday d - 1) mod 7))).
  { pose proof (year_of_recent _ d Hr Hd). lia. }
  split; [exact Hy|]. split; [lia|].
  rewrite Hrun, (strftime_isoformat _ _ Hy). reflexivity.
Qed.

(** X1.  [last_tuesday] maps the seven days from a Tuesday to the
    following Monday to that Tuesday, whether the day is given as a
    date object or written as YYYY-MM-DD: its weeks start on
    Tuesday. *)
Theorem last_tuesday_week t d :
  valid t -> weekday t = 1 -> 1000 <= year t -> valid d ->
  0 <= toordinal d - toordinal t <= 6 ->
  last_tuesday env (Some (DateObj d)) = Ok (isoformat t)
  /\ last_tuesday env (Some (DateStr (isoformat d))) = Ok (isoformat t).
Proof.
  intros Ht Hwt Hyear Hd Hnear.
  pose proof (last_tuesday_in_week t d Ht Hwt Hd Hnear) as Hrun.
  rewrite (strftime_isoformat _ _ Hyear) in Hrun. split; [exact Hrun|].
  unfold last_tuesday, res_bind in *.
  rewrite (strptime_isoformat d Hd). exact Hrun.
Qed.

(** X2.  [last_tuesday] is idempotent: for a date of the year 1001 or
    later, what it returns is a date string that it maps to itself. *)
Theorem last_tuesday_idempotent d :
  valid d -> 1001 <= year d ->
  exists r,
    last_tuesday env (Some (DateObj d)) = Ok r
    /\ (forall s, strptime s = Ok d ->
        last_tuesday env (Some (DateStr s)) = Ok r)
    /\ last_tuesday env (Some (DateStr r)) = Ok r.
Proof.
  intros Hd Hyear.
  destruct (last_tuesday_recent d Hd Hyear) as (r & Hr & Hwd & Hy & Hnear & Hrun).
  exists (isoformat r). split; [exact Hrun|]. split.
  - intros s Hs. unfold last_tuesday, res_bind in *. rewrite Hs. exact Hrun.
  - pose proof (last_tuesday_in_week r r Hr Hwd Hr) as Hfix.
    rewrite (strftime_isoformat _ _ Hy) in Hfix.
    unfold last_tuesday, res_bind in *.
    rewrite (strptime_isoformat r Hr). apply Hfix. lia.
Qed.

Lemma last_tuesday_None :
  last_tuesday env None
  = match new_york_date env with
    | Ok now =>
        last_tuesday env (Some (DateStr (strftime (strftime_year env) now)))
    | Raise e => Raise e
    end.
Proof. unfold last_tuesday. destruct (new_york_date env); reflexivity. Qed.

Lemma last_tuesday_reads_back now :
  valid now -> 1000 <= year now ->
  last_tuesday env (Some (DateStr (strftime (strftime_year env) now)))
  = last_tuesday env (Some (DateObj now)).
Proof.
  intros Hv Hy. rewrite (strftime_isoformat _ _ Hy).
  unfold last_tuesday, res_bind. rewrite (strptime_isoformat now Hv).
  reflexivity.
Qed.

Lemma new_york_date_run d hour :
  utcnow env = (d, hour) -> valid d -> 2 <= toordinal d ->
  new_york_date env
  = Ok (if hour <? 4 then ord2ymd (toordinal d - 1) else d).
Proof.
  intros Hnow Hd Hlow. pose proof (toordinal_range d Hd) as Hrange.
  unfold new_york_date. rewrite Hnow.
  replace (hour + -4 <? 0) with (hour <? 4)
    by (destruct (Z.ltb_spec hour 4), (Z.ltb_spec (hour + -4) 0); lia).
  destruct (hour <? 4); [|reflexivity].
  unfold sub_days.
  destruct (Z.ltb_spec 0 (toordinal d - 1)); [|lia].
  destruct (Z.leb_spec (toordinal d - 1) MAXORDINAL); [|lia].
  reflexivity.
Qed.

(** X3.  Without an argument [last_tuesday] starts from the UTC date four
    hours ago: the date of the clock, or the day before when its hour
    is below 4. *)
Theorem last_tuesday_default d hour :
  utcnow env = (d, hour) -> valid d -> 1001 <= year d ->
  last_tuesday env None
  = last_tuesday env
      (Some (DateObj (if hour <? 4 then ord2ymd (toordinal d - 1) else d))).
Proof.
  intros Hnow Hd Hyear.
  pose proof (toordinal_range d Hd) as Hrange.
  pose proof (toordinal_in_year d Hd) as Hin.
  pose proof (days_before_year_mono 2 (year d)) as Hmono.
  assert (Htwo : days_before_year 2 = 365) by reflexivity.
  rewrite last_tuesday_None, (new_york_date_run d hour Hnow Hd) by lia.
  destruct (hour <? 4).
  - destruct (ord2ymd_spec (toordinal d - 1)) as [Hv Ho]; [lia|].
    apply last_tuesday_reads_back; [exact Hv|].
    pose proof (year_of_recent _ d Hv Hd). lia.
  - apply last_tuesday_reads_back; [exact Hd | lia].
Qed.

End LastTuesdayWeek.

Lemma last_tuesday_week_witness :
  TidyTuesdayPy.last_tuesday (Sample.env 60)
    (Some (TidyTuesdayPy.DateObj (Date.mkdate 2026 11 9)))
  = Ok "2026-11-03"
  /\ TidyTuesdayPy.last_tuesday (Sample.env 60)
       (Some (TidyTuesdayPy.DateStr "2026-11-09"))
     = Ok "2026-11-03".
Proof.
  apply (last_tuesday_week (Sample.env 60) (Date.mkdate 2026 11 3)
           (Date.mkdate 2026 11 9));
    [reflexivity | reflexivity | discriminate | reflexivity
     | split; discriminate].
Defined.

Lemma last_tuesday_idempotent_witness :
  exists r,
    TidyTuesdayPy.last_tuesday (Sample.env 60)
      (Some (TidyTuesdayPy.DateObj (Date.mkdate 2026 11 5))) = Ok r
    /\ (forall s, Date.strptime s = Ok (Date.mkdate 2026 11 5) ->
        TidyTuesdayPy.last_tuesday (Sample.env 60)
          (Some (TidyTuesdayPy.DateStr s)) = Ok r)
    /\ TidyTuesdayPy.last_tuesday (Sample.env 60)
         (Some (TidyTuesdayPy.DateStr r)) = Ok r.
Proof.
  apply (last_tuesday_idempotent (Sample.env 60) (Date.mkdate 2026 11 5));
    [reflexivity | discriminate].
Defined.

Lemma last_tuesday_default_witness :
  TidyTuesdayPy.last_tuesday (Sample.env 60) None
  = TidyTuesdayPy.last_tuesday (Sample.env 60)
      (Some (TidyTuesdayPy.DateObj (Date.mkdate 2026 11 2))).
Proof.
  apply (last_tuesday_default (Sample.env 60) (Date.mkdate 2026 11 3) 2);
    [reflexivity | reflexivity | discriminate].
Defined.

(** * What [rate_limit_check] reports *)
Section RateLimitReport.
Import TidyTuesdayPy.
Context (env : Env).

(** X4.  When the rate-limit endpoint answers with status 200 and a body
    that names a budget, [rate_limit_check] stores that budget,
    returns it (0 in place of [None]) and, unless quiet or handed
    [None], prints it. *)
Theorem rate_limit_check_reports quiet s response v :
  remote env (clock s) RATE_LIMIT_URL = Some response ->
  status_code response = 200%Z ->
  remaining_of response = Ok v ->
  rate_limit_check env quiet s
  = (Ok (if Py.is_none v then VInt 0 else v),
     mkstate (S (clock s)) v,
     Request RATE_LIMIT_URL
       :: (if negb quiet && negb (Py.is_none v)
           then [Print (RequestsRemaining v)] else [])).
Proof.
  intros Hremote Hstatus Hbody.
  unfold rate_limit_check, _update_rate_limit, try_except, bind, requests_get,
    lift, set_rate_limit_remaining, get_rate_limit_remaining, ret, print.
  rewrite Hremote, Hstatus. cbn [Z.eqb Pos.eqb].
  unfold remaining_of, res_bind in Hbody.
  destruct (response_json response) as [data|]; [|discriminate].
  destruct (Py.getitem data "resources") as [resources|]; [|discriminate].
  destruct (Py.getitem resources "core") as [core|]; [|discriminate].
  rewrite Hbody. cbn.
  destruct quiet, (Py.is_none v); reflexivity.
Qed.

(** X5.  When the endpoint answers with another status, the budget of the
    client is left as it was: [rate_limit_check] reports the budget
    of an earlier probe, and 0 only if there is none. *)
Theorem rate_limit_check_keeps_stale_budget quiet s response :
  remote env (clock s) RATE_LIMIT_URL = Some response ->
  status_code response <> 200%Z ->
  rate_limit_check env quiet s
  = (Ok (if Py.is_none (rate_limit_remaining s) then VInt 0
         else rate_limit_remaining s),
     mkstate (S (clock s)) (rate_limit_remaining s),
     Request RATE_LIMIT_URL
       :: (if negb quiet && negb (Py.is_none (rate_limit_remaining s))
           then [Print (RequestsRemaining (rate_limit_remaining s))] else [])).
Proof.
  intros Hremote Hstatus.
  unfold rate_limit_check, _update_rate_limit, try_except, bind, requests_get,
    lift, set_rate_limit_remaining, get_rate_limit_remaining, ret, print.
  rewrite Hremote.
  replace (status_code response =? 200)%Z with false
    by (symmetry; apply Z.eqb_neq; exact Hstatus).
  cbn. destruct quiet, (Py.is_none (rate_limit_remaining s)); reflexivity.
Qed.

(** X6.  When the request fails, or the body of a 200 answer is not JSON or
    does not name a budget, the budget of the client is forgotten:
    [rate_limit_check] returns 0 and prints nothing, whatever an
    earlier probe had found. *)
Theorem rate_limit_check_failed_probe quiet s :
  remote env (clock s) RATE_LIMIT_URL = None
  \/ (exists response e,
        remote env (clock s) RATE_LIMIT_URL = Some response
        /\ status_code response = 200%Z
        /\ remaining_of response = Raise e) ->
  rate_limit_check env quiet s
  = (Ok (VInt 0), mkstate (S (clock s)) VNone, [Request RATE_LIMIT_URL]).
Proof.
  unfold rate_limit_check, _update_rate_limit, try_except, bind, requests_get,
    lift, set_rate_limit_remaining, get_rate_limit_remaining, ret, print.
  intros [Hremote|(response & e & Hremote & Hstatus & Hbody)]; rewrite Hremote.
  - cbn. destruct quiet; reflexivity.
  - rewrite Hstatus. cbn [Z.eqb Pos.eqb].
    unfold remaining_of, res_bind in Hbody.
    destruct (response_json response) as [data|];
      [|cbn; destruct quiet; reflexivity].
    destruct (Py.getitem data "resources") as [resources|];
      [|cbn; destruct quiet; reflexivity].
    destruct (Py.getitem resources "core") as [core|];
      [|cbn; destruct quiet; reflexivity].
    rewrite Hbody. cbn. destruct quiet; reflexivity.
Qed.

End RateLimitReport.

Lemma rate_limit_check_reports_witness :
  TidyTuesdayPy.rate_limit_check (Sample.env 60) false Sample.start
  = (Ok (VInt 60), mkstate 1 (VInt 60),
     [Request TidyTuesdayPy.RATE_LIMIT_URL; Print (RequestsRemaining (VInt 60))]).
Proof.
  apply (rate_limit_check_reports (Sample.env 60) false Sample.start
           (Sample.rate_limit 60) (VInt 60));
    reflexivity.
Defined.

Lemma rate_limit_check_keeps_stale_budget_witness :
  TidyTuesdayPy.rate_limit_check SampleRemote.unavailable true
    (mkstate 7 (VInt 42))
  = (Ok (VInt 42), mkstate 8 (VInt 42), [Request TidyTuesdayPy.RATE_LIMIT_URL]).
Proof.
  apply (rate_limit_check_keeps_stale_budget SampleRemote.unavailable true
           (mkstate 7 (VInt 42)) Sample.not_found);
    [reflexivity | discriminate].
Defined.

Lemma rate_limit_check_failed_probe_witness :
  TidyTuesdayPy.rate_limit_check SampleRemote.offline false
    (mkstate 7 (VInt 42))
  = (Ok (VInt 0), mkstate 8 VNone, [Request TidyTuesdayPy.RATE_LIMIT_URL]).
Proof.
  apply (rate_limit_check_failed_probe SampleRemote.offline false
           (mkstate 7 (VInt 42))).
  left. reflexivity.
Defined.

(** * The order of a listing in time *)
Section Chronology.
Import TidyTuesdayPy CalendarOrder.
Context (env : Env).

Lemma StronglySorted_lookup {A} (R : A -> A -> Prop) l :
  StronglySorted R l ->
  forall i j x y,
    l !! i = Some x -> l !! j = Some y -> (i < j)%nat -> R x y.
Proof.
  induction 1 as [|a l Hsorted IH Ha]; intros i j x y Hi Hj Hlt.
  - rewrite lookup_nil in Hi. discriminate.
  - destruct j as [|j]; [lia|]. cbn in Hj.
    destruct i as [|i]; cbn in Hi.
    + injection Hi as <-. rewrite Forall_forall in Ha.
      apply Ha. eapply list_elem_of_lookup_2. exact Hj.
    + apply (IH i j); [assumption..|lia].
Qed.

(** X7.  The order of a listing is the order of time: of two entries of the
    list [tt_datasets] returns whose dates are the names YYYY-MM-DD of
    calendar dates, the earlier in the list is not the later day. *)
Theorem tt_datasets_chronological year print_output s datasets s' l i j x y a b :
  tt_datasets env year print_output s = (Ok datasets, s', l) ->
  datasets !! i = Some x -> datasets !! j = Some y -> (i <= j)%nat ->
  Date.valid a -> Date.valid b ->
  date x = Date.isoformat a -> date y = Date.isoformat b ->
  (Date.toordinal a <= Date.toordinal b)%Z.
Proof.
  intros Hrun Hi Hj Hle Ha Hb Hx Hy.
  destruct (tt_datasets_post env _ _ _ _ _ _ Hrun) as [Hsorted _].
  apply isoformat_le; [assumption..|]. rewrite <- Hx, <- Hy.
  destruct (decide (i = j)) as [->|Hne].
  - rewrite Hi in Hj. injection Hj as <-. reflexivity.
  - apply (StronglySorted_lookup _ _ Hsorted i j); [assumption..|lia].
Qed.

End Chronology.

Lemma tt_datasets_chronological_witness :
  (Date.toordinal (Date.mkdate 2020 12 29)
   <= Date.toordinal (Date.mkdate 2021 1 12))%Z.
Proof.
  eapply (tt_datasets_chronological (Sample.env 60) (VInt 2021) false
            Sample.start _ _ _ 0 2 _ _
            (Date.mkdate 2020 12 29) (Date.mkdate 2021 1 12)).
  - vm_compute. reflexivity.
  - reflexivity.
  - reflexivity.
  - lia.
  - reflexivity.
  - reflexivity.
  - reflexivity.
  - reflexivity.
Defined.

(** * The metadata of a week *)
Section WeekMetadata.
Import TidyTuesdayPy.
Context (env : Env).

Lemma week_files_requests year date s :
  requested (log_of (week_files env year date s))
  `prefix_of` tail (week_requests year date)
  /\ requested (log_of (week_files env year date s)) <> [].
Proof.
  unfold week_files, week_requests, bind, requests_get, lift, print, ret,
    log_of, requested.
  destruct (remote env (clock s) _) as [response|]; cbn.
  2:{ split; [eexists; reflexivity | discriminate]. }
  destruct (negb _); cbn.
  { split; [eexists; reflexivity | discriminate]. }
  destruct (response_json response) as [files_data|]; cbn.
  2:{ split; [eexists; reflexivity | discriminate]. }
  destruct (Py.iter files_data) as [items|]; cbn.
  2:{ split; [eexists; reflexivity | discriminate]. }
  destruct (data_files items) as [files|]; cbn.
  2:{ split; [eexists; reflexivity | discriminate]. }
  destruct (remote env (S (clock s)) _) as [readme_response|]; cbn;
    (split; [eexists; reflexivity | discriminate]).
Qed.

(** X10.  Given a date, [tt_load_gh] asks for the rate limit, then for the
    folder of the week, then for its README, and stops where a step
    fails; it requests nothing else, no data file in particular. *)
Theorem tt_load_gh_requests date_or_year s :
  requested (log_of (tt_load_gh env date_or_year None s))
  `prefix_of` week_requests (Str.take 4 (str env date_or_year))
                (str env date_or_year).
Proof.
  destruct (rate_limit_check_quiet env s) as (v & s1 & Hcheck & _).
  unfold tt_load_gh. erewrite bind_Ok by exact Hcheck.
  unfold log_of, result_of, state_of. cbn [fst snd].
  unfold requested. rewrite omap_app. cbn [omap app].
  apply prefix_cons.
  unfold bind at 1, lift at 1.
  destruct (Py.lt_int v 5) as [[|]|]; cbn; [apply prefix_nil| |apply prefix_nil].
  destruct (week_files_requests (Str.take 4 (str env date_or_year))
              (str env date_or_year) s1) as [Hprefix _].
  unfold log_of, requested, week_requests in Hprefix. cbn [tail] in Hprefix.
  unfold try_except.
  destruct (week_files env _ _ s1) as [[[tt_data|e] s2] l2]; cbn [snd] in *.
  - exact Hprefix.
  - cbn. rewrite omap_app. cbn. rewrite app_nil_r. exact Hprefix.
Qed.

Lemma lower_Ok name lowered :
  Py.lower name = Ok lowered ->
  exists n, name = VStr n /\ lowered = Str.lower n.
Proof. destruct name; cbn; intros [=]. eauto. Qed.

Lemma data_files_spec items :
  forall files, data_files items = Ok files -> Forall data_file files.
Proof.
  induction items as [|item rest IH]; cbn [data_files]; intros files.
  { intros [= <-]. constructor. }
  destruct (Py.getitem item "type") as [type|]; cbn [res_bind]; [|discriminate].
  destruct (Py.eq_str type "file"); cbn [res_bind]; [|apply IH].
  destruct (Py.getitem item "name") as [name|]; cbn [res_bind]; [|discriminate].
  destruct (Py.lower name) as [lowered|] eqn:Hlower; cbn [res_bind];
    [|discriminate].
  apply lower_Ok in Hlower as (n & -> & ->).
  destruct (Str.startswith (Str.lower n) "readme") eqn:Hreadme;
    cbn [negb]; [apply IH|].
  destruct (Py.getitem item "download_url") as [download_url|];
    cbn [res_bind]; [|discriminate].
  destruct (Py.getitem item "path") as [path|]; cbn [res_bind]; [|discriminate].
  destruct (data_files rest) as [rest'|]; cbn [res_bind]; [|discriminate].
  intros [= <-]. constructor; [|apply IH; reflexivity].
  exists n, download_url, path. split; [reflexivity | exact Hreadme].
Qed.

Lemma week_files_metadata year date :
  post (week_files env year date)
    (fun tt_data => tt_data = VDict [] \/ metadata_of date year tt_data).
Proof.
  unfold week_files.
  eapply post_bind; [apply post_trivial|]. intros response _.
  destruct (negb _).
  { eapply post_bind; [apply post_trivial|]. intros _ _.
    apply post_ret. left. reflexivity. }
  eapply post_bind; [apply post_trivial|]. intros files_data _.
  eapply post_bind; [apply post_trivial|]. intros items _.
  eapply post_bind.
  { apply (post_lift _ (fun files => data_files items = Ok files)). auto. }
  intros files Hfiles.
  eapply post_bind; [apply post_trivial|]. intros readme_response _.
  apply post_ret. right. eexists _, _. split; [reflexivity|].
  exact (data_files_spec _ _ Hfiles).
Qed.

Lemma tt_load_gh_post date_or_year week :
  post (tt_load_gh env date_or_year week)
    (fun tt_data =>
       tt_data = VDict []
       \/ exists date year,
            metadata_of date year tt_data
            /\ match week with
               | None => date = str env date_or_year /\ year = Str.take 4 date
               | Some _ => year = str env date_or_year
               end).
Proof.
  assert (Hempty : forall m (Q : value -> Prop),
            post (print m ;; ret (VDict []))
              (fun tt_data => tt_data = VDict [] \/ Q tt_data)).
  { intros m Q. eapply post_bind; [apply post_trivial|]. intros _ _.
    apply post_ret. left. reflexivity. }
  unfold tt_load_gh.
  eapply post_bind; [apply post_trivial|]. intros remaining _.
  eapply post_bind; [apply post_trivial|]. intros low _.
  destruct low; [apply Hempty|].
  apply post_try_except; [|intros e; apply Hempty].
  destruct week as [week|].
  - eapply post_bind; [apply post_trivial|]. intros datasets _.
    destruct datasets as [|d ds]; [apply Hempty|].
    destruct (_ || _); [apply Hempty|].
    destruct (_ !! _) as [dataset|]; [|apply post_raise].
    eapply post_weaken; [apply week_files_metadata|].
    intros tt_data [->|Hmeta]; [left; reflexivity|].
    right. eexists _, _. split; [exact Hmeta | reflexivity].
  - eapply post_weaken; [apply week_files_metadata|].
    intros tt_data [->|Hmeta]; [left; reflexivity|].
    right. eexists _, _. split; [exact Hmeta|]. split; reflexivity.
Qed.

(** X11.  What [tt_load_gh] returns is the empty dictionary or the metadata
    of one week: the five entries, with files that are data files (no
    README among them, in any letter case) and a [readme_html] that is
    the rendering of [readme_content].  Given a date, the week is
    that date and the year its first four characters; given a year
    and a week number, the year is the one given. *)
Theorem tt_load_gh_metadata date_or_year week s tt_data s' l :
  tt_load_gh env date_or_year week s = (Ok tt_data, s', l) ->
  tt_data = VDict []
  \/ exists date year,
       metadata_of date year tt_data
       /\ match week with
          | None => date = str env date_or_year /\ year = Str.take 4 date
          | Some _ => year = str env date_or_year
          end.
Proof. intros Hrun. exact (tt_load_gh_post _ _ _ _ _ _ Hrun). Qed.

End WeekMetadata.

Lemma tt_load_gh_metadata_witness :
  SampleData.metadata = VDict []
  \/ exists date year,
       metadata_of date year SampleData.metadata
       /\ date = "2021-01-05" /\ year = Str.take 4 date.
Proof.
  eapply (tt_load_gh_metadata (Sample.env 60) (VStr "2021-01-05") None
            Sample.start).
  vm_compute. reflexivity.
Defined.

(** * One file: [tt_download_file] *)
Section OneFile.
Import TidyTuesdayPy.
Context (env : Env).

(** X12.  An index below 0 or not below the number of files is reported as
    out of range: the empty data frame is returned and nothing is
    requested.  A negative index does not count from the end. *)
Theorem tt_download_file_index_out_of_range tt_data files i s :
  Py.getitem tt_data "files" = Ok (VList files) ->
  (i < 0 \/ Z.of_nat (length files) <= i)%Z ->
  tt_download_file env tt_data (ByIndex i) s
  = (Ok empty_frame, s, [Print (FileIndexOutOfRange i)]).
Proof.
  intros Hfiles Hrange.
  unfold tt_download_file, bind, lift, try_except, print, ret.
  rewrite (invalid_data_false _ _ Hfiles), Hfiles. cbn [Py.len res_bind].
  destruct (Z.ltb_spec i 0) as [Hneg|Hpos]; [reflexivity|].
  destruct (Z.leb_spec (Z.of_nat (length files)) i); [reflexivity | lia].
Qed.

Lemma find_named_at name :
  forall files i f,
    files !! i = Some f ->
    Py.getitem f "name" = Ok (VStr name) ->
    Forall (fun g => has_name g /\ named name g = false) (take i files) ->
    find_named name files = Ok (Some f).
Proof.
  induction files as [|g rest IH]; intros i f Hi Hname Hbefore.
  - rewrite lookup_nil in Hi. discriminate.
  - destruct i as [|i]; cbn in Hi.
    + injection Hi as ->. cbn [find_named]. rewrite Hname. cbn.
      rewrite String.eqb_refl. reflexivity.
    + cbn [take] in Hbefore. apply Forall_cons in Hbefore as [[[n Hn] Hg] Hrest].
      cbn [find_named]. unfold named in Hg. rewrite Hn in *. cbn [res_bind].
      rewrite Hg. exact (IH i f Hi Hname Hrest).
Qed.

(** X13.  A position and the name at that position select the same file:
    when no file before position [i] has the name of the file at [i],
    [tt_download_file] does the same, result, requests and output,
    for the index [i] and for that name. *)
Theorem tt_download_file_index_or_name tt_data files (i : nat) f name s :
  Py.getitem tt_data "files" = Ok (VList files) ->
  files !! i = Some f ->
  Py.getitem f "name" = Ok (VStr name) ->
  Forall (fun g => has_name g /\ named name g = false) (take i files) ->
  tt_download_file env tt_data (ByIndex (Z.of_nat i)) s
  = tt_download_file env tt_data (ByName name) s.
Proof.
  intros Hfiles Hi Hname Hbefore.
  pose proof (find_named_at name files i f Hi Hname Hbefore) as Hfind.
  pose proof (lookup_lt_Some _ _ _ Hi) as Hlt.
  unfold tt_download_file, bind, lift, try_except, print, ret.
  rewrite (invalid_data_false _ _ Hfiles), Hfiles.
  cbn [Py.len res_bind next_named Py.iter Py.getitem_int].
  rewrite Hfind, Nat2Z.id, Hi, (getitem_truthy _ _ _ Hname).
  destruct (Z.ltb_spec (Z.of_nat i) 0); [lia|].
  destruct (Z.leb_spec (Z.of_nat (length files)) (Z.of_nat i)); [lia|].
  rewrite Hname. cbn [Py.lower].
  destruct (Py.getitem f "download_url") as [url|]; [|reflexivity].
  destruct (requests_get_value env url s) as [[[response|e] s1] l1];
    [|reflexivity].
  destruct (negb _); [reflexivity|].
  destruct (NamedTemporaryFile env _ s1) as [[[tmp_path|e] s2] l2];
    [|reflexivity].
  destruct (read_by_extension _ _ _) as [[df|e]|]; reflexivity.
Qed.

(** Whether a file can be saved does not depend on the letter case of
    its name. *)
Lemma temp_path_lower c name :
  (exists lowered original,
     temp_path env c (snd (Path.splitext (Str.lower name))) = Ok lowered
     /\ temp_path env c (snd (Path.splitext name)) = Ok original)
  \/ exists e,
       temp_path env c (snd (Path.splitext (Str.lower name))) = Raise e
       /\ temp_path env c (snd (Path.splitext name)) = Raise e.
Proof.
  unfold temp_path. rewrite LowerFacts.splitext_lower. cbn [snd].
  rewrite LowerFacts.contains_lower, LowerFacts.lower_idempotent
    by (unfold caseless; auto).
  destruct (Str.contains _ _); [right; eauto|].
  destruct (temp_file env c _) as [chosen|e]; cbn [res_bind];
    [left | right]; eauto.
Qed.

Lemma next_named_Some name files file_info :
  next_named name files = Ok (Some file_info) ->
  Py.getitem file_info "name" = Ok (VStr name)
  /\ Py.truthy file_info = true.
Proof.
  unfold next_named. destruct (Py.iter files) as [items|]; [|discriminate].
  cbn [res_bind]. intros [Hname _]%find_named_Some.
  split; [exact Hname | exact (getitem_truthy _ _ _ Hname)].
Qed.

(** X14.  [tt_download] with one name and [tt_download_file] with that name
    agree: when [tt_download_file] returns, [tt_download] ends in the
    same state after the same requests, and returns the table of
    [tt_download_file] under the stem of the name if the file was
    reported as loaded, and the empty mapping otherwise. *)
Theorem tt_download_of_one_name tt_data name s df s1 l1 :
  name <> "All" ->
  tt_download_file env tt_data (ByName name) s = (Ok df, s1, l1) ->
  exists l2,
    tt_download env tt_data (FilesStr name) s
    = (Ok (if reports_loaded l1
           then {[ fst (Path.splitext name) := df ]} else ∅),
       s1, l2)
    /\ requested l2 = requested l1.
Proof.
  intros Hall%String.eqb_neq.
  unfold tt_download_file, tt_download, bind, lift, try_except, print, ret.
  rewrite Hall.
  destruct (invalid_data tt_data) as [[|]|]; [| |discriminate].
  { intros [= <- <- <-]. eexists. split; reflexivity. }
  destruct (Py.getitem tt_data "files") as [files|].
  2:{ intros [= <- <- <-]. eexists. split; reflexivity. }
  cbn [select_loop]. unfold bind, lift, print, ret.
  destruct (next_named name files) as [[file_info|]|] eqn:Hnext.
  2,3: intros [= <- <- <-]; eexists; split; reflexivity.
  destruct (next_named_Some _ _ _ Hnext) as [Hname Htruthy].
  rewrite Htruthy. cbn [select_loop app download_loop].
  unfold download_one, bind, lift, print, ret. rewrite Hname.
  cbn [Py.lower Path.splitext_value fst].
  destruct (Py.getitem file_info "download_url") as [url|].
  2:{ intros [= <- <- <-]. eexists. split; reflexivity. }
  destruct url as [| | |u| |]; unfold requests_get_value, requests_get, raise;
    try (intros [= <- <- <-]; eexists; split; reflexivity).
  destruct (remote env (clock s) u) as [response|].
  2:{ intros [= <- <- <-]. eexists. split; reflexivity. }
  destruct (negb _).
  { intros [= <- <- <-]. eexists. split; reflexivity. }
  unfold NamedTemporaryFile. cbn [clock].
  destruct (temp_path_lower (S (clock s)) name)
    as [(lowered & original & -> & ->)|(e & -> & ->)].
  2:{ intros [= <- <- <-]. eexists. split; reflexivity. }
  destruct (read_by_extension _ _ _) as [[df'|e]|];
    intros [= <- <- <-]; eexists; split; reflexivity.
Qed.

End OneFile.

Lemma tt_download_file_index_out_of_range_witness :
  TidyTuesdayPy.tt_download_file (Sample.env 60) SampleData.metadata
    (ByIndex (-1)) Sample.start
  = (Ok empty_frame, Sample.start, [Print (FileIndexOutOfRange (-1))]).
Proof.
  apply (tt_download_file_index_out_of_range (Sample.env 60)
           SampleData.metadata SampleData.files (-1) Sample.start);
    [reflexivity | left; lia].
Defined.

Lemma tt_download_file_index_or_name_witness :
  TidyTuesdayPy.tt_download_file (Sample.env 60) SampleData.metadata
    (ByIndex 1) Sample.start
  = TidyTuesdayPy.tt_download_file (Sample.env 60) SampleData.metadata
      (ByName "data.tsv") Sample.start.
Proof.
  apply (tt_download_file_index_or_name (Sample.env 60) SampleData.metadata
           SampleData.files 1 (SampleData.file "data.tsv" "u:data.tsv")
           "data.tsv" Sample.start).
  - reflexivity.
  - reflexivity.
  - reflexivity.
  - repeat constructor. eexists. reflexivity.
Defined.

Lemma tt_download_of_one_name_witness :
  exists l2,
    TidyTuesdayPy.tt_download (Sample.env 60) SampleData.metadata
      (FilesStr "data.csv") Sample.start
    = (Ok (if reports_loaded
                [Print (Downloading (VStr "data.csv")); Request "u:data.csv";
                 Print (SuccessfullyLoaded (VStr "data.csv"))]
           then {[ fst (Path.splitext "data.csv") := Sample.table_ab ]}
           else ∅),
       mkstate 1 VNone, l2)
    /\ requested l2
       = requested
           [Print (Downloading (VStr "data.csv")); Request "u:data.csv";
            Print (SuccessfullyLoaded (VStr "data.csv"))].
Proof.
  apply (tt_download_of_one_name (Sample.env 60) SampleData.metadata
           "data.csv" Sample.start).
  - discriminate.
  - reflexivity.
Defined.

(** * Several files: [tt_download] *)
Section Downloads.
Import TidyTuesdayPy.
Context (env : Env).

Lemma matching_after pre f rest name :
  Forall (fun g => named name g = false) pre ->
  named name f = true ->
  matching (pre ++ f :: rest) name = Some f.
Proof.
  intros Hpre Hf. unfold matching.
  induction Hpre as [|g pre Hg _ IH]; cbn [app List.find].
  - rewrite Hf. reflexivity.
  - rewrite Hg. exact IH.
Qed.

Lemma named_other f name other :
  Py.getitem f "name" = Ok (VStr name) -> other <> name ->
  named other f = false.
Proof.
  intros Hname Hne. unfold named. rewrite Hname. cbn.
  apply String.eqb_neq. congruence.
Qed.

Lemma named_self f name :
  Py.getitem f "name" = Ok (VStr name) -> named name f = true.
Proof.
  intros Hname. unfold named. rewrite Hname. cbn. apply String.eqb_refl.
Qed.

(** Asked for the names of all files, each once and in order, the
    selection is the list of all files, and no name is unmatched. *)
Lemma selected_all files names :
  Forall2 (fun f name => Py.getitem f "name" = Ok (VStr name)) files names ->
  NoDup names ->
  forall pre,
    Forall (fun g => Forall (fun name => named name g = false) names) pre ->
    selected (pre ++ files) names = files
    /\ unmatched (pre ++ files) names = [].
Proof.
  induction 1 as [|f name files names Hf Hrest IH]; intros Hnodup pre Hpre.
  { split; reflexivity. }
  apply NoDup_cons in Hnodup as [Hfresh Hnodup].
  assert (Hmatch : matching (pre ++ f :: files) name = Some f).
  { apply matching_after; [|exact (named_self _ _ Hf)].
    eapply Forall_impl; [exact Hpre|]. intros g Hg.
    apply Forall_cons in Hg as [Hg _]. exact Hg. }
  destruct (IH Hnodup (pre ++ [f])) as [Hsel Hun].
  { apply Forall_app. split.
    - eapply Forall_impl; [exact Hpre|]. intros g Hg.
      apply Forall_cons in Hg as [_ Hg]. exact Hg.
    - constructor; [|constructor]. apply Forall_forall. intros other Hother.
      apply (named_other _ _ _ Hf). intros ->. contradiction. }
  rewrite <- app_assoc in Hsel, Hun. cbn [app] in Hsel, Hun.
  split.
  - rewrite selected_cons, Hmatch, Hsel. reflexivity.
  - unfold unmatched in *. cbn [List.filter]. rewrite Hmatch. exact Hun.
Qed.

(** X15.  The default ["All"] and the list of all names do the same: when
    the files of the metadata have distinct names, [tt_download] with
    the list of these names, in order, gives the result, the requests
    and the output of [tt_download] with ["All"]. *)
Theorem tt_download_all_by_name tt_data files names s :
  Py.getitem tt_data "files" = Ok (VList files) ->
  Forall2 (fun f name => Py.getitem f "name" = Ok (VStr name)) files names ->
  NoDup names ->
  tt_download env tt_data (FilesList names) s
  = tt_download env tt_data (FilesStr "All") s.
Proof.
  intros Hfiles Hnames Hnodup.
  assert (Hnamed : Forall has_name files).
  { clear -Hnames.
    induction Hnames; constructor; [eexists; eassumption | assumption]. }
  destruct (selected_all files names Hnames Hnodup []) as [Hsel Hun];
    [constructor|]. cbn [app] in Hsel, Hun.
  rewrite (tt_download_names env _ _ _ _ Hfiles Hnamed).
  rewrite (tt_download_everything env _ _ _ Hfiles).
  unfold warnings. rewrite Hsel, Hun. reflexivity.
Qed.

Lemma read_by_extension_supported file_name bytes read :
  read_by_extension env file_name bytes = Some read ->
  supported file_name = true.
Proof.
  unfold read_by_extension, supported.
  destruct (Str.endswith file_name ".csv"); [reflexivity|].
  destruct (Str.endswith file_name ".tsv"); [reflexivity|].
  destruct (Str.endswith file_name ".xls"); [reflexivity|].
  destruct (Str.endswith file_name ".xlsx"); [reflexivity|].
  destruct (Str.endswith file_name ".json"); [reflexivity | discriminate].
Qed.

(** One turn of the loop: the mapping is left as it is and no file is
    reported as loaded, or one file is reported and its table stored
    under its stem. *)
Lemma download_one_report file_info result s result' s' l :
  download_one env file_info result s = (Ok result', s', l) ->
  (result' = result /\ forall v, Print (SuccessfullyLoaded v) ∉ l)
  \/ exists name df,
       result' = <[fst (Path.splitext name) := df]> result
       /\ supported (Str.lower name) = true
       /\ forall v, Print (SuccessfullyLoaded v) ∈ l <-> v = VStr name.
Proof.
  unfold download_one, bind, lift, print, ret.
  destruct (Py.getitem file_info "name") as [file_name|]; [|discriminate].
  destruct (Py.getitem file_info "download_url") as [url|]; [|discriminate].
  destruct url as [| | |u| |]; unfold requests_get_value, requests_get, raise;
    try discriminate.
  destruct (remote env (clock s) u) as [response|]; [|discriminate].
  destruct (negb _).
  { intros [= <- <- <-]. left. split; [reflexivity|].
    intros v. cbn. rewrite !elem_of_cons, elem_of_nil.
    intros [H|[H|[H|[]]]]; discriminate H. }
  destruct file_name as [| | |name| |]; cbn [Path.splitext_value Py.lower];
    try discriminate.
  unfold NamedTemporaryFile. cbn [clock].
  destruct (temp_path env _ _) as [tmp_path|e]; [|discriminate].
  destruct (read_by_extension env (Str.lower name) (content response))
    as [[df|e]|] eqn:Hread.
  - intros [= <- <- <-]. right. exists name, df.
    split; [reflexivity|].
    split; [exact (read_by_extension_supported _ _ _ Hread)|].
    intros v. cbn. rewrite !elem_of_cons, elem_of_nil. split.
    + intros [H|[H|[H|[]]]]; try discriminate H. congruence.
    + intros ->. auto.
  - intros [= <- <- <-]. left. split; [reflexivity|].
    intros v. cbn. rewrite !elem_of_cons, elem_of_nil.
    intros [H|[H|[H|[]]]]; discriminate H.
  - intros [= <- <- <-]. left. split; [reflexivity|].
    intros v. cbn. rewrite !elem_of_cons, elem_of_nil.
    intros [H|[H|[H|[]]]]; discriminate H.
Qed.

Lemma download_loop_report files :
  forall result s result' s' l,
    download_loop env files result s = (Ok result', s', l) ->
    (forall key,
       is_Some (result' !! key) <->
       is_Some (result !! key)
       \/ exists name, Print (SuccessfullyLoaded (VStr name)) ∈ l
                       /\ key = fst (Path.splitext name))
    /\ (forall v, Print (SuccessfullyLoaded v) ∈ l ->
        exists name, v = VStr name /\ supported (Str.lower name) = true).
Proof.
  induction files as [|f rest IH]; intros result s result' s' l Hrun;
    cbn [download_loop] in Hrun.
  { injection Hrun as <- <- <-. split.
    - intros key. split; [auto|]. intros [H|(name & H & _)]; [exact H|].
      apply elem_of_nil in H. contradiction.
    - intros v H. apply elem_of_nil in H. contradiction. }
  apply bind_inv in Hrun as (r & s1 & la & lb & Hone & Hrest & ->).
  destruct (IH _ _ _ _ _ Hrest) as [Hkeys Hsupp].
  destruct (download_one_report _ _ _ _ _ _ Hone)
    as [[-> Hnone]|(name & df & -> & Hsupported & Hreport)].
  - split.
    + intros key. rewrite Hkeys. setoid_rewrite elem_of_app. split.
      * intros [H|(n & H & E)]; [auto|]. right. eauto.
      * intros [H|(n & [H|H] & E)]; [auto| |right; eauto].
        exfalso. exact (Hnone _ H).
    + intros v [H|H]%elem_of_app; [exfalso; exact (Hnone _ H)|auto].
  - split.
    + intros key. rewrite Hkeys. setoid_rewrite elem_of_app.
      rewrite lookup_insert_is_Some. split.
      * intros [[<-|[_ H]]|(n & H & E)]; [|auto|right; eauto].
        right. exists name. split; [left; apply Hreport|]; reflexivity.
      * intros [H|(n & [H|H] & E)].
        -- left. destruct (decide (fst (Path.splitext name) = key)); auto.
        -- apply Hreport in H. injection H as ->. left. left. auto.
        -- right. eauto.
    + intros v [H|H]%elem_of_app; [|auto].
      apply Hreport in H as ->. eauto.
Qed.

Lemma select_loop_log available_files files :
  forall acc s r s' l,
    select_loop available_files files acc s = (r, s', l) ->
    Forall (fun e => exists name, e = Print (WarningFileNotFound name)) l.
Proof.
  induction files as [|file_name rest IH]; intros acc s r s' l;
    cbn [select_loop].
  { intros [= _ _ <-]. constructor. }
  unfold bind at 1, lift at 1.
  destruct (next_named file_name available_files) as [[file_info|]|].
  - destruct (Py.truthy file_info).
    + destruct (select_loop _ _ _ s) as [[r2 s2] l2] eqn:Hrest.
      intros [= _ _ <-]. exact (IH _ _ _ _ _ Hrest).
    + unfold bind, print.
      destruct (select_loop _ _ _ s) as [[r2 s2] l2] eqn:Hrest.
      intros [= _ _ <-]. constructor; [eauto|]. exact (IH _ _ _ _ _ Hrest).
  - unfold bind, print.
    destruct (select_loop _ _ _ s) as [[r2 s2] l2] eqn:Hrest.
    intros [= _ _ <-]. constructor; [eauto|]. exact (IH _ _ _ _ _ Hrest).
  - intros [= _ _ <-]. constructor.
Qed.

(** X16.  The keys of the mapping [tt_download] returns and its output
    agree.  Every key is the stem of a file that was reported as
    successfully loaded, a file whose lower-cased name ends in one of
    the five extensions; and unless the call gave up with "Error
    downloading files", the stem of every file reported as loaded is
    a key. *)
Theorem tt_download_keys tt_data files s result s' l :
  tt_download env tt_data files s = (Ok result, s', l) ->
  (forall key,
     is_Some (result !! key) ->
     exists name,
       Print (SuccessfullyLoaded (VStr name)) ∈ l
       /\ key = fst (Path.splitext name)
       /\ supported (Str.lower name) = true)
  /\ ((forall e, Print (ErrorDownloadingFiles e) ∉ l) ->
      forall name,
        Print (SuccessfullyLoaded (VStr name)) ∈ l ->
        is_Some (result !! fst (Path.splitext name))).
Proof.
  unfold tt_download. intros Hrun.
  apply bind_inv in Hrun as (invalid & s0 & l0 & l' & Hinv & Hrun & ->).
  unfold lift in Hinv. injection Hinv as Hinv <- <-. cbn [app].
  destruct invalid.
  { unfold bind, print, ret in Hrun. injection Hrun as <- <- <-. split.
    - intros key H. rewrite lookup_empty in H. destruct H as [? [=]].
    - intros _ name H. apply list_elem_of_singleton in H. discriminate H. }
  apply try_except_inv in Hrun
    as [Hok|(e & s1 & l1 & l2 & Hraise & Hh & ->)].
  - apply bind_inv in Hok as (available & sa & la & lb & Ha & Hok & ->).
    unfold lift in Ha. injection Ha as Ha <- <-. cbn [app].
    apply bind_inv in Hok as (todo & sb & lc & ld & Hsel & Hloop & ->).
    assert (Hquiet : forall v, Print (SuccessfullyLoaded v) ∉ lc).
    { assert (Hlog : Forall (fun e => exists name,
                                 e = Print (WarningFileNotFound name)) lc).
      { destruct files as [sel|names].
        - destruct (String.eqb sel "All").
          + unfold lift in Hsel. injection Hsel as _ _ <-. constructor.
          + exact (select_loop_log _ _ _ _ _ _ _ Hsel).
        - exact (select_loop_log _ _ _ _ _ _ _ Hsel). }
      intros v Hin. rewrite Forall_forall in Hlog.
      destruct (Hlog _ Hin) as [name [=]]. }
    destruct (download_loop_report _ _ _ _ _ _ Hloop) as [Hkeys Hsupp].
    split.
    + intros key Hkey. apply Hkeys in Hkey as [Hkey|(name & Hin & ->)].
      { rewrite lookup_empty in Hkey. destruct Hkey as [? [=]]. }
      destruct (Hsupp _ Hin) as (n & [= <-] & Hs).
      exists name. split; [apply elem_of_app; auto | auto].
    + intros _ name [Hin|Hin]%elem_of_app; [exfalso; exact (Hquiet _ Hin)|].
      apply Hkeys. right. eauto.
  - unfold bind, print, ret in Hh. injection Hh as <- <- <-. split.
    + intros key H. rewrite lookup_empty in H. destruct H as [? [=]].
    + intros Hnone. exfalso. apply (Hnone e).
      apply elem_of_app. right. apply list_elem_of_singleton. reflexivity.
Qed.

(** One turn of the loop on a file entry with a name and an address
    makes one request, for that address, whether it returns or
    raises. *)
Lemma download_one_requests file_info result s url :
  downloadable file_info url ->
  exists r l,
    download_one env file_info result s
    = (r, mkstate (S (clock s)) (rate_limit_remaining s), l)
    /\ requested l = [url].
Proof.
  intros [[name Hname] Hurl].
  unfold download_one, bind, lift, print, ret. rewrite Hname, Hurl.
  unfold requests_get_value, requests_get.
  destruct (remote env (clock s) url) as [response|];
    [|eexists _, _; split; reflexivity].
  destruct (negb _); [eexists _, _; split; reflexivity|].
  cbn [Path.splitext_value Py.lower]. unfold NamedTemporaryFile. cbn [clock].
  destruct (temp_path env _ _) as [tmp_path|e];
    [|eexists _, _; split; reflexivity].
  destruct (read_by_extension _ _ _) as [[df|e]|];
    eexists _, _; split; reflexivity.
Qed.

(** When the request is answered and the file can be saved, the turn
    returns. *)
Lemma download_one_fetches file_info result s url :
  downloadable file_info url ->
  remote env (clock s) url <> None ->
  savable env file_info ->
  exists result' l,
    download_one env file_info result s
    = (Ok result', mkstate (S (clock s)) (rate_limit_remaining s), l)
    /\ requested l = [url].
Proof.
  intros [[name Hname] Hurl] Hremote Hsavable.
  pose proof (Hsavable (S (clock s)) name Hname) as Hsaved.
  unfold download_one, bind, lift, print, ret. rewrite Hname, Hurl.
  unfold requests_get_value, requests_get.
  destruct (remote env (clock s) url) as [response|]; [|contradiction].
  destruct (negb _); [eexists _, _; split; reflexivity|].
  cbn [Path.splitext_value Py.lower]. unfold NamedTemporaryFile. cbn [clock].
  destruct (temp_path env _ _) as [tmp_path|e]; [|discriminate].
  destruct (read_by_extension _ _ _) as [[df|e]|];
    eexists _, _; split; reflexivity.
Qed.

Lemma download_loop_requests files urls :
  Forall2 downloadable files urls ->
  forall result s,
    exists r s' l,
      download_loop env files result s = (r, s', l)
      /\ requested l `prefix_of` urls.
Proof.
  induction 1 as [|f url files urls Hf _ IH]; intros result s.
  - eexists _, _, _. split; [reflexivity|]. exists []. reflexivity.
  - destruct (download_one_requests f result s url Hf)
      as (r1 & l1 & Hone & Hreq1).
    cbn [download_loop]. unfold bind. rewrite Hone.
    destruct r1 as [result1|e].
    + destruct (IH result1 (mkstate (S (clock s)) (rate_limit_remaining s)))
        as (r2 & s2 & l2 & Hrest & Hreq2).
      rewrite Hrest. eexists _, _, _. split; [reflexivity|].
      unfold requested in *. rewrite omap_app, Hreq1.
      apply (prefix_cons url), Hreq2.
    + eexists _, _, _. split; [reflexivity|].
      rewrite Hreq1. exists urls. reflexivity.
Qed.

Lemma download_loop_fetches files urls :
  Forall2 downloadable files urls ->
  (forall n url, remote env n url <> None) ->
  Forall (savable env) files ->
  forall result s,
    exists result' l,
      download_loop env files result s
      = (Ok result',
         mkstate (clock s + length urls) (rate_limit_remaining s), l)
      /\ requested l = urls.
Proof.
  intros Hfiles Hremote.
  induction Hfiles as [|f url files urls Hf _ IH]; intros Hsavable result s.
  - exists result, []. cbn. rewrite Nat.add_0_r. destruct s. split; reflexivity.
  - apply Forall_cons in Hsavable as [Hsaved Hsavable].
    destruct (download_one_fetches f result s url Hf (Hremote _ _) Hsaved)
      as (r1 & l1 & Hone & Hreq1).
    destruct (IH Hsavable r1 (mkstate (S (clock s)) (rate_limit_remaining s)))
      as (r2 & l2 & Hrest & Hreq2).
    exists r2, (l1 ++ l2). cbn [download_loop]. split.
    + erewrite bind_Ok by exact Hone. rewrite Hrest.
      unfold result_of, state_of, log_of. cbn [fst snd clock length].
      do 3 f_equal. lia.
    + unfold requested in *. rewrite omap_app, Hreq1, Hreq2. reflexivity.
Qed.

(** X17.  With ["All"], the files of the metadata are requested in the
    order of the metadata, each once, whatever their extensions and
    whatever the answers are.  On metadata whose files have a name and
    an address, [tt_download] returns, and the addresses it has
    requested are the first of the addresses of the files: it stops
    early only by giving up.  When no request fails and every file can
    be saved, it returns after requesting exactly the addresses of
    the files. *)
Theorem tt_download_fetches_every_file tt_data files urls s :
  Py.getitem tt_data "files" = Ok (VList files) ->
  Forall2 downloadable files urls ->
  (exists result s' l,
     tt_download env tt_data (FilesStr "All") s = (Ok result, s', l)
     /\ requested l `prefix_of` urls)
  /\ ((forall n url, remote env n url <> None) ->
      Forall (savable env) files ->
      exists result l,
        tt_download env tt_data (FilesStr "All") s
        = (Ok result,
           mkstate (clock s + length urls) (rate_limit_remaining s), l)
        /\ requested l = urls).
Proof.
  intros Hfiles Hurls. rewrite (tt_download_everything env _ _ _ Hfiles).
  unfold try_except. split.
  - destruct (download_loop_requests files urls Hurls ∅ s)
      as ([result|e] & s1 & l1 & Hloop & Hreq); rewrite Hloop.
    + eexists _, _, _. split; [reflexivity | exact Hreq].
    + eexists _, _, _. split; [reflexivity|]. cbn.
      unfold requested in *. rewrite omap_app. cbn. rewrite app_nil_r.
      exact Hreq.
  - intros Hremote Hsavable.
    destruct (download_loop_fetches files urls Hurls Hremote Hsavable ∅ s)
      as (result & l & Hloop & Hreq).
    exists result, l. split; [|exact Hreq]. rewrite Hloop. reflexivity.
Qed.

End Downloads.

Lemma tt_download_all_by_name_witness :
  TidyTuesdayPy.tt_download (Sample.env 60) SampleData.metadata
    (FilesList ["data.csv"; "data.tsv"; "notes.xyz"; "date.CSV"]) Sample.start
  = TidyTuesdayPy.tt_download (Sample.env 60) SampleData.metadata
      (FilesStr "All") Sample.start.
Proof.
  apply (tt_download_all_by_name (Sample.env 60) SampleData.metadata
           SampleData.files).
  - reflexivity.
  - repeat constructor.
  - apply (bool_decide_unpack _). vm_compute. exact I.
Defined.

Lemma tt_download_keys_witness :
  (forall key,
     is_Some (({[ "data" := SampleData.table_xy ]} : gmap string DataFrame)
              !! key) ->
     exists name,
       Print (SuccessfullyLoaded (VStr name))
       ∈ [Print (Downloading (VStr "data.tsv")); Request "u:data.tsv";
          Print (SuccessfullyLoaded (VStr "data.tsv"))]
       /\ key = fst (Path.splitext name)
       /\ supported (Str.lower name) = true)
  /\ ((forall e,
         Print (ErrorDownloadingFiles e)
         ∉ [Print (Downloading (VStr "data.tsv")); Request "u:data.tsv";
            Print (SuccessfullyLoaded (VStr "data.tsv"))]) ->
      forall name,
        Print (SuccessfullyLoaded (VStr name))
        ∈ [Print (Downloading (VStr "data.tsv")); Request "u:data.tsv";
           Print (SuccessfullyLoaded (VStr "data.tsv"))] ->
        is_Some (({[ "data" := SampleData.table_xy ]} : gmap string DataFrame)
                 !! fst (Path.splitext name))).
Proof.
  apply (tt_download_keys (Sample.env 60) SampleData.metadata
           (FilesList ["data.tsv"]) Sample.start _ (mkstate 1 VNone)).
  vm_compute. reflexivity.
Defined.

Lemma sample_remote_answers n url : remote (Sample.env 60) n url <> None.
Proof.
  cbn. unfold Sample.repository.
  repeat match goal with
         | |- context [if ?b then _ else _] => destruct b
         end; discriminate.
Qed.

Lemma tt_download_fetches_every_file_witness :
  (exists result s' l,
     TidyTuesdayPy.tt_download (Sample.env 60) SampleData.metadata
       (FilesStr "All") Sample.start
     = (Ok result, s', l)
     /\ requested l
        `prefix_of` ["u:data.csv"; "u:data.tsv"; "u:notes.xyz"; "u:date.csv"])
  /\ exists result l,
       TidyTuesdayPy.tt_download (Sample.env 60) SampleData.metadata
         (FilesStr "All") Sample.start
       = (Ok result, mkstate 4 VNone, l)
       /\ requested l
          = ["u:data.csv"; "u:data.tsv"; "u:notes.xyz"; "u:date.csv"].
Proof.
  destruct (tt_download_fetches_every_file (Sample.env 60)
              SampleData.metadata SampleData.files
              ["u:data.csv"; "u:data.tsv"; "u:notes.xyz"; "u:date.csv"]
              Sample.start) as [Hprefix Hall].
  - reflexivity.
  - repeat constructor; eexists; reflexivity.
  - split; [exact Hprefix|]. apply Hall.
    + exact sample_remote_answers.
    + repeat constructor; intros c name [= <-]; reflexivity.
Defined.

(** * The rendering of a README *)
Module MarkdownFacts.
Import Str StrFacts Markdown.

(** Every piece of a split is made of characters of the string. *)
Lemma split_go_absent sep c s :
  forall cur,
    contains s (String c "") = false ->
    contains cur (String c "") = false ->
    Forall (fun piece => contains piece (String c "") = false)
      (split_go sep s cur).
Proof.
  induction s as [|a s IH]; intros cur Hs Hcur; cbn [split_go].
  - constructor; [|constructor]. rewrite contains_rev. exact Hcur.
  - rewrite contains_cons in Hs. apply orb_false_iff in Hs as [Ha Hs].
    destruct (Ascii.eqb a sep).
    + constructor; [rewrite contains_rev; exact Hcur|].
      apply IH; [exact Hs | reflexivity].
    + apply IH; [exact Hs|]. rewrite contains_cons, Ha, Hcur. reflexivity.
Qed.

Lemma split_go_nonempty sep s cur : split_go sep s cur <> [].
Proof.
  revert cur. induction s as [|a s IH]; intros cur; cbn [split_go];
    [discriminate|]. destruct (Ascii.eqb a sep); [discriminate | apply IH].
Qed.

Lemma join_cons sep x rest :
  rest <> [] -> join sep (x :: rest) = x +:+ sep +:+ join sep rest.
Proof. destruct rest; [contradiction | reflexivity]. Qed.

(** Splitting at a character and joining with it gives the string
    back. *)
Lemma join_split_go sep s :
  forall cur,
    join (String sep "") (split_go sep s cur) = String.rev cur +:+ s.
Proof.
  induction s as [|a s IH]; intros cur; cbn [split_go].
  - cbn [join]. rewrite app_nil_r. reflexivity.
  - destruct (Ascii.eqb_spec a sep) as [->|Hne].
    + rewrite join_cons by apply split_go_nonempty. rewrite IH. reflexivity.
    + rewrite IH, rev_cons, app_assoc. reflexivity.
Qed.

Lemma join_split sep s : join (String sep "") (split sep s) = s.
Proof. unfold split. rewrite join_split_go. reflexivity. Qed.

(** The first line of a text, split off. *)
Lemma split_go_line sep line rest :
  contains line (String sep "") = false ->
  forall cur,
    split_go sep (line +:+ String sep rest) cur
    = (String.rev cur +:+ line) :: split_go sep rest "".
Proof.
  induction line as [|a line IH]; intros Hline cur.
  - rewrite app_nil_l, app_nil_r. cbn [split_go]. rewrite Ascii.eqb_refl.
    reflexivity.
  - rewrite contains_cons in Hline. apply orb_false_iff in Hline as [Ha Hline].
    rewrite app_cons. cbn [split_go]. rewrite Ascii.eqb_sym, Ha.
    rewrite (IH Hline), rev_cons, app_assoc. reflexivity.
Qed.

Lemma headings_line marker tag line rest :
  contains line line_feed = false ->
  headings marker tag (line +:+ line_feed +:+ rest)
  = heading_line marker tag line +:+ line_feed +:+ headings marker tag rest.
Proof.
  intros Hline. unfold headings, split, line_feed.
  rewrite app_cons, app_nil_l, (split_go_line _ _ _ Hline). cbn [map].
  rewrite join_cons; [reflexivity|].
  intros H. apply map_eq_nil in H. exact (split_go_nonempty _ _ _ H).
Qed.

(** A text in which the first character of the marker does not occur
    has no heading. *)
Lemma headings_absent c marker tag s :
  contains s (String c "") = false ->
  headings (String c marker) tag s = s.
Proof.
  intros Hs. unfold headings.
  rewrite <- (join_split "010" s) at 2. f_equal.
  pose proof (split_go_absent "010" c s "" Hs eq_refl) as Hpieces.
  fold (split "010" s) in Hpieces.
  induction Hpieces as [|piece pieces Hpiece _ IH]; [reflexivity|].
  cbn [map]. rewrite IH. f_equal.
  unfold heading_line. rewrite (startswith_absent _ _ _ Hpiece). reflexivity.
Qed.

Lemma links_absent fuel :
  forall s, contains s "[" = false -> links fuel s = s.
Proof.
  induction fuel as [|fuel IH]; intros s Hs; [reflexivity|].
  destruct s as [|c s]; [reflexivity|]. cbn [links].
  rewrite contains_cons in Hs. apply orb_false_iff in Hs as [Hc Hs].
  rewrite Ascii.eqb_sym, Hc, (IH s Hs). reflexivity.
Qed.

Lemma code_blocks_absent fuel :
  forall s, contains s "`" = false -> code_blocks fuel s = s.
Proof.
  induction fuel as [|fuel IH]; intros s Hs; [reflexivity|].
  destruct s as [|c s]; [reflexivity|]. cbn [code_blocks].
  rewrite (startswith_absent _ _ _ Hs).
  rewrite contains_cons in Hs. apply orb_false_iff in Hs as [Hc Hs].
  rewrite (IH s Hs). reflexivity.
Qed.

Lemma is_newline_eqb c : is_newline c = Ascii.eqb "010" c.
Proof.
  unfold is_newline, code.
  destruct (Ascii.eqb_spec "010" c) as [<-|Hne]; [reflexivity|].
  apply Nat.eqb_neq. intros H. apply Hne.
  rewrite <- (ascii_nat_embedding c), H. reflexivity.
Qed.

Lemma line_breaks_app s t :
  line_breaks (s +:+ t) = line_breaks s +:+ line_breaks t.
Proof.
  induction s as [|c s IH]; [reflexivity|].
  rewrite app_cons. cbn [line_breaks]. rewrite IH.
  destruct (is_newline c); [rewrite app_assoc|]; reflexivity.
Qed.

Lemma line_breaks_one_line s :
  contains s line_feed = false -> line_breaks s = s.
Proof.
  unfold line_feed. induction s as [|c s IH]; intros Hs; [reflexivity|].
  rewrite contains_cons in Hs. apply orb_false_iff in Hs as [Hc Hs].
  cbn [line_breaks]. rewrite is_newline_eqb, Hc, (IH Hs). reflexivity.
Qed.

(** No line feed is left by [replace]. *)
Lemma line_breaks_no_line_feed s :
  contains (line_breaks s) line_feed = false.
Proof.
  unfold line_feed. induction s as [|c s IH]; [reflexivity|].
  cbn [line_breaks]. rewrite is_newline_eqb.
  destruct (Ascii.eqb "010" c) eqn:Hc.
  - rewrite contains_app, IH. reflexivity.
  - rewrite contains_cons, Hc, IH. reflexivity.
Qed.

Lemma plain_inv s :
  plain s = true ->
  contains s "#" = false /\ contains s "[" = false /\ contains s "`" = false.
Proof.
  unfold plain. intros [[H1 H2]%andb_true_iff H3]%andb_true_iff.
  repeat split; apply negb_true_iff; assumption.
Qed.

End MarkdownFacts.


Module MarkdownLines.
Import Str StrFacts Markdown MarkdownFacts.

Lemma plain_app s t : plain (s +:+ t) = plain s && plain t.
Proof.
  unfold plain. rewrite !contains_app.
  destruct (contains s "#"), (contains s "["), (contains s "`"),
    (contains t "#"), (contains t "["), (contains t "`"); reflexivity.
Qed.

Lemma one_line_app s t : one_line (s +:+ t) = one_line s && one_line t.
Proof.
  unfold one_line, line_feed. rewrite contains_app.
  destruct (contains s _), (contains t _); reflexivity.
Qed.

Lemma one_line_inv s : one_line s = true -> contains s line_feed = false.
Proof. unfold one_line. apply negb_true_iff. Qed.

(** The substitutions applied to a text made of a first line without
    link or code fence and of text without markup; [l1], [l2] and [l3]
    are the first line after each of the three heading passes. *)
Lemma render_first_line line l1 l2 l3 rest :
  heading_line "# " "h1" line = l1 ->
  heading_line "## " "h2" l1 = l2 ->
  heading_line "### " "h3" l2 = l3 ->
  one_line line = true -> one_line l1 = true -> one_line l2 = true ->
  one_line l3 = true ->
  contains l3 "[" = false -> contains l3 "`" = false ->
  plain rest = true ->
  TidyTuesdayPy._markdown_to_html (line +:+ line_feed +:+ rest)
  = document_head +:+ (l3 +:+ "<br>" +:+ line_breaks rest) +:+ document_foot.
Proof.
  intros E1 E2 E3 H0%one_line_inv H1%one_line_inv H2%one_line_inv
    H3%one_line_inv Hlink Hcode (Hhash & Hlink' & Hcode')%plain_inv.
  unfold TidyTuesdayPy._markdown_to_html.
  rewrite (headings_line _ _ _ _ H0), (headings_absent "#" _ _ _ Hhash), E1.
  rewrite (headings_line _ _ _ _ H1), (headings_absent "#" _ _ _ Hhash), E2.
  rewrite (headings_line _ _ _ _ H2), (headings_absent "#" _ _ _ Hhash), E3.
  rewrite links_absent
    by (unfold line_feed; rewrite !contains_app, Hlink, Hlink'; reflexivity).
  rewrite code_blocks_absent
    by (unfold line_feed; rewrite !contains_app, Hcode, Hcode'; reflexivity).
  rewrite !line_breaks_app, (line_breaks_one_line _ H3). reflexivity.
Qed.

Lemma startswith_nil s : startswith s "" = true.
Proof. destruct s; reflexivity. Qed.

(** A line that starts with the marker is put between the tags. *)
Lemma heading_line_marker marker tag text :
  heading_line marker tag (marker +:+ text)
  = "<" +:+ tag +:+ ">" +:+ text +:+ "</" +:+ tag +:+ ">".
Proof.
  unfold heading_line.
  assert (H : startswith (marker +:+ text) marker = true
              /\ drop (String.length marker) (marker +:+ text) = text).
  { induction marker as [|c marker [IH1 IH2]].
    - split; [apply startswith_nil | destruct text; reflexivity].
    - rewrite app_cons. cbn [startswith String.length drop].
      rewrite Ascii.eqb_refl, IH1, IH2. split; reflexivity. }
  destruct H as [-> ->]. reflexivity.
Qed.

Lemma link_text_found text after :
  contains text "]" = false -> contains text line_feed = false ->
  link_text (text +:+ "](" +:+ after) = Some (text, after).
Proof.
  unfold line_feed. induction text as [|c text IH]; intros Hclose Hline.
  - reflexivity.
  - rewrite contains_cons in Hclose, Hline.
    apply orb_false_iff in Hclose as [Hc Hclose].
    apply orb_false_iff in Hline as [Hn Hline].
    rewrite app_cons. cbn [link_text].
    rewrite is_newline_eqb, Hn, Ascii.eqb_sym, Hc, (IH Hclose Hline).
    reflexivity.
Qed.

Lemma link_target_found target after :
  contains target ")" = false -> contains target line_feed = false ->
  link_target (target +:+ ")" +:+ after) = Some (target, after).
Proof.
  unfold line_feed. induction target as [|c target IH]; intros Hclose Hline.
  - reflexivity.
  - rewrite contains_cons in Hclose, Hline.
    apply orb_false_iff in Hclose as [Hc Hclose].
    apply orb_false_iff in Hline as [Hn Hline].
    rewrite app_cons. cbn [link_target].
    rewrite is_newline_eqb, Hn, Ascii.eqb_sym, Hc, (IH Hclose Hline).
    reflexivity.
Qed.

End MarkdownLines.

Section Rendering.
Import Str StrFacts Markdown MarkdownFacts MarkdownLines TidyTuesdayPy.

(** X18.  Text without markup is passed on as it is: when the README holds
    none of the characters that start a heading, a link or a code
    fence, its rendering is the README itself, with [<br>] for every
    line feed, inside the document frame.  Nothing is escaped: the
    characters [<], [>] and [&] of the README are characters of the
    page. *)
Theorem markdown_plain_text markdown :
  plain markdown = true ->
  _markdown_to_html markdown
  = document_head +:+ line_breaks markdown +:+ document_foot.
Proof.
  intros (Hhash & Hlink & Hcode)%plain_inv. unfold _markdown_to_html.
  rewrite !(headings_absent "#" _ _ _ Hhash).
  rewrite (links_absent _ _ Hlink), (code_blocks_absent _ _ Hcode).
  reflexivity.
Qed.

(** X19.  The rendered README is one line: between the head and the foot of
    the document no line feed is left, each one, also inside a code
    block, having become [<br>]. *)
Theorem markdown_body_is_one_line markdown :
  exists body,
    _markdown_to_html markdown = document_head +:+ body +:+ document_foot
    /\ one_line body = true.
Proof.
  unfold _markdown_to_html. eexists. split; [reflexivity|].
  unfold one_line. rewrite line_breaks_no_line_feed. reflexivity.
Qed.

(** X20.  A first line that starts with one, two or three [#] and a space
    becomes a heading of that level: the rest of the line, itself
    without markup, between the tags, followed by [<br>] and the rest
    of the text. *)
Theorem markdown_heading title rest :
  plain title = true -> one_line title = true -> plain rest = true ->
  _markdown_to_html ("# " +:+ title +:+ line_feed +:+ rest)
  = document_head +:+ "<h1>" +:+ title +:+ "</h1><br>" +:+ line_breaks rest
    +:+ document_foot
  /\ _markdown_to_html ("## " +:+ title +:+ line_feed +:+ rest)
     = document_head +:+ "<h2>" +:+ title +:+ "</h2><br>" +:+ line_breaks rest
       +:+ document_foot
  /\ _markdown_to_html ("### " +:+ title +:+ line_feed +:+ rest)
     = document_head +:+ "<h3>" +:+ title +:+ "</h3><br>" +:+ line_breaks rest
       +:+ document_foot.
Proof.
  intros Hplain Hline Hrest.
  pose proof Hplain as (Hhash & Hlink & Hcode)%plain_inv.
  split; [|split].
  - rewrite <- (app_assoc "# " title).
    rewrite (render_first_line ("# " +:+ title) ("<h1>" +:+ title +:+ "</h1>")
               ("<h1>" +:+ title +:+ "</h1>") ("<h1>" +:+ title +:+ "</h1>")
               rest);
      try reflexivity; try assumption; try apply heading_line_marker;
      rewrite ?one_line_app, ?contains_app, ?Hline, ?Hlink, ?Hcode;
      try reflexivity.
    rewrite !app_assoc. reflexivity.
  - rewrite <- (app_assoc "## " title).
    rewrite (render_first_line ("## " +:+ title) ("## " +:+ title)
               ("<h2>" +:+ title +:+ "</h2>") ("<h2>" +:+ title +:+ "</h2>")
               rest);
      try reflexivity; try assumption; try apply heading_line_marker;
      rewrite ?one_line_app, ?contains_app, ?Hline, ?Hlink, ?Hcode;
      try reflexivity.
    rewrite !app_assoc. reflexivity.
  - rewrite <- (app_assoc "### " title).
    rewrite (render_first_line ("### " +:+ title) ("### " +:+ title)
               ("### " +:+ title) ("<h3>" +:+ title +:+ "</h3>") rest);
      try reflexivity; try assumption; try apply heading_line_marker;
      rewrite ?one_line_app, ?contains_app, ?Hline, ?Hlink, ?Hcode;
      try reflexivity.
    rewrite !app_assoc. reflexivity.
Qed.

(** X21.  A link [[text](target)] at the start of the text becomes an
    anchor: the target, up to the first closing parenthesis, is put
    between double quotes as it is, and the text between the tags. *)
Theorem markdown_link text target rest :
  plain text = true -> one_line text = true -> contains text "]" = false ->
  plain target = true -> one_line target = true ->
  contains target ")" = false ->
  plain rest = true ->
  _markdown_to_html ("[" +:+ text +:+ "](" +:+ target +:+ ")" +:+ rest)
  = document_head
    +:+ "<a href=" +:+ quote +:+ target +:+ quote +:+ ">" +:+ text +:+ "</a>"
    +:+ line_breaks rest +:+ document_foot.
Proof.
  intros (Hhash1 & Hlink1 & Hcode1)%plain_inv Hline1%one_line_inv Hclose1
    (Hhash2 & Hlink2 & Hcode2)%plain_inv Hline2%one_line_inv Hclose2
    (Hhash3 & Hlink3 & Hcode3)%plain_inv.
  assert (Hhash : contains ("[" +:+ text +:+ "](" +:+ target +:+ ")" +:+ rest)
                     "#" = false)
    by (rewrite !contains_app, Hhash1, Hhash2, Hhash3; reflexivity).
  unfold _markdown_to_html.
  rewrite !(headings_absent "#" _ _ _ Hhash).
  rewrite app_cons, app_nil_l. cbn [String.length links].
  change (Ascii.eqb "[" "[") with true. cbv iota.
  rewrite (link_text_found _ _ Hclose1 Hline1).
  rewrite (link_target_found _ _ Hclose2 Hline2).
  rewrite (links_absent _ _ Hlink3).
  rewrite code_blocks_absent
    by (unfold quote; rewrite !contains_app, Hcode1, Hcode2, Hcode3;
        reflexivity).
  rewrite !line_breaks_app.
  rewrite (line_breaks_one_line _ Hline1), (line_breaks_one_line _ Hline2).
  rewrite (line_breaks_one_line "<a href=" eq_refl),
    (line_breaks_one_line quote eq_refl), (line_breaks_one_line ">" eq_refl),
    (line_breaks_one_line "</a>" eq_refl).
  rewrite !app_assoc. reflexivity.
Qed.

End Rendering.


Lemma markdown_plain_text_witness :
  TidyTuesdayPy._markdown_to_html "a <b> & c
d"
  = Markdown.document_head +:+ "a <b> & c<br>d" +:+ Markdown.document_foot.
Proof.
  apply (markdown_plain_text "a <b> & c
d").
  reflexivity.
Defined.

Lemma markdown_heading_witness :
  TidyTuesdayPy._markdown_to_html
    ("# " +:+ "Transit Costs" +:+ line_feed +:+ "by week")
  = Markdown.document_head +:+ "<h1>" +:+ "Transit Costs" +:+ "</h1><br>"
    +:+ Markdown.line_breaks "by week" +:+ Markdown.document_foot
  /\ TidyTuesdayPy._markdown_to_html
       ("## " +:+ "Transit Costs" +:+ line_feed +:+ "by week")
     = Markdown.document_head +:+ "<h2>" +:+ "Transit Costs" +:+ "</h2><br>"
       +:+ Markdown.line_breaks "by week" +:+ Markdown.document_foot
  /\ TidyTuesdayPy._markdown_to_html
       ("### " +:+ "Transit Costs" +:+ line_feed +:+ "by week")
     = Markdown.document_head +:+ "<h3>" +:+ "Transit Costs" +:+ "</h3><br>"
       +:+ Markdown.line_breaks "by week" +:+ Markdown.document_foot.
Proof.
  apply (markdown_heading "Transit Costs" "by week"); reflexivity.
Defined.

Lemma markdown_link_witness :
  TidyTuesdayPy._markdown_to_html
    ("[" +:+ "the data" +:+ "](" +:+ "https://example.org/x.csv" +:+ ")"
     +:+ " of the week")
  = Markdown.document_head
    +:+ "<a href=" +:+ Markdown.quote +:+ "https://example.org/x.csv"
    +:+ Markdown.quote +:+ ">" +:+ "the data" +:+ "</a>"
    +:+ Markdown.line_breaks " of the week" +:+ Markdown.document_foot.
Proof.
  apply (markdown_link "the data" "https://example.org/x.csv" " of the week");
    reflexivity.
Defined.

(** * Showing the README: [readme] *)
Section Readme.
Import TidyTuesdayPy.
Context (env : Env).

Lemma init_run s :
  exists v,
    __init__ env s
    = (Ok tt, mkstate (S (clock s)) v, [Request RATE_LIMIT_URL]).
Proof.
  unfold __init__, bind, set_rate_limit_remaining.
  destruct (_update_rate_limit_run env (mkstate (clock s) VNone)) as [v Hrun].
  rewrite Hrun. exists v. reflexivity.
Qed.

(** The module-level [readme] is the method after one probe of the
    rate limit. *)
Lemma readme_function tt_data s :
  exists v,
    readme env tt_data s
    = (fst (Display.readme env tt_data (mkstate (S (clock s)) v)),
       mkstate (S (clock s)) v,
       Remote (Request RATE_LIMIT_URL)
         :: map Local (snd (Display.readme env tt_data
                              (mkstate (S (clock s)) v)))).
Proof.
  destruct (init_run s) as [v Hinit]. exists v.
  unfold readme. rewrite Hinit.
  destruct (Display.readme env tt_data _) as [r actions]. reflexivity.
Qed.

(** X22.  [readme] shows what [tt_load_gh] has fetched.  Handed the empty
    dictionary that [tt_load_gh] returns for a week it could not
    fetch, it says that there is no README and does nothing else.
    Handed the metadata of a week, it asks for a temporary [.html]
    file; when the local machine creates the file and takes the text,
    it writes the rendering of the [readme_content] of the dictionary
    to it, opens that file in the browser and says so, and the
    module-level function does the same after one request to the
    rate-limit endpoint.  When the file cannot be created, or the
    rendering cannot be written in the encoding of the locale, [readme]
    raises that error, having opened nothing. *)
Theorem readme_shows_rendering date_or_year week s tt_data s' l s0 :
  tt_load_gh env date_or_year week s = (Ok tt_data, s', l) ->
  (tt_data = VDict []
   /\ Display.readme env tt_data s0
      = (Ok tt, [Display.Say "No README available for this dataset."]))
  \/ exists readme_content,
       Py.getitem tt_data "readme_content" = Ok (VStr readme_content)
       /\ (forall tmp_path,
             temp_path env (clock s0) ".html" = Ok tmp_path ->
             write_text env (_markdown_to_html readme_content) = Ok tt ->
             Display.readme env tt_data s0
             = (Ok tt,
                [Display.CreateTemp ".html";
                 Display.WriteTemp (_markdown_to_html readme_content);
                 Display.OpenBrowser ("file://" +:+ tmp_path);
                 Display.Say "README opened in your browser."]))
       /\ (forall tmp_path,
             temp_path env (S (clock s0)) ".html" = Ok tmp_path ->
             write_text env (_markdown_to_html readme_content) = Ok tt ->
             exists v,
               readme env tt_data s0
               = (Ok tt, mkstate (S (clock s0)) v,
                  [Remote (Request RATE_LIMIT_URL);
                   Local (Display.CreateTemp ".html");
                   Local (Display.WriteTemp
                            (_markdown_to_html readme_content));
                   Local (Display.OpenBrowser ("file://" +:+ tmp_path));
                   Local (Display.Say "README opened in your browser.")]))
       /\ (forall e,
             temp_path env (clock s0) ".html" = Raise e ->
             Display.readme env tt_data s0 = (Raise e, []))
       /\ (forall tmp_path e,
             temp_path env (clock s0) ".html" = Ok tmp_path ->
             write_text env (_markdown_to_html readme_content) = Raise e ->
             Display.readme env tt_data s0
             = (Raise e, [Display.CreateTemp ".html"])).
Proof.
  intros Hrun.
  destruct (tt_load_gh_post env _ _ _ _ _ _ Hrun)
    as [->|(date & year & (files & readme_content & -> & _) & _)].
  { left. split; reflexivity. }
  right. exists readme_content. split; [reflexivity|].
  unfold Display.readme.
  cbn [Display.no_readme Py.truthy negb Py.contains Py.getitem Py.assoc
       res_bind String.eqb Ascii.eqb Bool.eqb].
  repeat split.
  - intros tmp_path -> Hwrite. cbv beta iota.
    destruct (write_text env _) as [[]|]; [reflexivity | discriminate].
  - intros tmp_path Hcreate Hwrite.
    destruct (readme_function
                (VDict [("date", VStr date); ("year", VStr year);
                        ("files", VList files);
                        ("readme_content", VStr readme_content);
                        ("readme_html",
                         VStr (_markdown_to_html readme_content))]) s0)
      as [v Hv].
    exists v. rewrite Hv. unfold Display.readme.
    cbn [Display.no_readme Py.truthy negb Py.contains Py.getitem Py.assoc
         res_bind String.eqb Ascii.eqb Bool.eqb clock].
    rewrite Hcreate. cbv beta iota.
    destruct (write_text env _) as [[]|]; [reflexivity | discriminate].
  - intros e ->. reflexivity.
  - intros tmp_path e -> Hwrite. cbv beta iota. rewrite Hwrite. reflexivity.
Qed.

End Readme.

Lemma readme_shows_rendering_witness :
  Display.readme (Sample.env 60) SampleData.metadata Sample.start
  = (Ok tt,
     [Display.CreateTemp ".html";
      Display.WriteTemp (TidyTuesdayPy._markdown_to_html SampleData.readme);
      Display.OpenBrowser "file:///tmp/tmp0.html";
      Display.Say "README opened in your browser."]).
Proof.
  destruct (readme_shows_rendering (Sample.env 60) (VStr "2021-01-05") None
              Sample.start SampleData.metadata (mkstate 3 (VInt 60))
              [Request TidyTuesdayPy.RATE_LIMIT_URL;
               Request (Sample.api +:+ "/2021/2021-01-05");
               Request (Sample.raw +:+ "/2021/2021-01-05/README.md")]
              Sample.start)
    as [[Hempty _]|(readme_content & Hcontent & Hshown & _)].
  - vm_compute. reflexivity.
  - discriminate Hempty.
  - injection Hcontent as <-.
    apply (Hshown "/tmp/tmp0.html"); vm_compute; reflexivity.
Defined.

(** * The catalogue of all years: [tt_available] *)
Section Catalogue.
Import TidyTuesdayPy.
Context (env : Env).

Lemma key_eq_refl k : Py.hashable k = true -> Py.key_eq k k = true.
Proof.
  destruct k as [|b|n|s|l|kvs]; cbn; try discriminate; intros _.
  - reflexivity.
  - destruct b; reflexivity.
  - apply Z.eqb_refl.
  - apply String.eqb_refl.
Qed.

Lemma setitem_has_key {A} (d : list (value * A)) k x :
  Py.hashable k = true ->
  exists k', (k', x) ∈ Py.setitem d k x /\ Py.key_eq k' k = true.
Proof.
  intros Hk. induction d as [|[k0 x0] d (k' & Hin & Heq)]; cbn [Py.setitem].
  - exists k. split; [apply list_elem_of_here | apply key_eq_refl, Hk].
  - destruct (Py.key_eq k0 k) eqn:E.
    + exists k0. split; [apply list_elem_of_here | exact E].
    + exists k'. split; [apply list_elem_of_further, Hin | exact Heq].
Qed.

Lemma setitem_keeps {A} (d : list (value * A)) k x k0 x0 :
  (k0, x0) ∈ d -> exists x1, (k0, x1) ∈ Py.setitem d k x.
Proof.
  induction d as [|[k1 x1] d IH]; cbn [Py.setitem]; intros Hin.
  - apply elem_of_nil in Hin. contradiction.
  - apply elem_of_cons in Hin as [[= <- <-]|Hin].
    + destruct (Py.key_eq k0 k); eexists; apply list_elem_of_here.
    + destruct (Py.key_eq k1 k).
      * exists x0. apply list_elem_of_further, Hin.
      * destruct (IH Hin) as [x2 H2]. exists x2.
        apply list_elem_of_further, H2.
Qed.

Lemma setitem_Forall {A} (P : A -> Prop) (d : list (value * A)) k x :
  Forall (fun kv => P (snd kv)) d -> P x ->
  Forall (fun kv => P (snd kv)) (Py.setitem d k x).
Proof.
  intros Hd Hx. induction Hd as [|[k0 x0] d H0 Hd IH]; cbn [Py.setitem].
  - constructor; [exact Hx | constructor].
  - destruct (Py.key_eq k0 k); constructor; assumption.
Qed.

Lemma has_key_setitem all_datasets year datasets :
  Py.hashable year = true ->
  has_key (Py.setitem all_datasets year datasets) year.
Proof.
  intros Hk. destruct (setitem_has_key all_datasets year datasets Hk)
    as (k' & Hin & Heq).
  exists k', datasets. split; assumption.
Qed.

Lemma has_key_keeps all_datasets year datasets y :
  has_key all_datasets y -> has_key (Py.setitem all_datasets year datasets) y.
Proof.
  intros (k0 & x0 & Hin & Heq).
  destruct (setitem_keeps all_datasets year datasets k0 x0 Hin) as [x1 H1].
  exists k0, x1. split; assumption.
Qed.

Lemma years_loop_post years :
  forall acc,
    Forall (fun kv => StronglySorted by_date (snd kv)) acc ->
    post (years_loop env years acc)
      (fun all_datasets =>
         Forall (fun kv => StronglySorted by_date (snd kv)) all_datasets
         /\ (forall y, has_key acc y -> has_key all_datasets y)
         /\ Forall (has_key all_datasets) years).
Proof.
  induction years as [|year rest IH]; intros acc Hacc; cbn [years_loop].
  { apply post_ret. split; [exact Hacc|]. split; [auto | constructor]. }
  eapply post_bind; [apply (tt_datasets_post env)|].
  intros datasets [Hsorted _].
  destruct (Py.hashable year) eqn:Hyear; [|apply post_raise].
  eapply post_weaken.
  { apply IH. apply setitem_Forall; assumption. }
  intros all_datasets (Hall & Hkeeps & Hrest).
  split; [exact Hall|]. split.
  - intros y Hy. apply Hkeeps, has_key_keeps, Hy.
  - constructor; [|exact Hrest].
    apply Hkeeps, has_key_setitem, Hyear.
Qed.

(** X24.  Every list of the dictionary [tt_available] returns is sorted by
    date, as the lists of [tt_datasets] are. *)
Theorem tt_available_sorted s all_datasets s' l :
  tt_available env s = (Ok all_datasets, s', l) ->
  Forall (fun '(year, datasets) => StronglySorted by_date datasets)
    all_datasets.
Proof.
  intros Hrun.
  assert (Hpost : post (tt_available env)
            (Forall (fun kv => StronglySorted by_date (snd kv)))).
  { unfold tt_available.
    eapply post_bind; [apply post_trivial|]. intros remaining _.
    eapply post_bind; [apply post_trivial|]. intros low _.
    destruct low.
    { eapply post_bind; [apply post_trivial|]. intros _ _.
      apply post_ret. constructor. }
    apply post_try_except.
    2:{ intros e. eapply post_bind; [apply post_trivial|]. intros _ _.
        apply post_ret. constructor. }
    eapply post_bind; [apply post_trivial|]. intros response _.
    destruct (negb _).
    { eapply post_bind; [apply post_trivial|]. intros _ _.
      apply post_ret. constructor. }
    eapply post_bind; [apply post_trivial|]. intros years_data _.
    eapply post_bind; [apply post_trivial|]. intros items _.
    eapply post_bind; [apply post_trivial|]. intros years _.
    eapply post_bind; [apply years_loop_post; constructor|].
    intros all (Hall & _ & _).
    eapply post_bind; [apply post_trivial|]. intros _ _.
    eapply post_bind; [apply post_trivial|]. intros _ _.
    eapply post_bind; [apply post_trivial|]. intros _ _.
    apply post_ret. exact Hall. }
  specialize (Hpost _ _ _ _ Hrun).
  eapply Forall_impl; [exact Hpost|]. intros [year datasets] H. exact H.
Qed.

(** X25.  A dictionary of [tt_available] that is not empty has a key for
    every directory of the listing of years, also for a year whose own
    listing failed or was refused for want of budget. *)
Theorem tt_available_covers s all_datasets s' l response years_data items years :
  tt_available env s = (Ok all_datasets, s', l) ->
  all_datasets <> [] ->
  remote env (S (clock s)) GITHUB_API_URL = Some response ->
  response_json response = Ok years_data ->
  Py.iter years_data = Ok items ->
  dir_names items = Ok years ->
  Forall (has_key all_datasets) years.
Proof.
  intros Hrun Hne Hremote Hjson Hiter Hnames.
  destruct (rate_limit_check_quiet env s) as (v & s1 & Hcheck & Hclock).
  unfold tt_available in Hrun.
  apply bind_inv in Hrun as (remaining & s1' & l1 & la & Hcheck' & Hrun & _).
  rewrite Hcheck in Hcheck'. injection Hcheck' as <- <- <-.
  apply bind_inv in Hrun as (low & s2 & l2 & lb & Hlow & Hrun & _).
  unfold lift in Hlow. injection Hlow as Hlow <- <-.
  destruct low.
  { unfold bind, print, ret in Hrun. injection Hrun as <- _ _. contradiction. }
  apply try_except_inv in Hrun as [Hok|(e & s3 & l3 & l4 & _ & Hh & _)].
  2:{ unfold bind, print, ret in Hh. injection Hh as <- _ _. contradiction. }
  apply bind_inv in Hok as (response' & s3 & l3 & lc & Hget & Hok & _).
  unfold requests_get in Hget. rewrite Hclock, Hremote in Hget.
  injection Hget as <- <- <-.
  destruct (negb _).
  { unfold bind, print, ret in Hok. injection Hok as <- _ _. contradiction. }
  apply bind_inv in Hok as (years_data' & s4 & l4 & ld & Hj & Hok & _).
  unfold lift in Hj. rewrite Hjson in Hj. injection Hj as <- <- <-.
  apply bind_inv in Hok as (items' & s5 & l5 & le & Hi & Hok & _).
  unfold lift in Hi. rewrite Hiter in Hi. injection Hi as <- <- <-.
  apply bind_inv in Hok as (years' & s6 & l6 & lf & Hn & Hok & _).
  unfold lift in Hn. rewrite Hnames in Hn. injection Hn as <- <- <-.
  apply bind_inv in Hok as (all & s7 & l7 & lg & Hloop & Hok & _).
  destruct (years_loop_post years [] ltac:(constructor) _ _ _ _ Hloop)
    as (_ & _ & Hcovers).
  apply bind_inv in Hok as (? & ? & ? & ? & _ & Hok & _).
  apply bind_inv in Hok as (? & ? & ? & ? & _ & Hok & _).
  apply bind_inv in Hok as (? & ? & ? & ? & _ & Hok & _).
  unfold ret in Hok. injection Hok as <- _ _. exact Hcovers.
Qed.

End Catalogue.

Lemma tt_available_sorted_witness :
  Forall (fun '(year, datasets) => StronglySorted by_date datasets)
    [(VStr "2021",
      [mkdataset "2020-12-29" "Unknown" "2021/2020-12-29";
       mkdataset "2021-01-05" "Transit Costs" "2021/2021-01-05";
       mkdataset "2021-01-12" "Art Collections" "2021/2021-01-12"])].
Proof.
  eapply (tt_available_sorted (Sample.env 60) Sample.start).
  vm_compute. reflexivity.
Defined.

Lemma tt_available_covers_witness :
  Forall
    (has_key
       [(VStr "2021",
         [mkdataset "2020-12-29" "Unknown" "2021/2020-12-29";
          mkdataset "2021-01-05" "Transit Costs" "2021/2021-01-05";
          mkdataset "2021-01-12" "Art Collections" "2021/2021-01-12"])])
    [VStr "2021"].
Proof.
  eapply (tt_available_covers (Sample.env 60) Sample.start).
  - vm_compute. reflexivity.
  - discriminate.
  - reflexivity.
  - reflexivity.
  - reflexivity.
  - reflexivity.
Defined.

(** * The entries of a listing *)
Module TitleFacts.
Import Str StrFacts MarkdownFacts MarkdownLines.

Lemma rev_involutive s : String.rev (String.rev s) = s.
Proof.
  induction s as [|c s IH]; [reflexivity|].
  rewrite rev_cons, rev_app_distr, IH. reflexivity.
Qed.

Lemma lstrip_starts s : starts_with_space (lstrip s) = false.
Proof.
  induction s as [|c s IH]; [reflexivity|]. cbn [lstrip].
  destruct (is_space c) eqn:E; [exact IH | exact E].
Qed.

Lemma lstrip_suffix s : exists w, s = w +:+ lstrip s.
Proof.
  induction s as [|c s [w IH]]; [exists ""; reflexivity|]. cbn [lstrip].
  destruct (is_space c).
  - exists (String c w). rewrite app_cons, <- IH. reflexivity.
  - exists "". reflexivity.
Qed.

Lemma one_line_lstrip s : one_line s = true -> one_line (lstrip s) = true.
Proof.
  destruct (lstrip_suffix s) as [w E]. intros H. rewrite E in H.
  rewrite one_line_app in H. apply andb_true_iff in H as [_ H]. exact H.
Qed.

Lemma one_line_rev s : one_line (String.rev s) = one_line s.
Proof. unfold one_line, line_feed. rewrite contains_rev. reflexivity. Qed.

(** What [strip] leaves of one line is tidy. *)
Lemma strip_tidy s : one_line s = true -> tidy (strip s) = true.
Proof.
  intros Hline. unfold strip, tidy.
  set (u := lstrip s). set (v := lstrip (String.rev u)).
  assert (Hu : one_line u = true) by (apply one_line_lstrip, Hline).
  assert (Hv : one_line v = true)
    by (apply one_line_lstrip; rewrite one_line_rev; exact Hu).
  rewrite one_line_rev, Hv, rev_involutive.
  unfold v at 2. rewrite lstrip_starts. rewrite andb_true_r. cbn [andb].
  apply negb_true_iff.
  destruct (lstrip_suffix (String.rev u)) as [w E]. fold v in E.
  assert (Eu : u = String.rev v +:+ String.rev w)
    by (rewrite <- rev_app_distr, <- E, rev_involutive; reflexivity).
  pose proof (lstrip_starts s) as Hstart. fold u in Hstart.
  rewrite Eu in Hstart. destruct (String.rev v) as [|c r]; [reflexivity|].
  exact Hstart.
Qed.

Lemma until_newline_one_line s : one_line (Re.until_newline s) = true.
Proof.
  unfold one_line, line_feed. apply negb_true_iff.
  induction s as [|c s IH]; [reflexivity|]. cbn [Re.until_newline].
  rewrite is_newline_eqb. destruct (Ascii.eqb "010" c) eqn:E; [reflexivity|].
  rewrite contains_cons, E, IH. reflexivity.
Qed.

Lemma search_title_one_line s group1 :
  Re.search_title s = Some group1 -> one_line group1 = true.
Proof.
  induction s as [|c s IH]; cbn [Re.search_title]; [discriminate|].
  destruct (Ascii.eqb c "#"); [|exact IH].
  destruct s as [|w s']; [discriminate|].
  destruct (is_space w); [|exact IH].
  intros [= <-]. apply until_newline_one_line.
Qed.

Lemma title_of_tidy readme_response :
  tidy (TidyTuesdayPy.title_of readme_response) = true.
Proof.
  unfold TidyTuesdayPy.title_of.
  destruct (status_code readme_response =? 200)%Z; [|reflexivity].
  destruct (Re.search_title (text readme_response)) as [group1|] eqn:E;
    [|reflexivity].
  apply strip_tidy. exact (search_title_one_line _ _ E).
Qed.

End TitleFacts.

Section Entries.
Import TidyTuesdayPy TitleFacts.
Context (env : Env).

Lemma match_date_name_false v :
  Re.match_date_name v = Ok false ->
  exists s, v = VStr s /\ Re.is_date_name s = false.
Proof. destruct v; cbn; intros [=]. eauto. Qed.

Lemma omap_week_name folder rest :
  omap week_name (folder :: rest)
  = match week_name folder with
    | Some name => name :: omap week_name rest
    | None => omap week_name rest
    end.
Proof. reflexivity. Qed.

(** The loop makes one entry for each folder whose name has the form
    of a date, in the order of the folders. *)
Lemma datasets_loop_dates year folders :
  forall acc s datasets s' l,
    datasets_loop env year folders acc s = (Ok datasets, s', l) ->
    map date datasets = map date acc ++ omap week_name folders.
Proof.
  induction folders as [|folder rest IH]; intros acc s datasets s' l Hrun;
    cbn [datasets_loop] in Hrun.
  { injection Hrun as <- _ _. cbn. rewrite app_nil_r. reflexivity. }
  apply bind_inv in Hrun as (name & s1 & l1 & la & Hname & Hrun & _).
  unfold lift in Hname. injection Hname as Hname <- <-.
  apply bind_inv in Hrun as (is_date & s2 & l2 & lb & Hmatch & Hrun & _).
  unfold lift in Hmatch. injection Hmatch as Hmatch <- <-.
  rewrite omap_week_name. unfold week_name at 1 2. rewrite Hname.
  destruct is_date.
  - apply match_date_name_true in Hmatch as (d & -> & Hd). rewrite Hd.
    apply bind_inv in Hrun as (response & s3 & l3 & lc & _ & Hrun & _).
    rewrite (IH _ _ _ _ _ Hrun), map_app, <- app_assoc. reflexivity.
  - apply match_date_name_false in Hmatch as (d & -> & Hd). rewrite Hd.
    exact (IH _ _ _ _ _ Hrun).
Qed.

Lemma datasets_loop_titles year folders :
  forall acc,
    Forall (fun d => tidy (title d) = true) acc ->
    post (datasets_loop env year folders acc)
      (Forall (fun d => tidy (title d) = true)).
Proof.
  induction folders as [|folder rest IH]; intros acc Hacc; cbn [datasets_loop].
  - apply post_ret. exact Hacc.
  - eapply post_bind; [apply post_trivial|]. intros week_name _.
    eapply post_bind; [apply post_trivial|]. intros [|] _.
    + eapply post_bind; [apply post_trivial|]. intros readme_response _.
      apply IH. apply Forall_app. split; [exact Hacc|].
      constructor; [|constructor]. apply title_of_tidy.
    + apply IH. exact Hacc.
Qed.

(** The dates of a listing that is not empty are the names of the
    folders of the year that have the form of a date. *)
Lemma tt_datasets_dates year print_output s datasets s' l :
  tt_datasets env year print_output s = (Ok datasets, s', l) ->
  datasets <> [] ->
  exists folders,
    year_folders env (S (clock s)) (str env year) folders
    /\ map date datasets ≡ₚ omap week_name folders.
Proof.
  intros Hrun Hne.
  destruct (rate_limit_check_quiet env s) as (v & s1 & Hcheck & Hclock).
  unfold tt_datasets in Hrun.
  apply bind_inv in Hrun as (remaining & s1' & l1 & la & Hcheck' & Hrun & _).
  rewrite Hcheck in Hcheck'. injection Hcheck' as <- <- <-.
  apply bind_inv in Hrun as (low & s2 & l2 & lb & Hlow & Hrun & _).
  unfold lift in Hlow. injection Hlow as Hlow <- <-.
  destruct low.
  { unfold bind, print, ret in Hrun. injection Hrun as <- _ _. contradiction. }
  apply try_except_inv in Hrun as [Hok|(e & s3 & l3 & l4 & _ & Hh & _)].
  2:{ unfold bind, print, ret in Hh. injection Hh as <- _ _. contradiction. }
  apply bind_inv in Hok as (response & s3 & l3 & lc & Hget & Hok & _).
  unfold requests_get in Hget. rewrite Hclock in Hget.
  destruct (remote env _ _) as [response'|] eqn:Hremote; [|discriminate].
  injection Hget as -> <- <-.
  destruct (negb _).
  { unfold bind, print, ret in Hok. injection Hok as <- _ _. contradiction. }
  apply bind_inv in Hok as (data & s4 & l4 & ld & Hjson & Hok & _).
  unfold lift in Hjson. injection Hjson as Hjson <- <-.
  apply bind_inv in Hok as (items & s5 & l5 & le & Hiter & Hok & _).
  unfold lift in Hiter. injection Hiter as Hiter <- <-.
  apply bind_inv in Hok as (folders & s6 & l6 & lf & Hdirs & Hok & _).
  unfold lift in Hdirs. injection Hdirs as Hdirs <- <-.
  apply bind_inv in Hok as (unsorted & s7 & l7 & lg & Hloop & Hok & _).
  apply bind_inv in Hok as (? & ? & ? & ? & _ & Hok & _).
  unfold ret in Hok. injection Hok as <- _ _.
  exists folders. split.
  - exists response, data, items. auto.
  - rewrite (sort_by_Permutation date unsorted).
    rewrite (datasets_loop_dates _ _ _ _ _ _ _ Hloop). reflexivity.
Qed.


(** X8.  A listing that is not empty is complete: its dates are the names
    of the folders of the year that have the form of a date, each
    once, none dropped and none added. *)
Theorem tt_datasets_complete year print_output s datasets s' l
    response data items folders :
  tt_datasets env year print_output s = (Ok datasets, s', l) ->
  datasets <> [] ->
  remote env (S (clock s)) (GITHUB_API_URL +:+ "/" +:+ str env year)
  = Some response ->
  response_json response = Ok data ->
  Py.iter data = Ok items ->
  dirs items = Ok folders ->
  map date datasets ≡ₚ omap week_name folders.
Proof.
  intros Hrun Hne Hremote Hjson Hiter Hdirs.
  destruct (rate_limit_check_quiet env s) as (v & s1 & Hcheck & Hclock).
  unfold tt_datasets in Hrun.
  apply bind_inv in Hrun as (remaining & s1' & l1 & la & Hcheck' & Hrun & _).
  rewrite Hcheck in Hcheck'. injection Hcheck' as <- <- <-.
  apply bind_inv in Hrun as (low & s2 & l2 & lb & Hlow & Hrun & _).
  unfold lift in Hlow. injection Hlow as Hlow <- <-.
  destruct low.
  { unfold bind, print, ret in Hrun. injection Hrun as <- _ _. contradiction. }
  apply try_except_inv in Hrun as [Hok|(e & s3 & l3 & l4 & _ & Hh & _)].
  2:{ unfold bind, print, ret in Hh. injection Hh as <- _ _. contradiction. }
  apply bind_inv in Hok as (response' & s3 & l3 & lc & Hget & Hok & _).
  unfold requests_get in Hget. rewrite Hclock, Hremote in Hget.
  injection Hget as <- <- <-.
  destruct (negb _).
  { unfold bind, print, ret in Hok. injection Hok as <- _ _. contradiction. }
  apply bind_inv in Hok as (data' & s4 & l4 & ld & Hj & Hok & _).
  unfold lift in Hj. rewrite Hjson in Hj. injection Hj as <- <- <-.
  apply bind_inv in Hok as (items' & s5 & l5 & le & Hi & Hok & _).
  unfold lift in Hi. rewrite Hiter in Hi. injection Hi as <- <- <-.
  apply bind_inv in Hok as (folders' & s6 & l6 & lf & Hd & Hok & _).
  unfold lift in Hd. rewrite Hdirs in Hd. injection Hd as <- <- <-.
  apply bind_inv in Hok as (unsorted & s7 & l7 & lg & Hloop & Hok & _).
  apply bind_inv in Hok as (? & ? & ? & ? & _ & Hok & _).
  unfold ret in Hok. injection Hok as <- _ _.
  rewrite (sort_by_Permutation date unsorted).
  rewrite (datasets_loop_dates _ _ _ _ _ _ _ Hloop). reflexivity.
Qed.

(** X9.  The titles of a listing are tidy: each is one line, without white
    space at its start or its end, whatever the README holds. *)
Theorem tt_datasets_titles year print_output s datasets s' l :
  tt_datasets env year print_output s = (Ok datasets, s', l) ->
  Forall (fun d => tidy (title d) = true) datasets.
Proof.
  revert s datasets s' l.
  change (post (tt_datasets env year print_output)
            (Forall (fun d => tidy (title d) = true))).
  unfold tt_datasets.
  eapply post_bind; [apply post_trivial|]. intros remaining _.
  eapply post_bind; [apply post_trivial|]. intros low _.
  destruct low.
  { eapply post_bind; [apply post_trivial|]. intros _ _.
    apply post_ret. constructor. }
  apply post_try_except.
  2:{ intros e. eapply post_bind; [apply post_trivial|]. intros _ _.
      apply post_ret. constructor. }
  eapply post_bind; [apply post_trivial|]. intros response _.
  destruct (negb _).
  { eapply post_bind; [apply post_trivial|]. intros _ _.
    apply post_ret. constructor. }
  eapply post_bind; [apply post_trivial|]. intros data _.
  eapply post_bind; [apply post_trivial|]. intros items _.
  eapply post_bind; [apply post_trivial|]. intros folders _.
  eapply post_bind; [apply datasets_loop_titles; constructor|].
  intros datasets Htidy.
  eapply post_bind; [apply post_trivial|]. intros _ _.
  apply post_ret. apply sort_by_Forall. exact Htidy.
Qed.

End Entries.



Lemma tt_datasets_complete_witness :
  map date
    [mkdataset "2020-12-29" "Unknown" "2021/2020-12-29";
     mkdataset "2021-01-05" "Transit Costs" "2021/2021-01-05";
     mkdataset "2021-01-12" "Art Collections" "2021/2021-01-12"]
  ≡ₚ omap week_name
       [Sample.listing_entry "2021-01-12" "dir" "" "";
        Sample.listing_entry "2021-01-05" "dir" "" "";
        Sample.listing_entry "2020-12-29" "dir" "" ""].
Proof.
  eapply (tt_datasets_complete (Sample.env 60) (VInt 2021) false Sample.start).
  - vm_compute. reflexivity.
  - discriminate.
  - reflexivity.
  - reflexivity.
  - reflexivity.
  - reflexivity.
Defined.

Lemma tt_datasets_titles_witness :
  Forall (fun d => tidy (title d) = true)
    [mkdataset "2020-12-29" "Unknown" "2021/2020-12-29";
     mkdataset "2021-01-05" "Transit Costs" "2021/2021-01-05";
     mkdataset "2021-01-12" "Art Collections" "2021/2021-01-12"].
Proof.
  eapply (tt_datasets_titles (Sample.env 60) (VInt 2021) false Sample.start).
  vm_compute. reflexivity.
Defined.


Section Stems.
Import TidyTuesdayPy StemFacts.
Context (env : Env).


End Stems.

